(** * A queueing simulation on a discrete-event scheduler

    Shallow embedding of [simulation.py]: the function [run_simulation]
    with its two nested generator functions [customer] and
    [customer_generator], together with the parts of the two libraries
    it drives:

    - the event loop of SimPy ([Environment.schedule], [Environment.step],
      [Environment.run], the events [Initialize], [Timeout], [Process],
      and [Resource] with its [request]/[release] and put queue);
    - the module-global generator of Python's [random] ([random.seed],
      [random.expovariate]).

    Simulated time is a Python float in the source.  It is modelled by an
    exact rational ([Q]): the statements below are about the arithmetic
    the code writes down, not about binary rounding. *)

From Stdlib Require Import ZArith QArith Qround Qabs List Bool Lia Lqa.
From Stdlib Require Import Permutation Qminmax.
From Stdlib Require String Ascii.
Import ListNotations.

Open Scope Q_scope.

(** ** Python exceptions that can leave [run_simulation] *)

Inductive exn : Type :=
| ValueError
| ZeroDivisionError
| RuntimeError.

(** ** The generator behind the [random] module

    [random.seed(a)] replaces the state of the module-global generator.
    [random.expovariate(lambd)] is [-log(1.0 - random()) / lambd]; the
    field [exp_draw] stands for the numerator [-log(1.0 - random())] of
    one call and the state the call leaves behind. *)

Record Random : Type := {
  generator : Type;
  seed : Z -> generator;
  exp_draw : generator -> Q * generator
}.

(** ** Rational helpers *)

Definition Qltb (x y : Q) : bool :=
  match Qcompare x y with Lt => true | _ => false end.

Definition Qsum (l : list Q) : Q := fold_right Qplus 0 l.

(** [np.mean] of a non-empty list. *)
Definition mean (l : list Q) : Q := Qsum l / inject_Z (Z.of_nat (length l)).

(** Round half to even, to an integer. *)
Definition rint (x : Q) : Z :=
  let f := Qfloor x in
  match Qcompare (x - inject_Z f) (1 # 2) with
  | Lt => f
  | Gt => (f + 1)%Z
  | Eq => if Z.even f then f else (f + 1)%Z
  end.

(** [round(x, 2)]. *)
Definition round2 (x : Q) : Q := inject_Z (rint (x * 100)) / 100.

(** ** Events and the event queue *)

(** What [print] is asked to write when [verbose] is set; the rendering
    of the numbers with [:.2f] is left out. *)
Inductive line : Type :=
| Arrives (i : nat) (arrival_time : Q)
| Starts (i : nat) (start_service wait_time : Q)
| Leaves (i : nat) (end_time system_time : Q).

(** An event of the queue, named by what its callbacks do when it is
    processed.  A suspended generator is the callback of the event it
    waits for; the event carries the locals of that generator's frame. *)
Inductive event : Type :=
| Initialize_generator
    (* Initialize of the customer_generator process *)
| Initialize_customer (i : nat)
    (* Initialize of the process of Customer i *)
| Timeout_generator (i : nat)
    (* customer_generator suspended at line 51, its local i *)
| Request (i : nat) (arrival_time : Q)
    (* the granted request of Customer i, suspended at line 31 *)
| Timeout_service (i : nat) (arrival_time start_service wait_time : Q)
    (* Customer i suspended at line 38 *)
| Release
    (* a Release; its callback is Resource._trigger_put *)
| Process_ok
    (* a Process whose generator returned *)
| Process_failed (e : exn)
    (* a Process whose generator raised e *)
| Until.
    (* the event of run(until=...); its callback stops the loop *)

Definition URGENT : Z := 0%Z.
Definition NORMAL : Z := 1%Z.

(** An item of [Environment._queue]: [(time, priority, eid, event)]. *)
Record entry : Type := mkEntry {
  e_time : Q;
  e_prio : Z;
  e_eid : nat;
  e_event : event
}.

(** Tuple comparison on [(time, priority, eid)]. *)
Definition entry_ltb (a b : entry) : bool :=
  match Qcompare (e_time a) (e_time b) with
  | Lt => true
  | Gt => false
  | Eq =>
      if (e_prio a <? e_prio b)%Z then true
      else if (e_prio b <? e_prio a)%Z then false
      else (e_eid a <? e_eid b)%nat
  end.

(** [heappop]: the least item and the remaining ones. *)
Fixpoint heappop (q : list entry) : option (entry * list entry) :=
  match q with
  | [] => None
  | e :: q' =>
      match heappop q' with
      | None => Some (e, [])
      | Some (m, r) =>
          if entry_ltb e m then Some (e, q') else Some (m, e :: r)
      end
  end.

(** [list.remove(x)]: drops the first occurrence, if any. *)
Fixpoint remove_first (x : nat) (l : list nat) : list nat :=
  match l with
  | [] => []
  | y :: l' => if (x =? y)%nat then l' else y :: remove_first x l'
  end.

(** Whether an item of the queue is the service timeout of a customer,
    and the wait that customer recorded when its service began. *)
Definition in_service (en : entry) : nat :=
  match e_event en with
  | Timeout_service _ _ _ _ => 1
  | _ => 0
  end.

Definition service_wait (en : entry) : Q :=
  match e_event en with
  | Timeout_service _ _ _ w => w
  | _ => 0
  end.

Definition count_in_service (q : list entry) : nat :=
  list_sum (map in_service q).

Definition waits_in_service (q : list entry) : Q :=
  Qsum (map service_wait q).

(** *** Bookkeeping for the first-come-first-served argument *)

(** The customer an event belongs to, per kind of event. *)
Definition initialize_index (en : entry) : option nat :=
  match e_event en with
  | Initialize_customer k => Some k
  | _ => None
  end.

Definition request_index (en : entry) : option nat :=
  match e_event en with
  | Request k _ => Some k
  | _ => None
  end.

Definition service_index (en : entry) : option nat :=
  match e_event en with
  | Timeout_service k _ _ _ => Some k
  | _ => None
  end.

Definition is_release (en : entry) : nat :=
  match e_event en with
  | Release => 1
  | _ => 0
  end.

Definition is_generator (en : entry) : nat :=
  match e_event en with
  | Initialize_generator => 1
  | Timeout_generator _ => 1
  | _ => 0
  end.

Definition count (g : entry -> nat) (q : list entry) : nat :=
  list_sum (map g q).

(** [family f lo hi tm pr q]: the events of one kind in the queue are
    those of the customers [lo], ..., [hi - 1], one each; the event of
    customer [k] is due at [tm k] with priority [pr]; and they were
    scheduled in the order of the customers. *)
Definition family (f : entry -> option nat) (lo hi : nat) (tm : nat -> Q)
    (pr : Z) (q : list entry) : Prop :=
  (forall en k, In en q -> f en = Some k ->
     (lo <= k < hi)%nat /\ e_time en == tm k /\ e_prio en = pr) /\
  (forall k, (lo <= k < hi)%nat -> exists en, In en q /\ f en = Some k) /\
  (forall x y kx ky, In x q -> In y q -> f x = Some kx -> f y = Some ky ->
     (kx <= ky)%nat -> (e_eid x <= e_eid y)%nat).

(** How far each customer has come: [arrived] were created by the
    generator, [entered] have made their request, [grants] lists the
    times at which the requests granted so far were granted, [started]
    have begun service and [departed] have left. *)
Record ghost : Type := mkGhost {
  arrived : nat;
  entered : nat;
  started : nat;
  departed : nat;
  grants : list Q
}.

Definition grant (gh : ghost) (k : nat) : Q := nth k (grants gh) 0.

Definition granted (gh : ghost) : nat := length (grants gh).

Section Engine.

Variable R : Random.

(** The state of one call: the environment, the resource, the three
    closure variables of [run_simulation], the module-global generator
    and what was printed. *)
Record state : Type := mkState {
  now : Q;
  queue : list entry;
  eid : nat;
  users : list nat;
  put_queue : list (nat * Q);
  wait_times : list Q;
  system_times : list Q;
  customers_served : nat;
  random_state : generator R;
  stdout : list line
}.

Definition set_clock (t : Q) (q : list entry) (st : state) : state :=
  mkState t q (eid st) (users st) (put_queue st) (wait_times st)
    (system_times st) (customers_served st) (random_state st) (stdout st).

Definition set_resource (u : list nat) (p : list (nat * Q)) (st : state) : state :=
  mkState (now st) (queue st) (eid st) u p (wait_times st)
    (system_times st) (customers_served st) (random_state st) (stdout st).

Definition set_random (g : generator R) (st : state) : state :=
  mkState (now st) (queue st) (eid st) (users st) (put_queue st) (wait_times st)
    (system_times st) (customers_served st) g (stdout st).

Definition append_wait (w : Q) (st : state) : state :=
  mkState (now st) (queue st) (eid st) (users st) (put_queue st)
    (wait_times st ++ [w])
    (system_times st) (customers_served st) (random_state st) (stdout st).

Definition append_system (s : Q) (st : state) : state :=
  mkState (now st) (queue st) (eid st) (users st) (put_queue st) (wait_times st)
    (system_times st ++ [s]) (customers_served st) (random_state st) (stdout st).

Definition incr_served (st : state) : state :=
  mkState (now st) (queue st) (eid st) (users st) (put_queue st) (wait_times st)
    (system_times st) (S (customers_served st)) (random_state st) (stdout st).

Definition print (l : line) (st : state) : state :=
  mkState (now st) (queue st) (eid st) (users st) (put_queue st) (wait_times st)
    (system_times st) (customers_served st) (random_state st) (stdout st ++ [l]).

(** [Environment.schedule(event, priority, delay)]. *)
Definition schedule (ev : event) (priority : Z) (delay : Q) (st : state) : state :=
  mkState (now st)
    (queue st ++ [mkEntry (now st + delay) priority (eid st) ev])
    (S (eid st)) (users st) (put_queue st) (wait_times st)
    (system_times st) (customers_served st) (random_state st) (stdout st).

(** The state with what was printed forgotten. *)
Definition mute (st : state) : state :=
  mkState (now st) (queue st) (eid st) (users st) (put_queue st)
    (wait_times st) (system_times st) (customers_served st)
    (random_state st) [].

(** Two states that agree on all but the recorded system times, the
    count of customers served and what was printed. *)
Definition same_view (st st' : state) : Prop :=
  now st = now st' /\ queue st = queue st' /\ eid st = eid st' /\
  users st = users st' /\ put_queue st = put_queue st' /\
  wait_times st = wait_times st' /\ random_state st = random_state st'.

(** A state given by the fields the queueing discipline is about. *)
Definition view (t : Q) (q : list entry) (e : nat) (u : list nat)
    (p : list (nat * Q)) (w : list Q) (g : generator R) : state :=
  mkState t q e u p w [] 0 g [].

(** [quiet st st']: from [st] to [st'] nothing was recorded and only
    events other than service timeouts were scheduled. *)
Definition quiet (st st' : state) : Prop :=
  wait_times st' = wait_times st /\
  system_times st' = system_times st /\
  customers_served st' = customers_served st /\
  exists l : list entry,
    queue st' = queue st ++ l /\ Forall (fun en => in_service en = O) l.

Section Call.

(** The arguments of [run_simulation] that its nested functions close
    over, and the capacity of the resource they are handed. *)
Variable n_servers : Z.
Variable arrival_rate : Q.
Variable service_time : Q.
Variable verbose : bool.

Definition print_if_verbose (l : line) (st : state) : state :=
  if verbose then print l st else st.

(** [BaseResource._trigger_put] with [Resource._do_put]: only the head
    of the put queue is looked at, since [_do_put] returns [None]. *)
Definition trigger_put (st : state) : state :=
  match put_queue st with
  | [] => st
  | (h, a) :: rest =>
      if (Z.of_nat (length (users st)) <? n_servers)%Z
      then schedule (Request h a) NORMAL 0
             (set_resource (users st ++ [h]) rest st)
      else st
  end.

(** [server.request()]: the new request joins the put queue, then
    [_trigger_put] runs. *)
Definition request (i : nat) (arrival_time : Q) (st : state) : state :=
  trigger_put (set_resource (users st) (put_queue st ++ [(i, arrival_time)]) st).

(** [server.release(request)], called when the [with] block is left:
    the request leaves [users] and the Release event is scheduled. *)
Definition release (i : nat) (st : state) : state :=
  schedule Release NORMAL 0
    (set_resource (remove_first i (users st)) (put_queue st) st).

(** [customer], lines 27 to 31: up to [yield request]. *)
Definition customer_arrive (i : nat) (st : state) : state :=
  let arrival_time := now st in
  let st := print_if_verbose (Arrives i arrival_time) st in
  request i arrival_time st.

(** [customer], lines 32 to 38: from the granted request up to
    [yield env.timeout(service_time)].  [Timeout] raises [ValueError] on
    a negative delay; the [with] block then releases the request and the
    process fails. *)
Definition customer_start (i : nat) (arrival_time : Q) (st : state) : state :=
  let start_service := now st in
  let wait_time := start_service - arrival_time in
  let st := append_wait wait_time st in
  let st := print_if_verbose (Starts i start_service wait_time) st in
  if Qltb service_time 0
  then schedule (Process_failed ValueError) NORMAL 0 (release i st)
  else schedule (Timeout_service i arrival_time start_service wait_time)
         NORMAL service_time st.

(** [customer], lines 40 to 45, the end of the [with] block and the
    return of the generator. *)
Definition customer_leave (i : nat) (arrival_time : Q) (st : state) : state :=
  let end_time := now st in
  let system_time := end_time - arrival_time in
  let st := append_system system_time st in
  let st := incr_served st in
  let st := print_if_verbose (Leaves i end_time system_time) st in
  schedule Process_ok NORMAL 0 (release i st).

(** [customer_generator], line 51: one draw and the timeout on it.  The
    draw is consumed before the division can fail. *)
Definition generator_wait (i : nat) (st : state) : state :=
  let (e, g) := exp_draw R (random_state st) in
  let st := set_random g st in
  if Qeq_bool arrival_rate 0
  then schedule (Process_failed ZeroDivisionError) NORMAL 0 st
  else
    let delay := e / arrival_rate in
    if Qltb delay 0
    then schedule (Process_failed ValueError) NORMAL 0 st
    else schedule (Timeout_generator i) NORMAL delay st.

(** [customer_generator], lines 52 and 53, then line 51 again. *)
Definition generator_arrival (i : nat) (st : state) : state :=
  generator_wait (S i) (schedule (Initialize_customer i) URGENT 0 st).

(** The callbacks of an event. *)
Inductive step_result : Type :=
| Running (st : state)
| Stopped (st : state)
| Raised (e : exn) (st : state).

Definition dispatch (ev : event) (st : state) : step_result :=
  match ev with
  | Initialize_generator => Running (generator_wait 0 st)
  | Initialize_customer i => Running (customer_arrive i st)
  | Timeout_generator i => Running (generator_arrival i st)
  | Request i a => Running (customer_start i a st)
  | Timeout_service i a _ _ => Running (customer_leave i a st)
  | Release => Running (trigger_put st)
  | Process_ok => Running st
  | Process_failed e => Raised e st
  | Until => Stopped st
  end.

(** [Environment.step]: pop the least item, move the clock, run the
    callbacks.  An empty queue ends [run] with a [RuntimeError]. *)
Definition step (st : state) : step_result :=
  match heappop (queue st) with
  | None => Raised RuntimeError st
  | Some (en, q) => dispatch (e_event en) (set_clock (e_time en) q st)
  end.

(** The loop of [Environment.run]; [None] when [fuel] steps did not
    reach the end of the loop. *)
Fixpoint run (fuel : nat) (st : state) : option (option exn * state) :=
  match fuel with
  | O => None
  | S fuel' =>
      match step st with
      | Running st' => run fuel' st'
      | Stopped st' => Some (None, st')
      | Raised e st' => Some (Some e, st')
      end
  end.

Definition mute_result (r : step_result) : step_result :=
  match r with
  | Running st => Running (mute st)
  | Stopped st => Stopped (mute st)
  | Raised e st => Raised e (mute st)
  end.

(** The state a step leaves behind, whichever way it ends. *)
Definition after (r : step_result) : state :=
  match r with
  | Running st => st
  | Stopped st => st
  | Raised _ st => st
  end.

(** The state after [n] more iterations of the loop, when none of them
    ends it. *)
Fixpoint advance (n : nat) (st : state) : option state :=
  match n with
  | O => Some st
  | S n' =>
      match step st with
      | Running st' => advance n' st'
      | _ => None
      end
  end.

(** *** Invariants of the loop *)

(** What a queued event knows about the frame it carries. *)
Definition entry_wf (wts : list Q) (en : entry) : Prop :=
  match e_event en with
  | Request _ a => a <= e_time en
  | Timeout_service _ a s w =>
      w == s - a /\ 0 <= w /\ e_time en == s + service_time /\ In w wts
  | _ => True
  end.

(** No event lies in the past, the frames are consistent, and no
    recorded wait is negative. *)
Definition timed (st : state) : Prop :=
  Forall (fun en => now st <= e_time en) (queue st) /\
  Forall (entry_wf (wait_times st)) (queue st) /\
  Forall (fun p => snd p <= now st) (put_queue st) /\
  Forall (fun w => 0 <= w) (wait_times st).

(** The three closure variables against each other. *)
Definition counted (st : state) : Prop :=
  length (system_times st) = customers_served st /\
  (customers_served st + count_in_service (queue st)
   <= length (wait_times st))%nat.

(** The exact account, which holds when [service_time] is not negative. *)
Definition balanced (st : state) : Prop :=
  length (wait_times st)
  = (customers_served st + count_in_service (queue st))%nat /\
  Qsum (wait_times st)
  + service_time * inject_Z (Z.of_nat (customers_served st))
  == Qsum (system_times st) + waits_in_service (queue st).

(** With a negative [service_time] no service is ever timed. *)
Definition unserved (st : state) : Prop :=
  customers_served st = O /\ count_in_service (queue st) = O.

Definition accounted (st : state) : Prop :=
  counted st /\
  (Qltb service_time 0 = false -> balanced st) /\
  (Qltb service_time 0 = true -> unserved st).

Definition sound (st : state) : Prop :=
  timed st /\ accounted st.

(** The generator has made [k] draws since it was seeded. *)
Fixpoint drawn (k : nat) (g : generator R) : generator R :=
  match k with
  | O => g
  | S k' => snd (exp_draw R (drawn k' g))
  end.

(** The delay before customer [k] and the time at which it arrives, as
    the draws after [random.seed(random_seed)] give them. *)
Definition gap (random_seed : Z) (k : nat) : Q :=
  fst (exp_draw R (drawn k (seed R random_seed))) / arrival_rate.

Fixpoint arrive (random_seed : Z) (k : nat) : Q :=
  match k with
  | O => 0 + 0 + gap random_seed O
  | S k' => arrive random_seed k' + gap random_seed k
  end.

(** The capacity of the resource as a count. *)
Definition capacity : nat := Z.to_nat n_servers.

(** What an event of the queue carries, against the bookkeeping; [t] is
    the clock and [g] the state of the global generator. *)
Definition entry_data (random_seed : Z) (t : Q) (g : generator R)
    (gh : ghost) (en : entry) : Prop :=
  match e_event en with
  | Initialize_generator =>
      arrived gh = O /\ g = seed R random_seed /\ e_time en == 0
  | Timeout_generator k =>
      k = arrived gh /\ e_time en == arrive random_seed k /\
      g = drawn (S k) (seed R random_seed) /\
      (forall j, (j <= k)%nat -> arrive random_seed j <= arrive random_seed k)
  | Request k a => a == arrive random_seed k
  | Timeout_service k a s w =>
      (k < granted gh)%nat /\ a == arrive random_seed k /\ s == grant gh k
  | Release => e_time en <= t
  | _ => True
  end.

(** The bookkeeping by itself: the counts are ordered, the resource is
    not over capacity, and the time at which a request was granted is
    the later of the customer's arrival and the departure of the
    customer [capacity] places ahead. *)
Record tally (random_seed : Z) (gh : ghost) : Prop := {
  t_order :
    (departed gh <= started gh)%nat /\ (started gh <= granted gh)%nat /\
    (granted gh <= entered gh)%nat /\ (entered gh <= arrived gh)%nat;
  t_capacity : (granted gh - departed gh <= capacity)%nat;
  t_grant_arrival :
    forall k, (k < granted gh)%nat -> arrive random_seed k <= grant gh k;
  t_grant_after :
    forall k, (capacity <= k)%nat -> (k < granted gh)%nat ->
      grant gh (k - capacity) + service_time <= grant gh k;
  t_grant_when :
    forall k, (k < granted gh)%nat ->
      grant gh k == arrive random_seed k \/
      ((capacity <= k)%nat /\
       grant gh k == grant gh (k - capacity) + service_time);
  t_grant_mono :
    forall j k, (j <= k)%nat -> (k < granted gh)%nat ->
      grant gh j <= grant gh k;
  t_arrive_mono :
    forall j k, (j <= k)%nat -> (k < arrived gh)%nat ->
      arrive random_seed j <= arrive random_seed k
}.

(** Grants and departures lie in the past. *)
Record elapsed (t : Q) (gh : ghost) : Prop := {
  e_granted : forall k, (k < granted gh)%nat -> grant gh k <= t;
  e_departed :
    forall k, (k < departed gh)%nat -> grant gh k + service_time <= t
}.

(** The queue [q] of an environment whose clock is [t], whose next
    event id is [e], with the global generator in state [g]. *)
Record pending (random_seed : Z) (t : Q) (g : generator R) (e : nat)
    (q : list entry) (gh : ghost) : Prop := {
  p_initialize :
    family initialize_index (entered gh) (arrived gh) (arrive random_seed)
      URGENT q;
  p_request :
    family request_index (started gh) (granted gh) (grant gh) NORMAL q;
  p_service :
    family service_index (departed gh) (started gh)
      (fun k => grant gh k + service_time) NORMAL q;
  p_data : Forall (entry_data random_seed t g gh) q;
  p_eids :
    NoDup (map e_eid q) /\ Forall (fun en => (e_eid en < e)%nat) q;
  p_generator : (count is_generator q <= 1)%nat
}.

(** The users [u] and the put queue [pq] of the resource. *)
Record resource (random_seed : Z) (u : list nat) (pq : list (nat * Q))
    (gh : ghost) : Prop := {
  r_users : u = seq (departed gh) (granted gh - departed gh);
  r_waiting : map fst pq = seq (granted gh) (entered gh - granted gh);
  r_arrival : Forall (fun x => snd x == arrive random_seed (fst x)) pq
}.

(** The recorded waits. *)
Definition recorded (random_seed : Z) (w : list Q) (gh : ghost) : Prop :=
  length w = started gh /\
  forall k, (k < started gh)%nat ->
    nth k w 0 == grant gh k - arrive random_seed k.

(** The queueing discipline on the fields of a state. *)
Definition lined_up (random_seed : Z) (t : Q) (g : generator R) (e : nat)
    (q : list entry) (u : list nat) (pq : list (nat * Q)) (w : list Q)
    (gh : ghost) : Prop :=
  tally random_seed gh /\
  elapsed t gh /\
  pending random_seed t g e q gh /\
  resource random_seed u pq gh /\
  recorded random_seed w gh.

Definition lined (random_seed : Z) (st : state) (gh : ghost) : Prop :=
  lined_up random_seed (now st) (random_state st) (eid st) (queue st)
    (users st) (put_queue st) (wait_times st) gh.

(** A waiting customer is not forgotten: the put queue is not empty
    only while the resource is full or a release is still to be
    processed. *)
Definition wakeup (t : Q) (q : list entry) (gh : ghost) : Prop :=
  (granted gh < entered gh)%nat ->
  (capacity <= granted gh)%nat /\
  t <= grant gh (granted gh - capacity) + service_time /\
  (capacity <= granted gh - departed gh + count is_release q)%nat.

(** What [trigger_put] needs to find. *)
Definition wakeup_due (random_seed : Z) (t : Q) (q : list entry)
    (gh : ghost) : Prop :=
  (granted gh < entered gh)%nat ->
  (t == arrive random_seed (granted gh) \/
   ((capacity <= granted gh)%nat /\
    t <= grant gh (granted gh - capacity) + service_time)) /\
  ((S (granted gh) < entered gh)%nat ->
   (capacity <= granted gh)%nat /\
   t <= grant gh (granted gh - capacity) + service_time /\
   (capacity <= S (granted gh - departed gh) + count is_release q)%nat).

Definition fifo (random_seed : Z) (st : state) (gh : ghost) : Prop :=
  lined random_seed st gh /\ wakeup (now st) (queue st) gh /\ timed st.

End Call.

(** ** [run_simulation] *)

Record result : Type := mkResult {
  total_customers : nat;
  avg_wait_time : option Q;
  avg_system_time : option Q
}.

Inductive outcome : Type :=
| Return (r : result)
| Raise (e : exn).

(** What a call leaves behind: its value or exception, the state of the
    module-global generator, and what it printed. *)
Record call : Type := mkCall {
  value : outcome;
  random_after : generator R;
  printed : list line
}.

(** The returned dictionary, lines 63 to 67. *)
Definition summary (st : state) : result :=
  mkResult (customers_served st)
    (match wait_times st with
     | [] => None
     | _ => Some (round2 (mean (wait_times st)))
     end)
    (match system_times st with
     | [] => None
     | _ => Some (round2 (mean (system_times st)))
     end).

(** The state after lines 21 to 23, 56 and 57.  [global_random] is what
    the module-global generator holds when the call is made;
    [random.seed] overwrites it. *)
Definition fresh (global_random : generator R) (random_seed : Z) : state :=
  let st := mkState 0 [] 0 [] [] [] [] 0 global_random [] in
  set_random (seed R random_seed) st.

(** The state on entry to the loop of [env.run], when the call gets
    that far. *)
Definition armed (global_random : generator R) (sim_time : Q)
    (random_seed : Z) : state :=
  let st := fresh global_random random_seed in
  let st := schedule Initialize_generator URGENT 0 st in
  schedule Until URGENT (sim_time - now st) st.

(** The states the loop of a call goes through. *)
Definition reachable (n_servers : Z) (arrival_rate service_time : Q)
    (verbose : bool) (global_random : generator R) (sim_time : Q)
    (random_seed : Z) (st : state) : Prop :=
  exists n : nat,
    advance n_servers arrival_rate service_time verbose n
      (armed global_random sim_time random_seed) = Some st.

Definition finish (o : option exn) (st : state) : call :=
  match o with
  | None => mkCall (Return (summary st)) (random_state st) (stdout st)
  | Some e => mkCall (Raise e) (random_state st) (stdout st)
  end.

Definition run_simulation (fuel : nat) (global_random : generator R)
    (n_servers : Z) (arrival_rate service_time sim_time : Q)
    (random_seed : Z) (verbose : bool) : option call :=
  let st := fresh global_random random_seed in
  (* server = simpy.Resource(env, capacity=n_servers) *)
  if (n_servers <=? 0)%Z
  then Some (mkCall (Raise ValueError) (random_state st) (stdout st))
  else
    (* env.process(customer_generator(env, server)) *)
    let st := schedule Initialize_generator URGENT 0 st in
    (* env.run(until=sim_time) *)
    if Qle_bool sim_time (now st)
    then Some (mkCall (Raise ValueError) (random_state st) (stdout st))
    else
      let st := schedule Until URGENT (sim_time - now st) st in
      match run n_servers arrival_rate service_time verbose fuel st with
      | None => None
      | Some (o, st') => Some (finish o st')
      end.

End Engine.

(** ** A tabulated generator

    The first values of [-log(1.0 - random())] that CPython's generator
    produces after [random.seed(42)] and after [random.seed(40)], each
    written as the exact ratio of the float.  The state of the generator
    is the seed it was last given and the number of draws since. *)

Module Tabulated.

Definition draws_42 : list Q := [
  4593943129666235 # 4503599627370496;     (* 1.020060287274801 *)
  7300540804774793 # 288230376151711744;   (* 0.02532883904273889 *)
  2896932030242799 # 9007199254740992;     (* 0.3216240640749656 *)
  4550188206651433 # 18014398509481984;    (* 0.25258618567011354 *)
  3002983732161253 # 2251799813685248;     (* 1.333592672808083 *)
  1271335785415541 # 1125899906842624;     (* 1.1291730087985927 *)
  5015406927593169 # 2251799813685248;     (* 2.2272880995513806 *)
  3276905723956655 # 36028797018963968;    (* 0.09095240460656615 *)
  617045119809967 # 1125899906842624;      (* 0.5480461593964909 *)
  8719019955132903 # 288230376151711744;   (* 0.030250177207358588 *)
  4444452879962979 # 18014398509481984;    (* 0.24671669595982432 *)
  6340307417996629 # 9007199254740992      (* 0.7039155278661534 *)
].

Definition draws_40 : list Q := [
  5526901180486953 # 9007199254740992;     (* 0.6136092945404573 *)
  4734751525439957 # 2251799813685248;     (* 2.102652063769009 *)
  4664231808374121 # 144115188075855872;   (* 0.032364609661537376 *)
  2989303924477077 # 9007199254740992;     (* 0.3318794044556791 *)
  7351425262622231 # 2251799813685248;     (* 3.2646886361496956 *)
  2458049327645631 # 2251799813685248;     (* 1.091593183686626 *)
  4950103623654793 # 36028797018963968;    (* 0.1373929754315493 *)
  3857854399884401 # 9007199254740992      (* 0.4283078780403128 *)
].

(** Draws that are not tabulated read as 1. *)
Definition table (s : Z) : list Q :=
  if (s =? 42)%Z then draws_42
  else if (s =? 40)%Z then draws_40
  else [].

Definition tabulated : Random := {|
  generator := Z * nat;
  seed := fun a => (a, O);
  exp_draw := fun g => (nth (snd g) (table (fst g)) 1, (fst g, S (snd g)))
|}.

(** The state of the loop after [n] iterations, for a call made with the
    tabulated generator, one server and no printing. *)
Definition state_after (n : nat) (arrival_rate service_time sim_time : Q)
    (random_seed : Z) : state tabulated :=
  let st0 := armed tabulated (0%Z, O) sim_time random_seed in
  match advance tabulated 1 arrival_rate service_time false n st0 with
  | Some st => st
  | None => st0
  end.

End Tabulated.

(** ** The work-order endpoints of [server.py]

    [get_workorder_details] and [get_workorder_configuration] build
    their answers from the module-global generator of [random], which
    they seed from the hash of the work-order number, and the first of
    them from the clock.  The generator is the one [run_simulation]
    uses: the functions below take the state it is in when the request
    arrives and give back the state they leave.

    What belongs to Python and its library is kept apart from what the
    two functions do with it: [hash] of a string (which differs from
    one interpreter process to the next), the rendering of a date by
    [strftime], and what [randint], [sample], [uniform] and [choice]
    draw.  A [datetime] is its number of microseconds on the time line,
    [datetime.now()] is an argument. *)

Module Server.

Import Stdlib.Strings.String.
#[local] Open Scope string_scope.

(** [round(x, 1)]. *)
Definition round1 (x : Q) : Q := inject_Z (rint (x * 10)) / 10.

(** [timedelta(days=x)] in microseconds. *)
Definition timedelta_days (x : Q) : Z := rint (x * 86400000000).

(** [sum] of Python: from [0], left to right. *)
Definition sum (l : list Q) : Q := fold_left Qplus l 0.

(** [d.get(key, default)] on a dictionary given by its items. *)
Fixpoint dict_get (d : list (string * string)) (key : string)
    (default : string) : string :=
  match d with
  | [] => default
  | (k, v) :: d' => if String.eqb k key then v else dict_get d' key default
  end.

(** The drawing functions of [random] the two endpoints call, on the
    states of the generator of [R].  [sample_draw] is [random.sample]
    once it has accepted the sample size. *)
Record Random_lines (R : Random) : Type := {
  randint : Z -> Z -> generator R -> Z * generator R;
  sample_draw : list string -> Z -> generator R -> list string * generator R;
  uniform : Q -> Q -> generator R -> Q * generator R;
  choice : list string -> generator R -> string * generator R
}.

Arguments randint {R}.
Arguments sample_draw {R}.
Arguments uniform {R}.
Arguments choice {R}.

Module ProductionLineDetail.
Record t : Type := mk {
  line_name : string;
  time_spent_days : Q;
  start_date : string;
  end_date : string;
  status : string
}.
End ProductionLineDetail.

Module ProductionLineConfiguration.
Record t : Type := mk {
  line_name : string;
  configured_time_days : Q;
  line_type : string;
  capacity_per_day : Z;
  priority : Z
}.
End ProductionLineConfiguration.

Module WorkorderResponse.
Record t : Type := mk {
  workorder_number : string;
  total_processing_time_days : Q;
  production_lines : list ProductionLineDetail.t;
  current_status : string;
  created_date : string
}.
End WorkorderResponse.

Module WorkorderConfigurationResponse.
Record t : Type := mk {
  workorder_number : string;
  total_configured_time_days : Q;
  production_line_configs : list ProductionLineConfiguration.t;
  workorder_type : string;
  priority_level : string
}.
End WorkorderConfigurationResponse.

(** Lines 75 and 138. *)
Definition production_lines : list string :=
  ["1200REI"; "1200GR35"; "MH"; "QC"; "Assembly"; "Packaging"; "Shipping"].

(** Lines 148 to 156. *)
Definition line_types : list (string * string) :=
  [("1200REI", "Manufacturing");
   ("1200GR35", "Manufacturing");
   ("MH", "Material Handling");
   ("QC", "Quality Control");
   ("Assembly", "Assembly");
   ("Packaging", "Packaging");
   ("Shipping", "Logistics")].

Definition workorder_types : list string :=
  ["Standard"; "Express"; "Priority"; "Custom"].

Definition priority_levels : list string :=
  ["Low"; "Medium"; "High"; "Critical"].

Section Endpoints.

Variable R : Random.
Variable L : Random_lines R.
Variable hash : string -> Z.
Variable strftime : Z -> string.

(** [random.sample(population, k)]: the size is checked before
    anything is drawn. *)
Definition sample (population : list string) (k : Z) (g : generator R)
    : (exn + list string) * generator R :=
  if ((0 <=? k)%Z && (k <=? Z.of_nat (List.length population))%Z)%bool
  then let (l, g') := sample_draw L population k g in (inr l, g')
  else (inl ValueError, g).

(** The status of the line at position [i] of [n], lines 97 to 102. *)
Definition line_status (i n : Z) : string :=
  if (i =? n - 1)%Z then "Completed"
  else if (i =? n - 2)%Z then "In Progress"
  else "Completed".

(** The loop of lines 89 to 114, from position [i] on: the details
    appended, the date and the generator it ends with. *)
Fixpoint details_loop (n : Z) (i : Z) (selected_lines : list string)
    (current_date : Z) (g : generator R)
    : list ProductionLineDetail.t * Z * generator R :=
  match selected_lines with
  | [] => ([], current_date, g)
  | line_name :: rest =>
      let (u, g1) := uniform L (1 # 2) 3 g in
      let time_spent := round1 u in
      let start_date := current_date in
      let end_date := (start_date + timedelta_days time_spent)%Z in
      let line_detail :=
        ProductionLineDetail.mk line_name time_spent
          (strftime start_date) (strftime end_date) (line_status i n) in
      let (gap_days, g2) := randint L 0 2 g1 in
      let current_date := (end_date + timedelta_days (inject_Z gap_days))%Z in
      let '(line_details, last_date, g3) :=
        details_loop n (i + 1)%Z rest current_date g2 in
      (line_detail :: line_details, last_date, g3)
  end.

(** [get_workorder_details]; [clock] and [clock'] are what the two
    calls of [datetime.now()] read, [g0] is what the global generator
    holds when the request arrives. *)
Definition get_workorder_details (clock clock' : Z)
    (workorder_number : string) (g0 : generator R)
    : (exn + WorkorderResponse.t) * generator R :=
  let g := seed R (hash workorder_number mod 1000)%Z in
  let (num_lines, g) := randint L 3 5 g in
  match sample production_lines num_lines g with
  | (inl e, g) => (inl e, g)
  | (inr selected_lines, g) =>
      let (back, g) := randint L 10 30 g in
      let current_date := (clock - timedelta_days (inject_Z back))%Z in
      let '(line_details, _, g) :=
        details_loop (Z.of_nat (List.length selected_lines)) 0 selected_lines
          current_date g in
      let total_time :=
        sum (map ProductionLineDetail.time_spent_days line_details) in
      let current_status :=
        if existsb
             (fun line =>
                String.eqb (ProductionLineDetail.status line) "In Progress")
             line_details
        then "In Progress" else "Completed" in
      let (created, g) := randint L 30 60 g in
      (inr (WorkorderResponse.mk workorder_number (round1 total_time)
              line_details current_status
              (strftime (clock' - timedelta_days (inject_Z created))%Z)),
       g)
  end.

(** The loop of lines 162 to 181: the configurations appended, the
    total added up and the generator it ends with. *)
Fixpoint configs_loop (selected_lines : list string)
    (total_configured_time : Q) (g : generator R)
    : list ProductionLineConfiguration.t * Q * generator R :=
  match selected_lines with
  | [] => ([], total_configured_time, g)
  | line_name :: rest =>
      let (u, g1) := uniform L 1 4 g in
      let configured_time := round1 u in
      let (capacity_per_day, g2) := randint L 50 200 g1 in
      let (priority, g3) := randint L 1 5 g2 in
      let line_config :=
        ProductionLineConfiguration.mk line_name configured_time
          (dict_get line_types line_name "General") capacity_per_day
          priority in
      let '(line_configs, total, g4) :=
        configs_loop rest (total_configured_time + configured_time) g3 in
      (line_config :: line_configs, total, g4)
  end.

(** [get_workorder_configuration]. *)
Definition get_workorder_configuration (workorder_number : string)
    (g0 : generator R)
    : (exn + WorkorderConfigurationResponse.t) * generator R :=
  let g := seed R (hash workorder_number mod 1000)%Z in
  let (num_lines, g) := randint L 3 5 g in
  match sample production_lines num_lines g with
  | (inl e, g) => (inl e, g)
  | (inr selected_lines, g) =>
      let '(line_configs, total_configured_time, g) :=
        configs_loop selected_lines 0 g in
      let (workorder_type, g) := choice L workorder_types g in
      let (priority_level, g) := choice L priority_levels g in
      (inr (WorkorderConfigurationResponse.mk workorder_number
              (round1 total_configured_time) line_configs workorder_type
              priority_level),
       g)
  end.

(** What the documentation of [random] says of the four functions. *)
Definition randint_in_range : Prop :=
  forall (a b : Z) (g : generator R),
    (a <= b)%Z -> (a <= fst (randint L a b g) <= b)%Z.

Definition uniform_in_range : Prop :=
  forall (a b : Q) (g : generator R),
    a <= b -> a <= fst (uniform L a b g) /\ fst (uniform L a b g) <= b.

Definition sample_is_selection : Prop :=
  forall (population : list string) (k : Z) (g : generator R),
    (0 <= k <= Z.of_nat (List.length population))%Z ->
    Z.of_nat (List.length (fst (sample_draw L population k g))) = k /\
    incl (fst (sample_draw L population k g)) population /\
    (NoDup population -> NoDup (fst (sample_draw L population k g))).

Definition choice_is_member : Prop :=
  forall (l : list string) (g : generator R),
    l <> [] -> In (fst (choice L l g)) l.

End Endpoints.

End Server.

(** A generator for the work-order endpoints on the states of the
    tabulated one: it counts its draws and takes the value of each draw
    from the count. *)
Module Counter.

Definition next (g : Z * nat) : Z * nat := (fst g, S (snd g)).

Definition pick (g : Z * nat) : Z := (fst g + Z.of_nat (snd g))%Z.

Definition counter : Server.Random_lines Tabulated.tabulated :=
  Server.Build_Random_lines Tabulated.tabulated
    (fun a b g => ((a + pick g mod (b - a + 1))%Z, next g))
    (fun population k g => (firstn (Z.to_nat k) population, next g))
    (fun a b g => ((a + b) / 2, next g))
    (fun l g =>
       (nth (Z.to_nat (pick g mod Z.of_nat (length l))) l String.EmptyString,
        next g)).

(** A stand-in for [hash] and one for [strftime]. *)
Definition hash (s : String.string) : Z := Z.of_nat (String.length s).

Definition strftime (d : Z) : String.string :=
  String.String
    (Ascii.ascii_of_N (48 + Z.to_N ((d / 86400000000) mod 10)))
    String.EmptyString.

End Counter.
(** ** More bookkeeping *)

(** The customers whose events of one kind are in the queue. *)
Fixpoint keys (f : entry -> option nat) (q : list entry) : list nat :=
  match q with
  | [] => []
  | en :: q' =>
      match f en with
      | Some k => k :: keys f q'
      | None => keys f q'
      end
  end.

(** The priority with which each kind of event is scheduled. *)
Definition prio_of (ev : event) : Z :=
  match ev with
  | Initialize_generator | Initialize_customer _ | Until => URGENT
  | _ => NORMAL
  end.

(** The waits and the system times that the trace of a verbose call
    reports, in the order of the lines. *)
Fixpoint starts_of (l : list line) : list Q :=
  match l with
  | [] => []
  | Starts _ _ w :: l' => w :: starts_of l'
  | _ :: l' => starts_of l'
  end.

Fixpoint leaves_of (l : list line) : list Q :=
  match l with
  | [] => []
  | Leaves _ _ s :: l' => s :: leaves_of l'
  | _ :: l' => leaves_of l'
  end.

Section Horizon.

Variable R : Random.
Variable arrival_rate : Q.
Variable service_time : Q.
Variable sim_time : Q.

(** The item of the queue that ends the loop, as [armed] schedules
    it. *)
Definition until_entry : entry := mkEntry (0 + (sim_time - 0)) URGENT 1 Until.

(** Why a process can have failed. *)
Definition failure (e : exn) : Prop :=
  (e = ZeroDivisionError /\ arrival_rate == 0) \/
  (e = ValueError /\
   (service_time < 0 \/
    exists g : generator R, fst (exp_draw R g) / arrival_rate < 0)).

Definition entry_ok (en : entry) : Prop :=
  e_prio en = prio_of (e_event en) /\
  match e_event en with
  | Initialize_customer _ => e_time en < sim_time
  | Request _ a => 0 <= a /\ a < sim_time
  | Timeout_service _ a _ _ => 0 <= a
  | Process_failed e => failure e
  | Until => en = until_entry
  | _ => True
  end.

(** While the loop runs, the event that ends it is pending, the clock
    has not passed [sim_time], and what was recorded lies within the
    horizon. *)
Record horizon (st : state R) : Prop := {
  h_until : In until_entry (queue R st);
  h_entries : Forall entry_ok (queue R st);
  h_put : Forall (fun p => 0 <= snd p /\ snd p < sim_time) (put_queue R st);
  h_now : 0 <= now R st /\ now R st <= sim_time;
  h_waits : Forall (fun w => w < sim_time) (wait_times R st);
  h_systems :
    Forall (fun s => service_time <= s /\ s < sim_time) (system_times R st)
}.

(** With a negative [service_time], a service that has begun has
    failed its process before [sim_time]. *)
Definition doomed (st : state R) : Prop :=
  service_time < 0 ->
  wait_times R st = [] \/
  exists en e, In en (queue R st) /\ e_event en = Process_failed e /\
               e_time en < sim_time.

(** The customers whose service has begun arrived within the
    horizon. *)
Definition punctual (random_seed : Z) (st : state R) : Prop :=
  forall k, (k < length (wait_times R st))%nat ->
    0 <= arrive R arrival_rate random_seed k /\
    arrive R arrival_rate random_seed k < sim_time.

(** What the loop of a call keeps while it runs. *)
Definition within (st : state R) : Prop :=
  timed R service_time st /\ horizon st /\ doomed st.

(** What holds when the loop has ended at [sim_time]. *)
Definition ended (st : state R) : Prop :=
  now R st == sim_time /\
  Forall (fun w => w < sim_time) (wait_times R st) /\
  Forall (fun s => service_time <= s /\ s < sim_time) (system_times R st) /\
  (service_time < 0 -> wait_times R st = []).

(** The trace of a call against what it recorded. *)
Definition traced (verbose : bool) (st : state R) : Prop :=
  if verbose
  then starts_of (stdout R st) = wait_times R st /\
       leaves_of (stdout R st) = system_times R st
  else stdout R st = [].

End Horizon.

(** *** A measure of what the loop still has to do *)

Section Progress.

Variable R : Random.

(** [bound] is a number of customers that cannot all arrive within the
    horizon.  Every event weighs more than the events and queue places
    its callbacks leave behind. *)
Variable bound : nat.

Definition weight (en : entry) : nat :=
  match e_event en with
  | Initialize_generator => 7 * bound + 1
  | Timeout_generator k => 7 * (bound - k)
  | Initialize_customer _ => 6
  | Request _ _ => 4
  | Timeout_service _ _ _ _ => 3
  | Release => 1
  | Process_ok => 1
  | Process_failed _ => 0
  | Until => 0
  end.

Definition potential (st : state R) : nat :=
  count weight (queue R st) + 5 * length (put_queue R st).

Definition not_failed (en : entry) : Prop :=
  forall e, e_event en <> Process_failed e.

(** From [st] to [st'] the queue has only grown, by events that are
    not failures, and the potential by no more than [d]. *)
Definition settled (d : nat) (st st' : state R) : Prop :=
  exists l : list entry,
    queue R st' = queue R st ++ l /\
    Forall not_failed l /\
    (count weight l + 5 * length (put_queue R st')
     <= d + 5 * length (put_queue R st))%nat.

End Progress.
(** * Properties *)

(** ** Rationals and rounding *)

Lemma Qltb_true (x y : Q) : Qltb x y = true <-> x < y.
Proof.
  unfold Qltb. rewrite Qlt_alt.
  destruct (Qcompare x y); split; intro H; congruence.
Qed.

Lemma Qltb_false (x y : Q) : Qltb x y = false <-> y <= x.
Proof.
  split; intro H.
  - apply Qnot_lt_le. intro L. apply Qltb_true in L. congruence.
  - destruct (Qltb x y) eqn:E; [|reflexivity].
    apply Qltb_true in E. exfalso. apply (Qlt_not_le _ _ E H).
Qed.

Lemma rint_near (x : Q) :
  inject_Z (rint x) - x <= 1 # 2 /\ x - inject_Z (rint x) <= 1 # 2.
Proof.
  unfold rint.
  pose proof (Qfloor_le x) as Hlo.
  pose proof (Qlt_floor x) as Hhi.
  rewrite inject_Z_plus in Hhi. change (inject_Z 1) with 1 in Hhi.
  destruct (Qcompare (x - inject_Z (Qfloor x)) (1 # 2)) eqn:E.
  - apply Qeq_alt in E.
    destruct (Z.even (Qfloor x)).
    + split; lra.
    + rewrite inject_Z_plus. change (inject_Z 1) with 1. split; lra.
  - apply Qlt_alt in E. split; lra.
  - apply Qgt_alt in E. rewrite inject_Z_plus. change (inject_Z 1) with 1.
    split; lra.
Qed.

Lemma round2_near (x : Q) :
  round2 x - x <= 1 # 200 /\ x - round2 x <= 1 # 200.
Proof.
  unfold round2. destruct (rint_near (x * 100)) as [H1 H2].
  set (r := inject_Z (rint (x * 100))) in *.
  assert (E : r / 100 == r * (1 # 100)) by (unfold Qdiv; reflexivity).
  rewrite E. split; lra.
Qed.



Lemma Qsum_app (l l' : list Q) : Qsum (l ++ l') == Qsum l + Qsum l'.
Proof.
  induction l as [|x l IH]; simpl.
  - lra.
  - rewrite IH. lra.
Qed.



Lemma length_pos_Q {A : Type} (l : list A) :
  l <> [] -> 0 < inject_Z (Z.of_nat (length l)).
Proof.
  intro H. destruct l as [|x l]; [congruence|].
  change 0 with (inject_Z 0). rewrite <- Zlt_Qlt. simpl length. lia.
Qed.



(** ** The event queue *)

Lemma heappop_None (q : list entry) : heappop q = None -> q = [].
Proof.
  destruct q as [|e q]; [reflexivity|]. simpl.
  destruct (heappop q) as [[m r]|]; [|discriminate].
  destruct (entry_ltb e m); discriminate.
Qed.

Lemma heappop_Permutation (q : list entry) (m : entry) (r : list entry) :
  heappop q = Some (m, r) -> Permutation q (m :: r).
Proof.
  revert m r. induction q as [|e q IH]; intros m r H; [discriminate|].
  simpl in H. destruct (heappop q) as [[m' r']|] eqn:E.
  - destruct (entry_ltb e m').
    + inversion H; subst. apply Permutation_refl.
    + inversion H; subst.
      apply Permutation_trans with (e :: m :: r').
      * apply perm_skip. apply IH. reflexivity.
      * apply perm_swap.
  - inversion H; subst. apply heappop_None in E. subst q.
    apply Permutation_refl.
Qed.

Lemma entry_ltb_time (a b : entry) :
  entry_ltb a b = true -> e_time a <= e_time b.
Proof.
  unfold entry_ltb. destruct (Qcompare (e_time a) (e_time b)) eqn:E; intro H.
  - apply Qeq_alt in E. lra.
  - apply Qlt_alt in E. lra.
  - discriminate.
Qed.

Lemma entry_ltb_time_false (a b : entry) :
  entry_ltb a b = false -> e_time b <= e_time a.
Proof.
  unfold entry_ltb. destruct (Qcompare (e_time a) (e_time b)) eqn:E; intro H.
  - apply Qeq_alt in E. lra.
  - discriminate.
  - apply Qgt_alt in E. lra.
Qed.

Lemma heappop_least (q : list entry) (m : entry) (r : list entry) :
  heappop q = Some (m, r) -> Forall (fun x => e_time m <= e_time x) r.
Proof.
  revert m r. induction q as [|e q IH]; intros m r H; [discriminate|].
  simpl in H. destruct (heappop q) as [[m' r']|] eqn:E.
  - specialize (IH m' r' eq_refl).
    destruct (entry_ltb e m') eqn:L.
    + inversion H; subst.
      apply entry_ltb_time in L.
      apply Permutation_Forall with (m' :: r').
      * apply Permutation_sym, heappop_Permutation. exact E.
      * constructor; [exact L|].
        eapply Forall_impl; [|exact IH]. simpl. intros x Hx. lra.
    + inversion H; subst.
      constructor; [apply entry_ltb_time_false; exact L | exact IH].
  - inversion H; subst. constructor.
Qed.

Lemma Qsum_Permutation (l l' : list Q) :
  Permutation l l' -> Qsum l == Qsum l'.
Proof.
  induction 1; simpl; lra.
Qed.

Lemma list_sum_Permutation (l l' : list nat) :
  Permutation l l' -> list_sum l = list_sum l'.
Proof.
  induction 1; simpl; lia.
Qed.

Lemma count_in_service_app (q q' : list entry) :
  count_in_service (q ++ q') = (count_in_service q + count_in_service q')%nat.
Proof.
  unfold count_in_service. rewrite map_app, list_sum_app. reflexivity.
Qed.

Lemma waits_in_service_app (q q' : list entry) :
  waits_in_service (q ++ q') == waits_in_service q + waits_in_service q'.
Proof.
  unfold waits_in_service. rewrite map_app. apply Qsum_app.
Qed.

Lemma heappop_count (q : list entry) (m : entry) (r : list entry) :
  heappop q = Some (m, r) ->
  count_in_service q = (in_service m + count_in_service r)%nat.
Proof.
  intro H. apply heappop_Permutation in H.
  unfold count_in_service.
  rewrite (list_sum_Permutation _ _ (Permutation_map in_service H)).
  reflexivity.
Qed.

Lemma heappop_waits (q : list entry) (m : entry) (r : list entry) :
  heappop q = Some (m, r) ->
  waits_in_service q == service_wait m + waits_in_service r.
Proof.
  intro H. apply heappop_Permutation in H.
  unfold waits_in_service.
  rewrite (Qsum_Permutation _ _ (Permutation_map service_wait H)).
  reflexivity.
Qed.

Lemma rint_monotone (x y : Q) : x <= y -> (rint x <= rint y)%Z.
Proof.
  intro H. unfold rint.
  pose proof (Qfloor_resp_le x y H) as F.
  pose proof (Qfloor_le x) as Lx. pose proof (Qlt_floor x) as Ux.
  pose proof (Qfloor_le y) as Ly. pose proof (Qlt_floor y) as Uy.
  rewrite inject_Z_plus in Ux, Uy.
  change (inject_Z 1) with 1 in Ux, Uy.
  destruct (Z.eq_dec (Qfloor x) (Qfloor y)) as [E|N].
  - rewrite E in *.
    destruct (Qcompare_spec (x - inject_Z (Qfloor y)) (1 # 2)) as [Cx|Cx|Cx];
      destruct (Qcompare_spec (y - inject_Z (Qfloor y)) (1 # 2)) as [Cy|Cy|Cy];
      try (exfalso; lra);
      destruct (Z.even (Qfloor y)); lia.
  - assert (L : (Qfloor x + 1 <= Qfloor y)%Z) by lia.
    destruct (Qcompare (x - inject_Z (Qfloor x)) (1 # 2));
      destruct (Qcompare (y - inject_Z (Qfloor y)) (1 # 2));
      try destruct (Z.even (Qfloor x)); try destruct (Z.even (Qfloor y));
      lia.
Qed.

Lemma round2_monotone (x y : Q) : x <= y -> round2 x <= round2 y.
Proof.
  intro H. unfold round2.
  assert (M : (rint (x * 100) <= rint (y * 100))%Z).
  { apply rint_monotone. lra. }
  rewrite Zle_Qle in M.
  set (a := inject_Z (rint (x * 100))) in *.
  set (b := inject_Z (rint (y * 100))) in *.
  assert (Ea : a / 100 == a * (1 # 100)) by (unfold Qdiv; reflexivity).
  assert (Eb : b / 100 == b * (1 # 100)) by (unfold Qdiv; reflexivity).
  rewrite Ea, Eb. lra.
Qed.

(** ** The loop keeps its invariants *)

Section Loop.

Variable R : Random.
Variable n_servers : Z.
Variable arrival_rate : Q.
Variable service_time : Q.
Variable verbose : bool.

Local Abbreviation state' := (state R).
Local Abbreviation step' := (step R n_servers arrival_rate service_time verbose).
Local Abbreviation dispatch' :=
  (dispatch R n_servers arrival_rate service_time verbose).
Local Abbreviation run' := (run R n_servers arrival_rate service_time verbose).
Local Abbreviation advance' :=
  (advance R n_servers arrival_rate service_time verbose).
Local Abbreviation timed' := (timed R service_time).
Local Abbreviation trigger_put' := (trigger_put R n_servers).
Local Abbreviation request' := (request R n_servers).
Local Abbreviation customer_arrive' := (customer_arrive R n_servers verbose).
Local Abbreviation customer_start' := (customer_start R service_time verbose).
Local Abbreviation customer_leave' := (customer_leave R verbose).
Local Abbreviation generator_wait' := (generator_wait R arrival_rate).
Local Abbreviation generator_arrival' := (generator_arrival R arrival_rate).
Local Abbreviation print_if_verbose' := (print_if_verbose R verbose).

Lemma entry_wf_grow (wts : list Q) (w : Q) (en : entry) :
  entry_wf service_time wts en -> entry_wf service_time (wts ++ [w]) en.
Proof.
  unfold entry_wf. destruct (e_event en); auto.
  intros (A & B & C & D). repeat split; auto.
  apply in_or_app. left. exact D.
Qed.

Lemma timed_schedule (st : state') (ev : event) (priority : Z) (delay : Q) :
  timed' st -> 0 <= delay ->
  entry_wf service_time (wait_times R st)
    (mkEntry (now R st + delay) priority (eid R st) ev) ->
  timed' (schedule R ev priority delay st).
Proof.
  intros (A & B & C & D) Hd Hw. unfold timed', schedule; simpl.
  repeat split; auto.
  - apply Forall_app. split; [exact A|]. constructor; [simpl; lra|constructor].
  - apply Forall_app. split; [exact B|]. constructor; [exact Hw|constructor].
Qed.

Lemma timed_set_resource (st : state') (u : list nat) (p : list (nat * Q)) :
  timed' st -> Forall (fun x => snd x <= now R st) p ->
  timed' (set_resource R u p st).
Proof.
  intros (A & B & C & D) Hp. unfold timed', set_resource; simpl. auto.
Qed.

Lemma timed_print (st : state') (l : line) :
  timed' st -> timed' (print_if_verbose' l st).
Proof.
  unfold print_if_verbose. destruct verbose; auto.
Qed.

Lemma timed_trigger_put (st : state') : timed' st -> timed' (trigger_put' st).
Proof.
  intro H. unfold trigger_put.
  destruct (put_queue R st) as [|[h a] rest] eqn:E; [exact H|].
  destruct (Z.of_nat (length (users R st)) <? n_servers)%Z; [|exact H].
  assert (P : Forall (fun x => snd x <= now R st) ((h, a) :: rest)).
  { rewrite <- E. apply H. }
  inversion P as [|x l Ha Hrest]; subst. simpl in Ha.
  apply timed_schedule.
  - apply timed_set_resource; assumption.
  - lra.
  - unfold entry_wf; simpl. lra.
Qed.

Lemma timed_release (st : state') (i : nat) :
  timed' st -> timed' (release R i st).
Proof.
  intro H. unfold release. apply timed_schedule.
  - apply timed_set_resource; [exact H|apply H].
  - lra.
  - exact I.
Qed.

Lemma timed_customer_arrive (st : state') (i : nat) :
  timed' st -> timed' (customer_arrive' i st).
Proof.
  intro H. unfold customer_arrive, request.
  apply timed_trigger_put.
  assert (P : timed' (print_if_verbose' (Arrives i (now R st)) st))
    by (apply timed_print; exact H).
  assert (N : now R (print_if_verbose' (Arrives i (now R st)) st) = now R st).
  { unfold print_if_verbose. destruct verbose; reflexivity. }
  apply timed_set_resource; [exact P|].
  apply Forall_app. split; [apply P|].
  constructor; [|constructor]. simpl. rewrite N. lra.
Qed.

Lemma timed_append_wait (st : state') (w : Q) :
  timed' st -> 0 <= w -> timed' (append_wait R w st).
Proof.
  intros (A & B & C & D) Hw. unfold timed', append_wait; simpl.
  repeat split; auto.
  - eapply Forall_impl; [|exact B]. intros en. apply entry_wf_grow.
  - apply Forall_app. split; [exact D|]. constructor; [exact Hw|constructor].
Qed.

Lemma timed_customer_start (st : state') (i : nat) (a : Q) :
  timed' st -> a <= now R st -> timed' (customer_start' i a st).
Proof.
  intros H Ha. unfold customer_start.
  set (w := now R st - a).
  assert (Hw : 0 <= w) by (unfold w; lra).
  assert (P : timed' (print_if_verbose' (Starts i (now R st) w) (append_wait R w st))).
  { apply timed_print, timed_append_wait; assumption. }
  destruct (Qltb service_time 0) eqn:E.
  - apply timed_schedule; [apply timed_release; exact P|lra|exact I].
  - apply Qltb_false in E. apply timed_schedule; [exact P|exact E|].
    unfold entry_wf; simpl.
    assert (N : now R (print_if_verbose' (Starts i (now R st) w) (append_wait R w st))
                = now R st).
    { unfold print_if_verbose. destruct verbose; reflexivity. }
    assert (W : wait_times R (print_if_verbose' (Starts i (now R st) w) (append_wait R w st))
                = wait_times R st ++ [w]).
    { unfold print_if_verbose. destruct verbose; reflexivity. }
    rewrite N, W. split; [|split; [|split]].
    + unfold w. lra.
    + exact Hw.
    + lra.
    + apply in_or_app. right. left. reflexivity.
Qed.

Lemma timed_customer_leave (st : state') (i : nat) (a : Q) :
  timed' st -> timed' (customer_leave' i a st).
Proof.
  intro H. unfold customer_leave.
  apply timed_schedule; [|lra|exact I].
  apply timed_release, timed_print.
  destruct H as (A & B & C & D).
  unfold timed, incr_served, append_system; simpl. auto.
Qed.

Lemma timed_generator_wait (st : state') (i : nat) :
  timed' st -> timed' (generator_wait' i st).
Proof.
  intro H. unfold generator_wait.
  destruct (exp_draw R (random_state R st)) as [e g].
  assert (P : timed' (set_random R g st)).
  { destruct H as (A & B & C & D).
    unfold timed, set_random; simpl. auto. }
  destruct (Qeq_bool arrival_rate 0).
  - apply timed_schedule; [exact P|lra|exact I].
  - destruct (Qltb (e / arrival_rate) 0) eqn:E.
    + apply timed_schedule; [exact P|lra|exact I].
    + apply Qltb_false in E. apply timed_schedule; [exact P|exact E|exact I].
Qed.

Lemma timed_generator_arrival (st : state') (i : nat) :
  timed' st -> timed' (generator_arrival' i st).
Proof.
  intro H. unfold generator_arrival.
  apply timed_generator_wait, timed_schedule; [exact H|lra|exact I].
Qed.

(** Popping the least item moves the clock forward and leaves a queue
    with nothing in the past. *)
Lemma timed_pop (st : state') (en : entry) (q : list entry) :
  timed' st -> heappop (queue R st) = Some (en, q) ->
  timed' (set_clock R (e_time en) q st) /\
  now R st <= e_time en /\
  entry_wf service_time (wait_times R st) en.
Proof.
  intros (A & B & C & D) Hpop.
  pose proof (heappop_Permutation _ _ _ Hpop) as P.
  pose proof (heappop_least _ _ _ Hpop) as L.
  pose proof (Permutation_Forall P A) as A'.
  pose proof (Permutation_Forall P B) as B'.
  inversion A' as [|x l A1 A2]; subst.
  inversion B' as [|x l B1 B2]; subst.
  split; [|split; assumption].
  unfold timed, set_clock; simpl. repeat split; auto.
  eapply Forall_impl; [|exact C]. simpl. intros p Hp. lra.
Qed.

Lemma timed_step (st : state') : timed' st -> timed' (after R (step' st)).
Proof.
  intro H. unfold step.
  destruct (heappop (queue R st)) as [[en q]|] eqn:E; [|exact H].
  destruct (timed_pop st en q H E) as (T & Hnow & Hwf).
  unfold entry_wf in Hwf. unfold dispatch.
  destruct (e_event en); simpl after; try exact T.
  - apply timed_generator_wait; exact T.
  - apply timed_customer_arrive; exact T.
  - apply timed_generator_arrival; exact T.
  - apply timed_customer_start; [exact T|exact Hwf].
  - apply timed_customer_leave; exact T.
  - apply timed_trigger_put; exact T.
Qed.


(** An invariant of the steps holds wherever [advance] gets. *)
Lemma advance_invariant (P : state' -> Prop) :
  (forall st, P st -> P (after R (step' st))) ->
  forall n st st', P st -> advance' n st = Some st' -> P st'.
Proof.
  intros Hstep n. induction n as [|n IH]; intros st st' H0 H.
  - simpl in H. inversion H; subst. exact H0.
  - simpl in H. destruct (step' st) as [s| |] eqn:E; try discriminate.
    apply (IH s st'); [|exact H].
    specialize (Hstep st H0). rewrite E in Hstep. exact Hstep.
Qed.

(** ... and in the state in which [run] ends. *)
Lemma run_invariant (P : state' -> Prop) :
  (forall st, P st -> P (after R (step' st))) ->
  forall fuel st o st', P st -> run' fuel st = Some (o, st') -> P st'.
Proof.
  intros Hstep fuel. induction fuel as [|fuel IH]; intros st o st' H0 H.
  - discriminate.
  - simpl in H. specialize (Hstep st H0).
    destruct (step' st) as [s|s|e s] eqn:E; simpl in Hstep.
    + apply (IH s o st'); assumption.
    + inversion H; subst. exact Hstep.
    + inversion H; subst. exact Hstep.
Qed.

(** *** The account of waits and system times *)

Lemma quiet_refl (st : state') : quiet R st st.
Proof.
  unfold quiet. repeat split. exists []. rewrite app_nil_r. auto.
Qed.

Lemma quiet_trans (st1 st2 st3 : state') :
  quiet R st1 st2 -> quiet R st2 st3 -> quiet R st1 st3.
Proof.
  intros (A1 & B1 & C1 & l1 & D1 & E1) (A2 & B2 & C2 & l2 & D2 & E2).
  unfold quiet. repeat split; try congruence.
  exists (l1 ++ l2). split.
  - rewrite D2, D1, app_assoc. reflexivity.
  - apply Forall_app. auto.
Qed.

Lemma quiet_schedule (st : state') (ev : event) (priority : Z) (delay : Q) :
  in_service (mkEntry (now R st + delay) priority (eid R st) ev) = O ->
  quiet R st (schedule R ev priority delay st).
Proof.
  intro H. unfold quiet, schedule; simpl. repeat split.
  eexists. split; [reflexivity|]. constructor; [exact H|constructor].
Qed.

Lemma quiet_same (st st' : state') :
  wait_times R st' = wait_times R st ->
  system_times R st' = system_times R st ->
  customers_served R st' = customers_served R st ->
  queue R st' = queue R st ->
  quiet R st st'.
Proof.
  intros A B C D. unfold quiet. repeat split; auto.
  exists []. rewrite app_nil_r. auto.
Qed.

Lemma quiet_set_resource (st : state') (u : list nat) (p : list (nat * Q)) :
  quiet R st (set_resource R u p st).
Proof. apply quiet_same; reflexivity. Qed.

Lemma quiet_set_random (st : state') (g : generator R) :
  quiet R st (set_random R g st).
Proof. apply quiet_same; reflexivity. Qed.

Lemma quiet_print (st : state') (l : line) :
  quiet R st (print_if_verbose' l st).
Proof.
  unfold print_if_verbose. destruct verbose; apply quiet_same; reflexivity.
Qed.

Lemma quiet_trigger_put (st : state') : quiet R st (trigger_put' st).
Proof.
  unfold trigger_put.
  destruct (put_queue R st) as [|[h a] rest]; [apply quiet_refl|].
  destruct (Z.of_nat (length (users R st)) <? n_servers)%Z;
    [|apply quiet_refl].
  eapply quiet_trans; [apply quiet_set_resource|].
  apply quiet_schedule. reflexivity.
Qed.

Lemma quiet_release (st : state') (i : nat) : quiet R st (release R i st).
Proof.
  unfold release.
  eapply quiet_trans; [apply quiet_set_resource|].
  apply quiet_schedule. reflexivity.
Qed.

Lemma quiet_customer_arrive (st : state') (i : nat) :
  quiet R st (customer_arrive' i st).
Proof.
  unfold customer_arrive, request.
  eapply quiet_trans; [apply quiet_print|].
  eapply quiet_trans; [apply quiet_set_resource|].
  apply quiet_trigger_put.
Qed.

Lemma quiet_generator_wait (st : state') (i : nat) :
  quiet R st (generator_wait' i st).
Proof.
  unfold generator_wait.
  destruct (exp_draw R (random_state R st)) as [e g].
  eapply quiet_trans; [apply (quiet_set_random st g)|].
  destruct (Qeq_bool arrival_rate 0); [apply quiet_schedule; reflexivity|].
  destruct (Qltb (e / arrival_rate) 0); apply quiet_schedule; reflexivity.
Qed.

Lemma quiet_generator_arrival (st : state') (i : nat) :
  quiet R st (generator_arrival' i st).
Proof.
  unfold generator_arrival.
  apply quiet_trans with (schedule R (Initialize_customer i) URGENT 0 st).
  - apply quiet_schedule. reflexivity.
  - apply quiet_generator_wait.
Qed.

Lemma quiet_count (st st' : state') :
  quiet R st st' ->
  count_in_service (queue R st') = count_in_service (queue R st).
Proof.
  intros (_ & _ & _ & l & D & E). rewrite D, count_in_service_app.
  assert (Z0 : count_in_service l = O).
  { clear D. unfold count_in_service.
    induction E as [|x l Hx _ IH]; [reflexivity|].
    change (list_sum (map in_service (x :: l)))
      with (in_service x + list_sum (map in_service l))%nat.
    rewrite Hx, IH. reflexivity. }
  lia.
Qed.

Lemma in_service_wait (en : entry) : in_service en = O -> service_wait en = 0.
Proof.
  unfold in_service, service_wait. destruct (e_event en); congruence.
Qed.

Lemma quiet_waits (st st' : state') :
  quiet R st st' ->
  waits_in_service (queue R st') == waits_in_service (queue R st).
Proof.
  intros (_ & _ & _ & l & D & E). rewrite D, waits_in_service_app.
  assert (Z0 : waits_in_service l == 0).
  { clear D. unfold waits_in_service.
    induction E as [|x l Hx _ IH]; [reflexivity|].
    change (Qsum (map service_wait (x :: l)))
      with (service_wait x + Qsum (map service_wait l)).
    rewrite (in_service_wait x Hx), IH. lra. }
  lra.
Qed.

Lemma accounted_quiet (st st' : state') :
  quiet R st st' -> accounted R service_time st ->
  accounted R service_time st'.
Proof.
  intros Hq (C & B & U).
  pose proof (quiet_count _ _ Hq) as Hc.
  pose proof (quiet_waits _ _ Hq) as Hw.
  destruct Hq as (Q1 & Q2 & Q3 & _).
  unfold accounted, counted, balanced, unserved in *.
  rewrite Q1, Q2, Q3, Hc, Hw. auto.
Qed.

Lemma inject_S (n : nat) :
  inject_Z (Z.of_nat (S n)) == inject_Z (Z.of_nat n) + 1.
Proof.
  rewrite Nat2Z.inj_succ. unfold Z.succ. rewrite inject_Z_plus. reflexivity.
Qed.

Lemma accounted_pop_other (st : state') (en : entry) (q : list entry) :
  accounted R service_time st ->
  heappop (queue R st) = Some (en, q) -> in_service en = O ->
  accounted R service_time (set_clock R (e_time en) q st).
Proof.
  intros (C & B & U) E Hz.
  pose proof (heappop_count _ _ _ E) as Hc.
  pose proof (heappop_waits _ _ _ E) as Hw.
  rewrite Hz in Hc. rewrite (in_service_wait en Hz) in Hw.
  unfold accounted, counted, balanced, unserved in *. simpl.
  split; [|split].
  - destruct C as [C1 C2]. split; [exact C1|lia].
  - intro F. destruct (B F) as [B1 B2]. split; [lia|lra].
  - intro F. destruct (U F) as [U1 U2]. split; [exact U1|lia].
Qed.

Lemma accounted_customer_start (st : state') (i : nat) (a : Q) :
  accounted R service_time st ->
  accounted R service_time (customer_start' i a st).
Proof.
  intros (C & B & U). unfold customer_start.
  set (w := now R st - a).
  set (st2 := print_if_verbose' (Starts i (now R st) w) (append_wait R w st)).
  assert (F2 : wait_times R st2 = wait_times R st ++ [w] /\
               system_times R st2 = system_times R st /\
               customers_served R st2 = customers_served R st /\
               queue R st2 = queue R st).
  { subst st2. unfold print_if_verbose. destruct verbose; simpl; auto. }
  destruct F2 as (W2 & S2 & N2 & Q2).
  destruct C as [C1 C2].
  destruct (Qltb service_time 0) eqn:Neg.
  - eapply accounted_quiet.
    { eapply quiet_trans; [apply quiet_release|].
      apply quiet_schedule. reflexivity. }
    destruct (U eq_refl) as [U1 U2].
    unfold accounted, counted, balanced, unserved.
    rewrite W2, S2, N2, Q2, length_app. simpl length.
    split; [split; [exact C1|lia]|].
    split; [intro F; congruence|intros _; split; assumption].
  - destruct (B eq_refl) as [B1 B2].
    unfold accounted, counted, balanced, unserved, schedule. simpl.
    rewrite W2, S2, N2, Q2.
    rewrite count_in_service_app, waits_in_service_app, length_app, Qsum_app.
    change (count_in_service
              [mkEntry (now R st2 + service_time) NORMAL (eid R st2)
                 (Timeout_service i a (now R st) w)]) with 1%nat.
    change (waits_in_service
              [mkEntry (now R st2 + service_time) NORMAL (eid R st2)
                 (Timeout_service i a (now R st) w)]) with (w + 0).
    simpl length. simpl (Qsum [w]).
    split; [split; [exact C1|lia]|].
    split; [intros _; split; [lia|lra]|intro F; congruence].
Qed.

Lemma accounted_step (st : state') :
  timed' st -> accounted R service_time st ->
  accounted R service_time (after R (step' st)).
Proof.
  intros T Acc. unfold step.
  destruct (heappop (queue R st)) as [[en q]|] eqn:E; [|exact Acc].
  destruct (timed_pop st en q T E) as (_ & _ & Hwf).
  unfold entry_wf in Hwf.
  pose proof (accounted_pop_other st en q Acc E) as Keep.
  unfold in_service in Keep. unfold dispatch.
  destruct (e_event en) as [|i|i|i a|i a s w| | |e|] eqn:Ev; simpl after;
    try (apply Keep; reflexivity).
  - eapply accounted_quiet; [apply quiet_generator_wait|apply Keep; reflexivity].
  - eapply accounted_quiet; [apply quiet_customer_arrive|apply Keep; reflexivity].
  - eapply accounted_quiet; [apply quiet_generator_arrival|apply Keep; reflexivity].
  - apply accounted_customer_start. apply Keep. reflexivity.
  - (* a customer leaves *)
    clear Keep.
    pose proof (heappop_count _ _ _ E) as Hc.
    pose proof (heappop_waits _ _ _ E) as Hw.
    unfold in_service in Hc. unfold service_wait in Hw. rewrite Ev in Hc, Hw.
    unfold customer_leave.
    set (st1 := set_clock R (e_time en) q st).
    set (sys := now R st1 - a).
    set (st2 := print_if_verbose' (Leaves i (now R st1) sys)
                  (incr_served R (append_system R sys st1))).
    assert (F2 : wait_times R st2 = wait_times R st /\
                 system_times R st2 = system_times R st ++ [sys] /\
                 customers_served R st2 = S (customers_served R st) /\
                 queue R st2 = q).
    { subst st2. unfold print_if_verbose. destruct verbose; simpl; auto. }
    destruct F2 as (W2 & S2 & N2 & Q2).
    eapply accounted_quiet.
    { eapply quiet_trans; [apply quiet_release|].
      apply quiet_schedule. reflexivity. }
    destruct Acc as ([C1 C2] & B & U). destruct Hwf as (H1 & H2 & H3 & H4).
    unfold accounted, counted, balanced, unserved in *.
    rewrite W2, S2, N2, Q2.
    rewrite length_app, Qsum_app. simpl length. simpl (Qsum [sys]).
    split; [split; lia|].
    split.
    + intro F. destruct (B F) as [B1 B2].
      split; [lia|]. rewrite inject_S.
      assert (Esys : sys == w + service_time).
      { subst sys st1. simpl. lra. }
      rewrite Esys. lra.
    + intro F. destruct (U F). lia.
  - eapply accounted_quiet; [apply quiet_trigger_put|apply Keep; reflexivity].
Qed.

(** *** From the first state of the loop *)

Local Abbreviation armed' := (armed R).

Local Abbreviation sound := (sound R service_time).

Lemma sound_step (st : state') : sound st -> sound (after R (step' st)).
Proof.
  intros [T A]. split; [apply timed_step; exact T|].
  apply accounted_step; assumption.
Qed.

Lemma sound_armed (g : generator R) (sim_time : Q) (random_seed : Z) :
  0 < sim_time -> sound (armed' g sim_time random_seed).
Proof.
  intro H. split.
  - unfold timed, armed, fresh, schedule, set_random.
    cbn [now queue put_queue wait_times app].
    split; [|split; [|split]].
    + constructor; [cbn [e_time]; lra|].
      constructor; [cbn [e_time]; lra|constructor].
    + constructor; [exact I|]. constructor; [exact I|constructor].
    + constructor.
    + constructor.
  - unfold accounted, counted, balanced, unserved, armed, fresh, schedule,
      set_random; simpl.
    unfold count_in_service, waits_in_service; simpl.
    split; [split; lia|].
    split; [intros _; split; [lia|]|intros _; split; lia].
    change (inject_Z 0) with 0. change (Qsum []) with 0.
    cbn [service_wait e_event]. lra.
Qed.

Lemma sound_reachable (g : generator R) (sim_time : Q) (random_seed : Z)
    (st : state') :
  0 < sim_time ->
  reachable R n_servers arrival_rate service_time verbose g sim_time
    random_seed st ->
  sound st.
Proof.
  intros H [n Hn].
  apply (advance_invariant sound sound_step n _ st (sound_armed g _ _ H) Hn).
Qed.

Lemma sound_run (g : generator R) (sim_time : Q) (random_seed : Z)
    (fuel : nat) (o : option exn) (st : state') :
  0 < sim_time ->
  run' fuel (armed' g sim_time random_seed) = Some (o, st) ->
  sound st.
Proof.
  intros H Hr.
  apply (run_invariant sound sound_step fuel _ o st (sound_armed g _ _ H) Hr).
Qed.

(** More fuel does not change what [run] ends with. *)
Lemma run_more_fuel (fuel fuel' : nat) (st : state')
    (x : option exn * state') :
  run' fuel st = Some x -> (fuel <= fuel')%nat -> run' fuel' st = Some x.
Proof.
  revert fuel' st. induction fuel as [|fuel IH]; intros fuel' st H L.
  - discriminate.
  - destruct fuel' as [|fuel']; [lia|].
    simpl in *. destruct (step' st) as [s|s|e s]; auto.
    apply IH; [exact H|lia].
Qed.

(** What a call that returns went through. *)
Lemma run_simulation_Return (fuel : nat) (g : generator R) (sim_time : Q)
    (random_seed : Z) (c : call R) (r : result) :
  run_simulation R fuel g n_servers arrival_rate service_time sim_time
    random_seed verbose = Some c ->
  value R c = Return r ->
  0 < sim_time /\ (0 < n_servers)%Z /\
  exists st : state',
    run' fuel (armed' g sim_time random_seed) = Some (None, st) /\
    r = summary R st /\
    random_after R c = random_state R st /\
    printed R c = stdout R st.
Proof.
  unfold run_simulation. intros H V.
  destruct (n_servers <=? 0)%Z eqn:N.
  { inversion H; subst. discriminate V. }
  destruct (Qle_bool sim_time
              (now R (schedule R Initialize_generator URGENT 0
                        (fresh R g random_seed)))) eqn:L.
  { inversion H; subst. discriminate V. }
  simpl in L.
  assert (Hs : 0 < sim_time).
  { apply Qnot_le_lt. intro F. apply Qle_bool_iff in F. congruence. }
  split; [exact Hs|]. split; [apply Z.leb_gt in N; exact N|].
  change (schedule R Until URGENT
            (sim_time - now R (schedule R Initialize_generator URGENT 0
                                 (fresh R g random_seed)))
            (schedule R Initialize_generator URGENT 0 (fresh R g random_seed)))
    with (armed' g sim_time random_seed) in H.
  destruct (run' fuel (armed' g sim_time random_seed)) as [[o st]|];
    [|discriminate].
  inversion H; subst. destruct o as [e|]; simpl in V; [discriminate|].
  inversion V; subst. exists st. simpl. auto.
Qed.

End Loop.

(** ** What is recorded, and when *)

Lemma count_zero_waits (q : list entry) :
  count_in_service q = O -> waits_in_service q == 0.
Proof.
  unfold count_in_service, waits_in_service.
  induction q as [|en q IH]; intro H; [reflexivity|].
  change (list_sum (map in_service (en :: q)))
    with (in_service en + list_sum (map in_service q))%nat in H.
  change (Qsum (map service_wait (en :: q)))
    with (service_wait en + Qsum (map service_wait q)).
  assert (H1 : in_service en = O) by lia.
  assert (H2 : list_sum (map in_service q) = O) by lia.
  rewrite (in_service_wait en H1), (IH H2). lra.
Qed.

(** C9.  When the service of a customer begins, the wait appended to
    [wait_times] is the time of that moment minus the arrival time, and
    it is not negative.  When the service timeout of a customer with
    arrival time [a], service start [s] and recorded wait [w] fires, [w]
    is [s - a], it is among the recorded waits, the timeout fires at
    [s + service_time], and the system time appended is that time minus
    [a], hence [w + service_time]. *)
Theorem customer_times_recorded :
  forall (R : Random) (n_servers : Z) (arrival_rate service_time : Q)
    (verbose : bool) (g : generator R) (sim_time : Q) (random_seed : Z)
    (st : state R) (en : entry) (q : list entry),
  0 < sim_time ->
  reachable R n_servers arrival_rate service_time verbose g sim_time
    random_seed st ->
  heappop (queue R st) = Some (en, q) ->
  let st' := after R (step R n_servers arrival_rate service_time verbose st) in
  match e_event en with
  | Request i a =>
      wait_times R st' = wait_times R st ++ [e_time en - a] /\
      0 <= e_time en - a /\
      system_times R st' = system_times R st
  | Timeout_service i a s w =>
      w == s - a /\ 0 <= w /\ In w (wait_times R st) /\
      e_time en == s + service_time /\
      system_times R st' = system_times R st ++ [e_time en - a] /\
      customers_served R st' = S (customers_served R st) /\
      wait_times R st' = wait_times R st /\
      e_time en - a == (s + service_time) - a /\
      e_time en - a == w + service_time
  | _ => True
  end.
Proof.
  intros R n_servers arrival_rate service_time verbose g sim_time random_seed
    st en q Hs Hr E st'.
  destruct (sound_reachable R n_servers arrival_rate service_time verbose
              g sim_time random_seed st Hs Hr) as [T _].
  destruct (timed_pop R service_time st en q T E) as (_ & _ & Hwf).
  unfold entry_wf in Hwf. subst st'. unfold step. rewrite E. unfold dispatch.
  destruct (e_event en) as [|i|i|i a|i a s w| | |e|]; try exact I.
  - cbn [after]. unfold customer_start, print_if_verbose.
    destruct verbose; destruct (Qltb service_time 0);
      (split; [reflexivity|split; [cbn; lra|reflexivity]]).
  - destruct Hwf as (H1 & H2 & H3 & H4). cbn [after].
    unfold customer_leave, print_if_verbose.
    split; [exact H1|]. split; [exact H2|]. split; [exact H4|].
    split; [exact H3|].
    split; [destruct verbose; reflexivity|].
    split; [destruct verbose; reflexivity|].
    split; [destruct verbose; reflexivity|].
    split; lra.
Qed.


Lemma customer_times_recorded_witness :
  let st := Tabulated.state_after 12 1 3 5 42 in
  let st' := after Tabulated.tabulated (step Tabulated.tabulated 1 1 3 false st) in
  exists (en : entry) (q : list entry) (i : nat) (a s w : Q),
    0 < 5 /\
    reachable Tabulated.tabulated 1 1 3 false (0%Z, O) 5 42 st /\
    heappop (queue Tabulated.tabulated st) = Some (en, q) /\
    e_event en = Timeout_service i a s w /\
    w == s - a /\ 0 <= w /\ In w (wait_times Tabulated.tabulated st) /\
    e_time en == s + 3 /\
    system_times Tabulated.tabulated st'
    = system_times Tabulated.tabulated st ++ [e_time en - a] /\
    e_time en - a == w + 3.
Proof.
  intros st st'.
  assert (H1 : 0 < 5) by reflexivity.
  assert (H2 : reachable Tabulated.tabulated 1 1 3 false (0%Z, O) 5 42 st).
  { exists 12%nat. vm_compute. reflexivity. }
  destruct (heappop (queue Tabulated.tabulated st)) as [[en q]|] eqn:E;
    [|vm_compute in E; discriminate E].
  pose proof (customer_times_recorded Tabulated.tabulated 1 1 3 false
                (0%Z, O) 5 42 st en q H1 H2 E) as C.
  assert (Ev : exists i a s w, e_event en = Timeout_service i a s w).
  { vm_compute in E. inversion E; subst en. simpl.
    eexists. eexists. eexists. eexists. reflexivity. }
  destruct Ev as (i & a & s & w & Ev). rewrite Ev in C.
  destruct C as (C1 & C2 & C3 & C4 & C5 & C6 & C7 & C8 & C9).
  exists en, q, i, a, s, w.
  repeat (split; [first [assumption|reflexivity]|]). exact C9.
Defined.
(** C6 (amended).  [system_times] and [customers_served] move together:
    at every state of the loop, and in the state a step leaves, the
    length of [system_times] is [customers_served].  [wait_times] is
    appended to earlier, when the service begins, so it is at least as
    long; with a non-negative [service_time] it is longer by the number
    of customers whose service timeout is pending. *)
Theorem served_is_system_times_length :
  forall (R : Random) (n_servers : Z) (arrival_rate service_time : Q)
    (verbose : bool) (g : generator R) (sim_time : Q) (random_seed : Z)
    (st : state R),
  0 < sim_time ->
  reachable R n_servers arrival_rate service_time verbose g sim_time
    random_seed st ->
  let st' := after R (step R n_servers arrival_rate service_time verbose st) in
  (length (system_times R st) = customers_served R st /\
   customers_served R st <= length (wait_times R st))%nat /\
  (length (system_times R st') = customers_served R st' /\
   customers_served R st' <= length (wait_times R st'))%nat /\
  (0 <= service_time ->
   length (wait_times R st)
   = (customers_served R st + count_in_service (queue R st))%nat /\
   length (wait_times R st')
   = (customers_served R st' + count_in_service (queue R st'))%nat).
Proof.
  intros R n_servers arrival_rate service_time verbose g sim_time random_seed
    st Hs Hr st'.
  pose proof (sound_reachable R n_servers arrival_rate service_time verbose
                g sim_time random_seed st Hs Hr) as S0.
  pose proof (sound_step R n_servers arrival_rate service_time verbose st S0)
    as S1.
  fold st' in S1.
  destruct S0 as (_ & [C0 D0] & B0 & _).
  destruct S1 as (_ & [C1 D1] & B1 & _).
  split; [split; [exact C0|lia]|].
  split; [split; [exact C1|lia]|].
  intro Hn. apply Qltb_false in Hn.
  split; [apply (B0 Hn)|apply (B1 Hn)].
Qed.


Lemma served_is_system_times_length_witness :
  let st := Tabulated.state_after 4 5 3 1 42 in
  0 < 1 /\
  reachable Tabulated.tabulated 1 5 3 false (0%Z, O) 1 42 st /\
  (length (system_times Tabulated.tabulated st)
   = customers_served Tabulated.tabulated st /\
   customers_served Tabulated.tabulated st
   <= length (wait_times Tabulated.tabulated st))%nat.
Proof.
  intro st.
  assert (H1 : 0 < 1) by reflexivity.
  assert (H2 : reachable Tabulated.tabulated 1 5 3 false (0%Z, O) 1 42 st).
  { exists 4%nat. vm_compute. reflexivity. }
  split; [exact H1|]. split; [exact H2|].
  exact (proj1 (served_is_system_times_length Tabulated.tabulated 1 5 3 false
                  (0%Z, O) 1 42 st H1 H2)).
Defined.

(** C6 as stated fails.  One server, [arrival_rate = 5],
    [service_time = 3], [sim_time = 1], seed 42: the first customer
    arrives near 0.204 and begins service at once, which appends its
    wait; it would leave near 3.204, after the horizon.  The loop ends
    with one recorded wait, no recorded system time, and nobody served. *)
Lemma wait_recorded_before_departure :
  option_map
    (fun x =>
       (length (wait_times Tabulated.tabulated (snd x)),
        length (system_times Tabulated.tabulated (snd x)),
        customers_served Tabulated.tabulated (snd x)))
    (run Tabulated.tabulated 1 5 3 false 20
       (armed Tabulated.tabulated (0%Z, O) 1 42))
  = Some (1%nat, 0%nat, 0%nat).
Proof. vm_compute. reflexivity. Qed.
(** C2 (amended).  In the dictionary a call returns, [avg_system_time]
    is null exactly when [total_customers] is 0, and a null
    [avg_wait_time] implies [total_customers = 0]; the converse of the
    latter is not claimed. *)
Theorem null_averages :
  forall (R : Random) (fuel : nat) (g : generator R) (n_servers : Z)
    (arrival_rate service_time sim_time : Q) (random_seed : Z)
    (verbose : bool) (c : call R) (r : result),
  run_simulation R fuel g n_servers arrival_rate service_time sim_time
    random_seed verbose = Some c ->
  value R c = Return r ->
  (avg_system_time r = None <-> total_customers r = O) /\
  (avg_wait_time r = None -> total_customers r = O).
Proof.
  intros R fuel g n_servers arrival_rate service_time sim_time random_seed
    verbose c r H V.
  destruct (run_simulation_Return R n_servers arrival_rate service_time
              verbose fuel g sim_time random_seed c r H V)
    as (Hs & _ & st & Hrun & -> & _).
  destruct (sound_run R n_servers arrival_rate service_time verbose g
              sim_time random_seed fuel None st Hs Hrun)
    as (_ & [C D] & _).
  unfold summary; simpl. split; [split|].
  - destruct (system_times R st); [simpl in C; congruence|discriminate].
  - intro Z0. rewrite Z0 in C.
    destruct (system_times R st); [reflexivity|discriminate].
  - destruct (wait_times R st); [simpl in D; lia|discriminate].
Qed.


Lemma null_averages_witness :
  exists (c : call Tabulated.tabulated) (r : result),
    run_simulation Tabulated.tabulated 20 (0%Z, O) 1 5 3 1 42 false = Some c /\
    value Tabulated.tabulated c = Return r /\
    (avg_system_time r = None <-> total_customers r = O) /\
    (avg_wait_time r = None -> total_customers r = O).
Proof.
  destruct (run_simulation Tabulated.tabulated 20 (0%Z, O) 1 5 3 1 42 false)
    as [c|] eqn:E; [|vm_compute in E; discriminate E].
  assert (V : value Tabulated.tabulated c
              = Return (mkResult 0 (Some (0 # 100)) None)).
  { vm_compute in E. inversion E. reflexivity. }
  exists c, (mkResult 0 (Some (0 # 100)) None).
  split; [reflexivity|]. split; [exact V|].
  exact (null_averages Tabulated.tabulated 20 (0%Z, O) 1 5 3 1 42 false c _
           E V).
Defined.

(** C2 as stated fails.  One server, [arrival_rate = 5],
    [service_time = 3], [sim_time = 1], seed 42: nobody has left when the
    horizon is reached, so [total_customers] is 0 and [avg_system_time]
    is null, but the first customer has begun service and
    [avg_wait_time] is 0.0, not null. *)
Lemma zero_served_wait_not_null :
  option_map (value Tabulated.tabulated)
    (run_simulation Tabulated.tabulated 20 (0%Z, O) 1 5 3 1 42 false)
  = Some (Return (mkResult 0 (Some (0 # 100)) None)).
Proof. vm_compute. reflexivity. Qed.
(** C5 (amended).  When a call returns with [total_customers > 0] and no
    service timeout is pending in the state its loop ended in, so that
    every recorded wait belongs to a customer that also left, the mean
    system time is the mean wait plus [service_time], and the two
    rounded averages differ from that by at most 0.01. *)
Theorem conservation_when_all_left :
  forall (R : Random) (fuel : nat) (g : generator R) (n_servers : Z)
    (arrival_rate service_time sim_time : Q) (random_seed : Z)
    (verbose : bool) (c : call R) (r : result) (o : option exn)
    (st : state R),
  run_simulation R fuel g n_servers arrival_rate service_time sim_time
    random_seed verbose = Some c ->
  value R c = Return r ->
  run R n_servers arrival_rate service_time verbose fuel
    (armed R g sim_time random_seed) = Some (o, st) ->
  count_in_service (queue R st) = O ->
  (0 < total_customers r)%nat ->
  mean (system_times R st) == mean (wait_times R st) + service_time /\
  exists w s : Q,
    avg_wait_time r = Some w /\ avg_system_time r = Some s /\
    Qabs (s - (w + service_time)) <= 1 # 100.
Proof.
  intros R fuel g n_servers arrival_rate service_time sim_time random_seed
    verbose c r o st H V Hrun Hz Hpos.
  destruct (run_simulation_Return R n_servers arrival_rate service_time
              verbose fuel g sim_time random_seed c r H V)
    as (Hs & _ & st0 & Hrun0 & -> & _).
  rewrite Hrun in Hrun0. inversion Hrun0; subst o st0. clear Hrun0.
  destruct (sound_run R n_servers arrival_rate service_time verbose g
              sim_time random_seed fuel None st Hs Hrun)
    as (_ & [C D] & B & U).
  simpl in Hpos.
  assert (Neg : Qltb service_time 0 = false).
  { destruct (Qltb service_time 0); [|reflexivity].
    destruct (U eq_refl) as [U1 _]. lia. }
  destruct (B Neg) as [B1 B2].
  rewrite Hz in B1. rewrite (count_zero_waits _ Hz) in B2.
  rewrite Nat.add_0_r in B1.
  set (N := inject_Z (Z.of_nat (customers_served R st))) in *.
  assert (HN : 0 < N).
  { subst N. change 0 with (inject_Z 0). rewrite <- Zlt_Qlt. lia. }
  assert (M : mean (system_times R st) == mean (wait_times R st) + service_time).
  { unfold mean. rewrite C, B1. fold N.
    assert (E : Qsum (system_times R st)
                == Qsum (wait_times R st) + service_time * N) by lra.
    rewrite E. field. lra. }
  split; [exact M|].
  unfold summary; cbn [avg_wait_time avg_system_time].
  destruct (wait_times R st) as [|w0 wl] eqn:Ew; [simpl in B1; lia|].
  destruct (system_times R st) as [|s0 sl] eqn:Es; [simpl in C; lia|].
  eexists. eexists. split; [reflexivity|]. split; [reflexivity|].
  destruct (round2_near (mean (w0 :: wl))) as [W1 W2].
  destruct (round2_near (mean (s0 :: sl))) as [S1 S2].
  apply (proj2 (Qabs_Qle_condition _ _)). split; lra.
Qed.

Lemma conservation_when_all_left_witness :
  exists (c : call Tabulated.tabulated) (r : result)
         (st : state Tabulated.tabulated) (w s : Q),
    run_simulation Tabulated.tabulated 40 (0%Z, O) 3 (1 # 5) 1 8 42 false
    = Some c /\
    value Tabulated.tabulated c = Return r /\
    run Tabulated.tabulated 3 (1 # 5) 1 false 40
      (armed Tabulated.tabulated (0%Z, O) 8 42) = Some (None, st) /\
    count_in_service (queue Tabulated.tabulated st) = O /\
    (0 < total_customers r)%nat /\
    avg_wait_time r = Some w /\ avg_system_time r = Some s /\
    Qabs (s - (w + 1)) <= 1 # 100.
Proof.
  destruct (run_simulation Tabulated.tabulated 40 (0%Z, O) 3 (1 # 5) 1 8 42
              false) as [c|] eqn:E; [|vm_compute in E; discriminate E].
  destruct (run Tabulated.tabulated 3 (1 # 5) 1 false 40
              (armed Tabulated.tabulated (0%Z, O) 8 42))
    as [[o st]|] eqn:Er; [|vm_compute in Er; discriminate Er].
  assert (O0 : o = None).
  { vm_compute in Er. inversion Er. reflexivity. }
  subst o.
  assert (V : value Tabulated.tabulated c
              = Return (mkResult 3 (Some (0 # 100)) (Some (100 # 100)))).
  { vm_compute in E. inversion E. reflexivity. }
  assert (Z0 : count_in_service (queue Tabulated.tabulated st) = O).
  { vm_compute in Er. inversion Er. reflexivity. }
  assert (P : (0 < total_customers
                     (mkResult 3 (Some (0 # 100)) (Some (100 # 100))))%nat)
    by (simpl; lia).
  destruct (conservation_when_all_left Tabulated.tabulated 40 (0%Z, O) 3
              (1 # 5) 1 8 42 false c _ None st E V Er Z0 P)
    as (_ & w & s & Hw & Hs & Habs).
  exists c, (mkResult 3 (Some (0 # 100)) (Some (100 # 100))), st, w, s.
  repeat (split; [first [assumption|reflexivity]|]). exact Habs.
Defined.

(** C5 as stated fails.  One server, [arrival_rate = 1],
    [service_time = 3], [sim_time = 5], seed 42: the first customer
    arrives near 1.02 and leaves near 4.02; the second arrives near 1.05,
    waits until then and is still in service at the horizon.  Its wait
    is in [avg_wait_time], its system time is not in [avg_system_time]:
    the dictionary has [total_customers = 1], [avg_wait_time = 1.49] and
    [avg_system_time = 3.0], and 3.0 is 1.49 short of 1.49 + 3. *)
Lemma conservation_fails_with_customer_in_service :
  option_map (value Tabulated.tabulated)
    (run_simulation Tabulated.tabulated 20 (0%Z, O) 1 1 3 5 42 false)
  = Some (Return (mkResult 1 (Some (149 # 100)) (Some (300 # 100)))) /\
  ~ Qabs ((300 # 100) - ((149 # 100) + 3)) <= 1 # 100.
Proof.
  split; [vm_compute; reflexivity|].
  intro H. vm_compute in H. apply H. reflexivity.
Qed.

(** ** Determinism, the global generator and [verbose] *)

Lemma run_simulation_global :
  forall (R : Random) (fuel : nat) (g1 g2 : generator R) (n_servers : Z)
    (arrival_rate service_time sim_time : Q) (random_seed : Z)
    (verbose : bool),
  run_simulation R fuel g1 n_servers arrival_rate service_time sim_time
    random_seed verbose
  = run_simulation R fuel g2 n_servers arrival_rate service_time sim_time
      random_seed verbose.
Proof. intros. reflexivity. Qed.

Lemma run_simulation_more_fuel :
  forall (R : Random) (fuel fuel' : nat) (g : generator R) (n_servers : Z)
    (arrival_rate service_time sim_time : Q) (random_seed : Z)
    (verbose : bool) (c : call R),
  run_simulation R fuel g n_servers arrival_rate service_time sim_time
    random_seed verbose = Some c ->
  (fuel <= fuel')%nat ->
  run_simulation R fuel' g n_servers arrival_rate service_time sim_time
    random_seed verbose = Some c.
Proof.
  intros R fuel fuel' g n_servers arrival_rate service_time sim_time
    random_seed verbose c H L.
  unfold run_simulation in *.
  destruct (n_servers <=? 0)%Z; [exact H|].
  destruct (Qle_bool sim_time _); [exact H|].
  match goal with
  | H : match run ?R ?n ?a ?s ?v fuel ?st with _ => _ end = _ |- _ =>
      destruct (run R n a s v fuel st) as [x|] eqn:E; [|discriminate H];
      rewrite (run_more_fuel R n a s v fuel fuel' st x E L); exact H
  end.
Qed.

(** C3.  Two calls with the same arguments end alike, whatever the
    module-global generator held before each and however long the loop
    is given: same dictionary or same exception, and also the same
    printed lines and the same state of the generator afterwards. *)
Theorem run_simulation_deterministic :
  forall (R : Random) (fuel1 fuel2 : nat) (g1 g2 : generator R)
    (n_servers : Z) (arrival_rate service_time sim_time : Q)
    (random_seed : Z) (verbose : bool) (c1 c2 : call R),
  run_simulation R fuel1 g1 n_servers arrival_rate service_time sim_time
    random_seed verbose = Some c1 ->
  run_simulation R fuel2 g2 n_servers arrival_rate service_time sim_time
    random_seed verbose = Some c2 ->
  value R c1 = value R c2 /\ c1 = c2.
Proof.
  intros R fuel1 fuel2 g1 g2 n_servers arrival_rate service_time sim_time
    random_seed verbose c1 c2 H1 H2.
  rewrite (run_simulation_global R fuel2 g2 g1) in H2.
  apply (run_simulation_more_fuel R fuel1 (Nat.max fuel1 fuel2)) in H1;
    [|apply Nat.le_max_l].
  apply (run_simulation_more_fuel R fuel2 (Nat.max fuel1 fuel2)) in H2;
    [|apply Nat.le_max_r].
  rewrite H1 in H2. inversion H2; subst. split; reflexivity.
Qed.

Lemma run_simulation_deterministic_witness :
  exists c1 c2 : call Tabulated.tabulated,
    run_simulation Tabulated.tabulated 20 (0%Z, O) 1 1 3 5 42 false = Some c1 /\
    run_simulation Tabulated.tabulated 30 (7%Z, 3%nat) 1 1 3 5 42 false
    = Some c2 /\
    value Tabulated.tabulated c1 = value Tabulated.tabulated c2 /\ c1 = c2.
Proof.
  destruct (run_simulation Tabulated.tabulated 20 (0%Z, O) 1 1 3 5 42 false)
    as [c1|] eqn:E1; [|vm_compute in E1; discriminate E1].
  destruct (run_simulation Tabulated.tabulated 30 (7%Z, 3%nat) 1 1 3 5 42
              false) as [c2|] eqn:E2; [|vm_compute in E2; discriminate E2].
  exists c1, c2. split; [reflexivity|]. split; [reflexivity|].
  exact (run_simulation_deterministic Tabulated.tabulated 20 30 (0%Z, O)
           (7%Z, 3%nat) 1 1 3 5 42 false c1 c2 E1 E2).
Defined.

(** *** The module-global generator *)

Section Draws.

Variable R : Random.
Variable n_servers : Z.
Variable arrival_rate : Q.
Variable service_time : Q.
Variable verbose : bool.

Lemma random_state_trigger_put (st : state R) :
  random_state R (trigger_put R n_servers st) = random_state R st.
Proof.
  unfold trigger_put. destruct (put_queue R st) as [|[h a] rest];
    [reflexivity|].
  destruct (Z.of_nat (length (users R st)) <? n_servers)%Z; reflexivity.
Qed.

Lemma random_state_generator_wait (st : state R) (i : nat) :
  random_state R (generator_wait R arrival_rate i st)
  = snd (exp_draw R (random_state R st)).
Proof.
  unfold generator_wait.
  destruct (exp_draw R (random_state R st)) as [e g'].
  destruct (Qeq_bool arrival_rate 0); [reflexivity|].
  destruct (Qltb (e / arrival_rate) 0); reflexivity.
Qed.

(** A step leaves the generator alone or makes one draw. *)
Lemma random_state_step (st : state R) :
  let st' := after R (step R n_servers arrival_rate service_time verbose st) in
  random_state R st' = random_state R st \/
  random_state R st' = snd (exp_draw R (random_state R st)).
Proof.
  unfold step.
  destruct (heappop (queue R st)) as [[en q]|]; [|left; reflexivity].
  unfold dispatch.
  destruct (e_event en) as [|i|i|i a|i a s w| | |e|]; cbn [after].
  - right. rewrite random_state_generator_wait. reflexivity.
  - left. unfold customer_arrive, request.
    rewrite random_state_trigger_put.
    unfold print_if_verbose. destruct verbose; reflexivity.
  - right. unfold generator_arrival.
    rewrite random_state_generator_wait. reflexivity.
  - left. unfold customer_start, print_if_verbose.
    destruct verbose; destruct (Qltb service_time 0); reflexivity.
  - left. unfold customer_leave, print_if_verbose.
    destruct verbose; reflexivity.
  - left. rewrite random_state_trigger_put. reflexivity.
  - left. reflexivity.
  - left. reflexivity.
  - left. reflexivity.
Qed.

Lemma drawn_step (g0 : generator R) (st : state R) :
  (exists k, random_state R st = drawn R k g0) ->
  exists k,
    random_state R
      (after R (step R n_servers arrival_rate service_time verbose st))
    = drawn R k g0.
Proof.
  intros [k Hk].
  destruct (random_state_step st) as [E|E]; rewrite E.
  - exists k. exact Hk.
  - exists (S k). simpl. rewrite Hk. reflexivity.
Qed.

End Draws.

(** C10.  What a call does is the same whatever the module-global
    generator held when it was made, because [random.seed] overwrites it
    first; and the generator the call leaves behind is the one seeded
    with [random_seed] and advanced by the draws of the run, not the one
    that was there before. *)
Theorem global_generator_frame :
  forall (R : Random) (fuel : nat) (g1 g2 : generator R) (n_servers : Z)
    (arrival_rate service_time sim_time : Q) (random_seed : Z)
    (verbose : bool),
  run_simulation R fuel g1 n_servers arrival_rate service_time sim_time
    random_seed verbose
  = run_simulation R fuel g2 n_servers arrival_rate service_time sim_time
      random_seed verbose /\
  forall c : call R,
    run_simulation R fuel g1 n_servers arrival_rate service_time sim_time
      random_seed verbose = Some c ->
    exists k : nat, random_after R c = drawn R k (seed R random_seed).
Proof.
  intros R fuel g1 g2 n_servers arrival_rate service_time sim_time
    random_seed verbose.
  split; [apply run_simulation_global|].
  intros c H. unfold run_simulation in H.
  destruct (n_servers <=? 0)%Z.
  { inversion H; subst. exists O. reflexivity. }
  destruct (Qle_bool sim_time _).
  { inversion H; subst. exists O. reflexivity. }
  match goal with
  | H : match run ?R ?n ?a ?s ?v fuel ?st with _ => _ end = _ |- _ =>
      destruct (run R n a s v fuel st) as [[o st']|] eqn:E;
        [|discriminate H];
      pose proof (run_invariant R n a s v
                    (fun x => exists k,
                       random_state R x = drawn R k (seed R random_seed))
                    (drawn_step R n a s v (seed R random_seed))
                    fuel st o st') as Inv
  end.
  assert (K : exists k, random_state R st' = drawn R k (seed R random_seed)).
  { apply Inv; [exists O; reflexivity|exact E]. }
  inversion H; subst. destruct o; exact K.
Qed.

Lemma global_generator_frame_witness :
  exists c : call Tabulated.tabulated,
    run_simulation Tabulated.tabulated 20 (7%Z, 3%nat) 1 1 3 5 42 false
    = Some c /\
    run_simulation Tabulated.tabulated 20 (7%Z, 3%nat) 1 1 3 5 42 false
    = run_simulation Tabulated.tabulated 20 (0%Z, O) 1 1 3 5 42 false /\
    (exists k : nat,
       random_after Tabulated.tabulated c
       = drawn Tabulated.tabulated k (seed Tabulated.tabulated 42)) /\
    random_after Tabulated.tabulated c = (42%Z, 7%nat).
Proof.
  destruct (run_simulation Tabulated.tabulated 20 (7%Z, 3%nat) 1 1 3 5 42
              false) as [c|] eqn:E; [|vm_compute in E; discriminate E].
  destruct (global_generator_frame Tabulated.tabulated 20 (7%Z, 3%nat)
              (0%Z, O) 1 1 3 5 42 false) as [G K].
  exists c. split; [reflexivity|]. split; [rewrite <- E; exact G|].
  split; [apply K; exact E|].
  vm_compute in E. inversion E. reflexivity.
Defined.

(** *** Printing *)

Section Verbose.

Variable R : Random.
Variable n_servers : Z.
Variable arrival_rate : Q.
Variable service_time : Q.

Lemma mute_trigger_put (st : state R) :
  mute R (trigger_put R n_servers st) = trigger_put R n_servers (mute R st).
Proof.
  unfold trigger_put. cbn [mute put_queue users].
  destruct (put_queue R st) as [|[h a] rest]; [reflexivity|].
  destruct (Z.of_nat (length (users R st)) <? n_servers)%Z; reflexivity.
Qed.

Lemma mute_customer_arrive (verbose : bool) (st : state R) (i : nat) :
  mute R (customer_arrive R n_servers verbose i st)
  = customer_arrive R n_servers false i (mute R st).
Proof.
  unfold customer_arrive, request. rewrite mute_trigger_put.
  f_equal. unfold print_if_verbose. destruct verbose; reflexivity.
Qed.

Lemma mute_customer_start (verbose : bool) (st : state R) (i : nat) (a : Q) :
  mute R (customer_start R service_time verbose i a st)
  = customer_start R service_time false i a (mute R st).
Proof.
  unfold customer_start, print_if_verbose.
  destruct verbose; destruct (Qltb service_time 0); reflexivity.
Qed.

Lemma mute_customer_leave (verbose : bool) (st : state R) (i : nat) (a : Q) :
  mute R (customer_leave R verbose i a st)
  = customer_leave R false i a (mute R st).
Proof.
  unfold customer_leave, print_if_verbose. destruct verbose; reflexivity.
Qed.

Lemma mute_generator_wait (st : state R) (i : nat) :
  mute R (generator_wait R arrival_rate i st)
  = generator_wait R arrival_rate i (mute R st).
Proof.
  unfold generator_wait. cbn [mute random_state].
  destruct (exp_draw R (random_state R st)) as [e g'].
  destruct (Qeq_bool arrival_rate 0); [reflexivity|].
  destruct (Qltb (e / arrival_rate) 0); reflexivity.
Qed.

Lemma mute_step (verbose : bool) (st : state R) :
  mute_result R (step R n_servers arrival_rate service_time verbose st)
  = step R n_servers arrival_rate service_time false (mute R st).
Proof.
  unfold step. cbn [mute queue].
  destruct (heappop (queue R st)) as [[en q]|]; [|reflexivity].
  unfold dispatch.
  destruct (e_event en) as [|i|i|i a|i a s w| | |e|]; cbn [mute_result];
    try reflexivity; f_equal.
  - rewrite mute_generator_wait. reflexivity.
  - rewrite mute_customer_arrive. reflexivity.
  - unfold generator_arrival. rewrite mute_generator_wait. reflexivity.
  - rewrite mute_customer_start. reflexivity.
  - rewrite mute_customer_leave. reflexivity.
  - rewrite mute_trigger_put. reflexivity.
Qed.

Lemma mute_run (verbose : bool) (fuel : nat) (st : state R) :
  option_map (fun x => (fst x, mute R (snd x)))
    (run R n_servers arrival_rate service_time verbose fuel st)
  = run R n_servers arrival_rate service_time false fuel (mute R st).
Proof.
  revert st. induction fuel as [|fuel IH]; intro st; [reflexivity|].
  cbn [run]. rewrite <- (mute_step verbose st).
  destruct (step R n_servers arrival_rate service_time verbose st)
    as [s|s|e s]; cbn [mute_result option_map fst snd].
  - apply IH.
  - reflexivity.
  - reflexivity.
Qed.

End Verbose.

Lemma value_finish_mute (R : Random) (o : option exn) (st : state R) :
  value R (finish R o (mute R st)) = value R (finish R o st) /\
  random_after R (finish R o (mute R st)) = random_after R (finish R o st).
Proof. destruct o; split; reflexivity. Qed.

(** C8.  With [verbose] set and with it unset, all other arguments
    equal, a call ends alike: the same dictionary or the same exception,
    and the same state of the global generator; only what is printed
    differs. *)
Theorem verbose_leaves_statistics :
  forall (R : Random) (fuel : nat) (g : generator R) (n_servers : Z)
    (arrival_rate service_time sim_time : Q) (random_seed : Z),
  option_map (fun c => (value R c, random_after R c))
    (run_simulation R fuel g n_servers arrival_rate service_time sim_time
       random_seed true)
  = option_map (fun c => (value R c, random_after R c))
      (run_simulation R fuel g n_servers arrival_rate service_time sim_time
         random_seed false).
Proof.
  intros R fuel g n_servers arrival_rate service_time sim_time random_seed.
  unfold run_simulation.
  destruct (n_servers <=? 0)%Z; [reflexivity|].
  destruct (Qle_bool sim_time _); [reflexivity|].
  match goal with
  | |- context [run R n_servers arrival_rate service_time true fuel ?st] =>
      pose proof (mute_run R n_servers arrival_rate service_time true fuel st)
        as Ht;
      pose proof (mute_run R n_servers arrival_rate service_time false fuel st)
        as Hf;
      change (mute R st) with st in Ht, Hf;
      destruct (run R n_servers arrival_rate service_time true fuel st)
        as [[o1 s1]|];
      destruct (run R n_servers arrival_rate service_time false fuel st)
        as [[o2 s2]|]
  end; simpl in Ht, Hf; try congruence.
  - assert (E : (o1, mute R s1) = (o2, mute R s2)) by congruence.
    assert (Eo : o1 = o2) by (exact (f_equal fst E)).
    assert (Es : mute R s1 = mute R s2) by (exact (f_equal snd E)).
    subst o1. cbn [option_map].
    destruct (value_finish_mute R o2 s1) as [V1 R1].
    destruct (value_finish_mute R o2 s2) as [V2 R2].
    rewrite <- V1, <- R1, <- V2, <- R2, Es. reflexivity.
Qed.

(** ** Arguments outside the documented domain *)

Lemma entry_ltb_lt (a b : entry) :
  e_time a < e_time b -> entry_ltb a b = true.
Proof.
  intro H. unfold entry_ltb.
  destruct (Qcompare (e_time a) (e_time b)) eqn:E; [|reflexivity|].
  - apply Qeq_alt in E. lra.
  - apply Qgt_alt in E. lra.
Qed.

Lemma entry_ltb_gt (a b : entry) :
  e_time b < e_time a -> entry_ltb a b = false.
Proof.
  intro H. unfold entry_ltb.
  destruct (Qcompare (e_time a) (e_time b)) eqn:E; [| |reflexivity].
  - apply Qeq_alt in E. lra.
  - apply Qlt_alt in E. lra.
Qed.

Lemma entry_ltb_le_prio (a b : entry) :
  e_time a <= e_time b -> (e_prio a < e_prio b)%Z -> entry_ltb a b = true.
Proof.
  intros H P. unfold entry_ltb.
  destruct (Qcompare (e_time a) (e_time b)) eqn:E.
  - apply Z.ltb_lt in P. rewrite P. reflexivity.
  - reflexivity.
  - apply Qgt_alt in E. exfalso. apply (Qlt_not_le _ _ E H).
Qed.

Section FirstSteps.

Variable R : Random.
Variable n_servers : Z.
Variable arrival_rate : Q.
Variable service_time : Q.
Variable verbose : bool.
Variable g : generator R.
Variable sim_time : Q.
Variable random_seed : Z.

Local Abbreviation until_entry := (mkEntry (0 + (sim_time - 0)) URGENT 1 Until).
Local Abbreviation armed0 := (armed R g sim_time random_seed).
Local Abbreviation step0 :=
  (step R n_servers arrival_rate service_time verbose).
Local Abbreviation run0 := (run R n_servers arrival_rate service_time verbose).

(** The state in which [customer_generator] is first resumed. *)
Local Abbreviation started :=
  (mkState R (0 + 0) [until_entry] 2 [] [] [] [] 0 (seed R random_seed) []).

(** The state after its first draw. *)
Local Abbreviation drew :=
  (mkState R (0 + 0) [until_entry] 2 [] [] [] [] 0
     (snd (exp_draw R (seed R random_seed))) []).

Lemma step_armed :
  0 < sim_time ->
  step0 armed0 = Running R (generator_wait R arrival_rate 0 started).
Proof.
  intro H. unfold step.
  assert (P : heappop (queue R armed0)
              = Some (mkEntry (0 + 0) URGENT 0 Initialize_generator,
                      [until_entry])).
  { unfold armed, fresh, schedule, set_random.
    cbn [queue now eid app heappop].
    rewrite entry_ltb_lt; [reflexivity|]. cbn [e_time]. lra. }
  rewrite P. reflexivity.
Qed.

Lemma generator_wait_zero_rate :
  arrival_rate == 0 ->
  generator_wait R arrival_rate 0 started
  = schedule R (Process_failed ZeroDivisionError) NORMAL 0 drew.
Proof.
  intro H. unfold generator_wait. cbn [random_state].
  destruct (exp_draw R (seed R random_seed)) as [e g'].
  apply Qeq_bool_iff in H. rewrite H. reflexivity.
Qed.

Lemma generator_wait_negative :
  Qeq_bool arrival_rate 0 = false ->
  fst (exp_draw R (seed R random_seed)) / arrival_rate < 0 ->
  generator_wait R arrival_rate 0 started
  = schedule R (Process_failed ValueError) NORMAL 0 drew.
Proof.
  intros H L. unfold generator_wait. cbn [random_state].
  destruct (exp_draw R (seed R random_seed)) as [e g']. cbn [fst snd] in *.
  rewrite H. apply Qltb_true in L. rewrite L. reflexivity.
Qed.

Lemma generator_wait_timeout :
  Qeq_bool arrival_rate 0 = false ->
  0 <= fst (exp_draw R (seed R random_seed)) / arrival_rate ->
  generator_wait R arrival_rate 0 started
  = schedule R (Timeout_generator 0) NORMAL
      (fst (exp_draw R (seed R random_seed)) / arrival_rate) drew.
Proof.
  intros H L. unfold generator_wait. cbn [random_state].
  destruct (exp_draw R (seed R random_seed)) as [e g']. cbn [fst snd] in *.
  rewrite H. apply Qltb_false in L. rewrite L. reflexivity.
Qed.

(** A process that failed at time 0 is met before the horizon. *)
Lemma step_failed (e : exn) :
  0 < sim_time ->
  step0 (schedule R (Process_failed e) NORMAL 0 drew)
  = Raised R e
      (mkState R (0 + 0 + 0) [until_entry] 3 [] [] [] [] 0
         (snd (exp_draw R (seed R random_seed))) []).
Proof.
  intro H. unfold step.
  assert (P : heappop (queue R (schedule R (Process_failed e) NORMAL 0 drew))
              = Some (mkEntry (0 + 0 + 0) NORMAL 2 (Process_failed e),
                      [until_entry])).
  { unfold schedule. cbn [queue now eid app heappop].
    rewrite entry_ltb_gt; [reflexivity|]. cbn [e_time]. lra. }
  rewrite P. reflexivity.
Qed.

(** The horizon is met before an arrival that is not earlier. *)
Lemma step_until (d : Q) :
  sim_time <= d ->
  step0 (schedule R (Timeout_generator 0) NORMAL d drew)
  = Stopped R
      (mkState R (0 + (sim_time - 0))
         [mkEntry (0 + 0 + d) NORMAL 2 (Timeout_generator 0)] 3
         [] [] [] [] 0 (snd (exp_draw R (seed R random_seed))) []).
Proof.
  intro H. unfold step.
  assert (P : heappop (queue R (schedule R (Timeout_generator 0) NORMAL d drew))
              = Some (until_entry,
                      [mkEntry (0 + 0 + d) NORMAL 2 (Timeout_generator 0)])).
  { unfold schedule. cbn [queue now eid app heappop].
    rewrite entry_ltb_le_prio; [reflexivity| |].
    - cbn [e_time]. lra.
    - cbn [e_prio]. unfold URGENT, NORMAL. lia. }
  rewrite P. reflexivity.
Qed.

Lemma run_failed (e : exn) (fuel : nat) :
  0 < sim_time -> (2 <= fuel)%nat ->
  generator_wait R arrival_rate 0 started
  = schedule R (Process_failed e) NORMAL 0 drew ->
  run0 fuel armed0
  = Some (Some e,
          mkState R (0 + 0 + 0) [until_entry] 3 [] [] [] [] 0
            (snd (exp_draw R (seed R random_seed))) []).
Proof.
  intros H F W.
  apply (run_more_fuel R n_servers arrival_rate service_time verbose 2 fuel);
    [|exact F].
  cbn [run]. rewrite (step_armed H), W, (step_failed e H). reflexivity.
Qed.

Lemma run_before_first_arrival (fuel : nat) :
  0 < sim_time -> (2 <= fuel)%nat ->
  Qeq_bool arrival_rate 0 = false ->
  sim_time <= fst (exp_draw R (seed R random_seed)) / arrival_rate ->
  run0 fuel armed0
  = Some (None,
          mkState R (0 + (sim_time - 0))
            [mkEntry (0 + 0 + fst (exp_draw R (seed R random_seed))
                                / arrival_rate)
               NORMAL 2 (Timeout_generator 0)] 3
            [] [] [] [] 0 (snd (exp_draw R (seed R random_seed))) []).
Proof.
  intros H F Z0 L.
  apply (run_more_fuel R n_servers arrival_rate service_time verbose 2 fuel);
    [|exact F].
  cbn [run]. rewrite (step_armed H).
  rewrite (generator_wait_timeout Z0); [|lra].
  rewrite (step_until _ L). reflexivity.
Qed.

(** [run_simulation], once past the two checks made before the loop. *)
Lemma run_simulation_loop (fuel : nat) :
  (0 < n_servers)%Z -> 0 < sim_time ->
  run_simulation R fuel g n_servers arrival_rate service_time sim_time
    random_seed verbose
  = match run0 fuel armed0 with
    | None => None
    | Some (o, st') => Some (finish R o st')
    end.
Proof.
  intros N H. unfold run_simulation.
  apply Z.leb_gt in N. rewrite N.
  assert (L : Qle_bool sim_time
                (now R (schedule R Initialize_generator URGENT 0
                          (fresh R g random_seed))) = false).
  { cbn [now schedule fresh set_random].
    destruct (Qle_bool sim_time 0) eqn:E; [|reflexivity].
    apply Qle_bool_iff in E. exfalso. apply (Qlt_not_le _ _ H E). }
  rewrite L. reflexivity.
Qed.

End FirstSteps.

Lemma Qdiv_neg_neg (e a : Q) : 0 < e -> a < 0 -> e / a < 0.
Proof.
  intros He Ha.
  assert (P : 0 < e / (- a)).
  { apply Qlt_shift_div_l; lra. }
  assert (E : e / a == - (e / (- a))).
  { field. intro F. lra. }
  rewrite E. lra.
Qed.

Section Refused.

Variable R : Random.
Variable fuel : nat.
Variable g : generator R.
Variable n_servers : Z.
Variable arrival_rate : Q.
Variable service_time : Q.
Variable sim_time : Q.
Variable random_seed : Z.
Variable verbose : bool.

Local Abbreviation the_call :=
  (run_simulation R fuel g n_servers arrival_rate service_time sim_time
     random_seed verbose).

Lemma refused_resource :
  (n_servers <= 0)%Z ->
  the_call = Some (mkCall R (Raise ValueError) (seed R random_seed) []).
Proof.
  intro N. unfold run_simulation.
  apply Z.leb_le in N. rewrite N. reflexivity.
Qed.

Lemma refused_horizon :
  (0 < n_servers)%Z -> sim_time <= 0 ->
  the_call = Some (mkCall R (Raise ValueError) (seed R random_seed) []).
Proof.
  intros N H. unfold run_simulation.
  apply Z.leb_gt in N. rewrite N.
  assert (L : Qle_bool sim_time
                (now R (schedule R Initialize_generator URGENT 0
                          (fresh R g random_seed))) = true).
  { cbn [now schedule fresh set_random]. apply Qle_bool_iff. exact H. }
  rewrite L. reflexivity.
Qed.

Lemma refused_zero_rate :
  (0 < n_servers)%Z -> 0 < sim_time -> (2 <= fuel)%nat ->
  arrival_rate == 0 ->
  the_call
  = Some (mkCall R (Raise ZeroDivisionError)
            (snd (exp_draw R (seed R random_seed))) []).
Proof.
  intros N H F Z0.
  rewrite (run_simulation_loop R n_servers arrival_rate service_time
             verbose g sim_time random_seed fuel N H).
  rewrite (run_failed R n_servers arrival_rate service_time verbose g
             sim_time random_seed ZeroDivisionError fuel H F
             (generator_wait_zero_rate R arrival_rate sim_time
                random_seed Z0)).
  reflexivity.
Qed.

Lemma refused_negative_rate :
  (0 < n_servers)%Z -> 0 < sim_time -> (2 <= fuel)%nat ->
  arrival_rate < 0 -> 0 < fst (exp_draw R (seed R random_seed)) ->
  the_call
  = Some (mkCall R (Raise ValueError)
            (snd (exp_draw R (seed R random_seed))) []).
Proof.
  intros N H F Neg Pos.
  rewrite (run_simulation_loop R n_servers arrival_rate service_time
             verbose g sim_time random_seed fuel N H).
  assert (Z0 : Qeq_bool arrival_rate 0 = false).
  { destruct (Qeq_bool arrival_rate 0) eqn:E; [|reflexivity].
    apply Qeq_bool_iff in E. lra. }
  rewrite (run_failed R n_servers arrival_rate service_time verbose g
             sim_time random_seed ValueError fuel H F
             (generator_wait_negative R arrival_rate sim_time
                random_seed Z0 (Qdiv_neg_neg _ _ Pos Neg))).
  reflexivity.
Qed.

End Refused.

(** C1 (amended).  [run_simulation] checks none of its arguments itself;
    what fails is what the libraries refuse.  With [n_servers < 1] the
    resource cannot be built: [ValueError], before any process exists
    and whatever the other arguments.  With [sim_time <= 0] the call to
    [env.run] is refused: [ValueError], before the loop runs.  With
    [arrival_rate = 0] the first draw of the generator process divides
    by zero inside the loop: [ZeroDivisionError]; with a negative
    [arrival_rate] and a positive first draw the delay is negative:
    [ValueError].  In each case nothing was printed and the global
    generator is left reseeded (and advanced by the one draw in the last
    two cases).  No check is made on [service_time]. *)
Theorem invalid_parameters_raise :
  forall (R : Random) (fuel : nat) (g : generator R) (n_servers : Z)
    (arrival_rate service_time sim_time : Q) (random_seed : Z)
    (verbose : bool),
  ((n_servers <= 0)%Z ->
   run_simulation R fuel g n_servers arrival_rate service_time sim_time
     random_seed verbose
   = Some (mkCall R (Raise ValueError) (seed R random_seed) [])) /\
  ((0 < n_servers)%Z -> sim_time <= 0 ->
   run_simulation R fuel g n_servers arrival_rate service_time sim_time
     random_seed verbose
   = Some (mkCall R (Raise ValueError) (seed R random_seed) [])) /\
  ((0 < n_servers)%Z -> 0 < sim_time -> (2 <= fuel)%nat ->
   arrival_rate == 0 ->
   run_simulation R fuel g n_servers arrival_rate service_time sim_time
     random_seed verbose
   = Some (mkCall R (Raise ZeroDivisionError)
             (snd (exp_draw R (seed R random_seed))) [])) /\
  ((0 < n_servers)%Z -> 0 < sim_time -> (2 <= fuel)%nat ->
   arrival_rate < 0 -> 0 < fst (exp_draw R (seed R random_seed)) ->
   run_simulation R fuel g n_servers arrival_rate service_time sim_time
     random_seed verbose
   = Some (mkCall R (Raise ValueError)
             (snd (exp_draw R (seed R random_seed))) [])).
Proof.
  intros R fuel g n_servers arrival_rate service_time sim_time random_seed
    verbose.
  split; [|split; [|split]].
  - apply refused_resource.
  - apply refused_horizon.
  - apply refused_zero_rate.
  - apply refused_negative_rate.
Qed.

Lemma invalid_parameters_raise_witness :
  ((0 <= 0)%Z /\
   run_simulation Tabulated.tabulated 0 (7%Z, 3%nat) 0 5 3 1440 42 false
   = Some (mkCall Tabulated.tabulated (Raise ValueError) (42%Z, O) [])) /\
  ((0 < 1)%Z /\ -1 <= 0 /\
   run_simulation Tabulated.tabulated 0 (7%Z, 3%nat) 1 5 3 (-1) 42 false
   = Some (mkCall Tabulated.tabulated (Raise ValueError) (42%Z, O) [])) /\
  ((0 < 1)%Z /\ 0 < 1440 /\ (2 <= 2)%nat /\ 0 == 0 /\
   run_simulation Tabulated.tabulated 2 (7%Z, 3%nat) 1 0 3 1440 42 false
   = Some (mkCall Tabulated.tabulated (Raise ZeroDivisionError)
             (42%Z, 1%nat) [])) /\
  ((0 < 1)%Z /\ 0 < 1440 /\ (2 <= 2)%nat /\ -5 < 0 /\
   0 < fst (exp_draw Tabulated.tabulated (seed Tabulated.tabulated 42)) /\
   run_simulation Tabulated.tabulated 2 (7%Z, 3%nat) 1 (-5) 3 1440 42 false
   = Some (mkCall Tabulated.tabulated (Raise ValueError) (42%Z, 1%nat) [])).
Proof.
  assert (A1 : (0 <= 0)%Z) by lia.
  assert (A2 : (0 < 1)%Z) by lia.
  assert (A3 : -1 <= 0) by (intro F; discriminate F).
  assert (A4 : 0 < 1440) by reflexivity.
  assert (A5 : (2 <= 2)%nat) by lia.
  assert (A6 : 0 == 0) by reflexivity.
  assert (A7 : -5 < 0) by reflexivity.
  assert (A8 : 0 < fst (exp_draw Tabulated.tabulated
                          (seed Tabulated.tabulated 42))) by reflexivity.
  split; [split; [exact A1|]|split; [split; [exact A2|split; [exact A3|]]|
    split; [split; [exact A2|split; [exact A4|split; [exact A5|split;
      [exact A6|]]]]|
      split; [exact A2|split; [exact A4|split; [exact A5|split;
        [exact A7|split; [exact A8|]]]]]]]].
  - exact (proj1 (invalid_parameters_raise Tabulated.tabulated 0 (7%Z, 3%nat)
                    0 5 3 1440 42 false) A1).
  - exact (proj1 (proj2 (invalid_parameters_raise Tabulated.tabulated 0
                           (7%Z, 3%nat) 1 5 3 (-1) 42 false)) A2 A3).
  - exact (proj1 (proj2 (proj2 (invalid_parameters_raise Tabulated.tabulated 2
                                  (7%Z, 3%nat) 1 0 3 1440 42 false)))
             A2 A4 A5 A6).
  - exact (proj2 (proj2 (proj2 (invalid_parameters_raise Tabulated.tabulated 2
                                  (7%Z, 3%nat) 1 (-5) 3 1440 42 false)))
             A2 A4 A5 A7 A8).
Defined.

(** C1 as stated fails.  One server, [arrival_rate = 1],
    [service_time = 0], [sim_time = 5], seed 42: nothing is raised; the
    six customers that arrive before the horizon are each served in no
    time, and a dictionary is returned. *)
Lemma zero_service_time_returns :
  option_map (value Tabulated.tabulated)
    (run_simulation Tabulated.tabulated 40 (0%Z, O) 1 1 0 5 42 false)
  = Some (Return (mkResult 6 (Some (0 # 100)) (Some (0 # 100)))).
Proof. vm_compute. reflexivity. Qed.

(** C4 (amended).  With [sim_time = 0] no dictionary is returned:
    [env.run(until=0)] is refused with [ValueError], because the horizon
    must lie after the current time, which is 0 (and with
    [n_servers < 1] the resource is refused first, with the same
    exception).  The empty dictionary is what a call returns for a
    positive horizon that the first arrival does not precede. *)
Theorem empty_horizon :
  forall (R : Random) (fuel : nat) (g : generator R) (n_servers : Z)
    (arrival_rate service_time sim_time : Q) (random_seed : Z)
    (verbose : bool),
  (sim_time == 0 ->
   run_simulation R fuel g n_servers arrival_rate service_time sim_time
     random_seed verbose
   = Some (mkCall R (Raise ValueError) (seed R random_seed) [])) /\
  ((0 < n_servers)%Z -> 0 < sim_time -> (2 <= fuel)%nat ->
   0 < arrival_rate ->
   sim_time <= fst (exp_draw R (seed R random_seed)) / arrival_rate ->
   option_map (value R)
     (run_simulation R fuel g n_servers arrival_rate service_time sim_time
        random_seed verbose)
   = Some (Return (mkResult 0 None None))).
Proof.
  intros R fuel g n_servers arrival_rate service_time sim_time random_seed
    verbose.
  split.
  - intro Z0.
    destruct (Z_le_gt_dec n_servers 0) as [N|N].
    + apply refused_resource. exact N.
    + apply refused_horizon; [lia|lra].
  - intros N H F Pos L.
    rewrite (run_simulation_loop R n_servers arrival_rate service_time
               verbose g sim_time random_seed fuel N H).
    assert (Z0 : Qeq_bool arrival_rate 0 = false).
    { destruct (Qeq_bool arrival_rate 0) eqn:E; [|reflexivity].
      apply Qeq_bool_iff in E. lra. }
    rewrite (run_before_first_arrival R n_servers arrival_rate service_time verbose
               g sim_time random_seed fuel H F Z0 L).
    reflexivity.
Qed.

Lemma empty_horizon_witness :
  (0 == 0 /\
   run_simulation Tabulated.tabulated 0 (7%Z, 3%nat) 1 5 3 0 42 false
   = Some (mkCall Tabulated.tabulated (Raise ValueError) (42%Z, O) [])) /\
  ((0 < 1)%Z /\ 0 < 1 /\ (2 <= 2)%nat /\ 0 < 1 /\
   1 <= fst (exp_draw Tabulated.tabulated (seed Tabulated.tabulated 42)) / 1 /\
   option_map (value Tabulated.tabulated)
     (run_simulation Tabulated.tabulated 2 (7%Z, 3%nat) 1 1 3 1 42 false)
   = Some (Return (mkResult 0 None None))).
Proof.
  assert (A1 : 0 == 0) by reflexivity.
  assert (A2 : (0 < 1)%Z) by lia.
  assert (A3 : 0 < 1) by reflexivity.
  assert (A4 : (2 <= 2)%nat) by lia.
  assert (A5 : 1 <= fst (exp_draw Tabulated.tabulated
                           (seed Tabulated.tabulated 42)) / 1).
  { intro F. vm_compute in F. discriminate F. }
  split; [split; [exact A1|]|
    split; [exact A2|split; [exact A3|split; [exact A4|split; [exact A3|
      split; [exact A5|]]]]]].
  - exact (proj1 (empty_horizon Tabulated.tabulated 0 (7%Z, 3%nat) 1 5 3 0 42
                    false) A1).
  - exact (proj2 (empty_horizon Tabulated.tabulated 2 (7%Z, 3%nat) 1 1 3 1 42
                    false) A2 A3 A4 A3 A5).
Defined.

(** C4 as stated fails.  One server, [arrival_rate = 5],
    [service_time = 3], [sim_time = 0], seed 42: the call raises
    [ValueError] and returns no dictionary. *)
Lemma zero_horizon_raises :
  option_map (value Tabulated.tabulated)
    (run_simulation Tabulated.tabulated 20 (0%Z, O) 1 5 3 0 42 false)
  = Some (Raise ValueError).
Proof. vm_compute. reflexivity. Qed.

(** ** More servers *)

(** C7 as stated fails.  [arrival_rate = 1], [service_time = 3],
    [sim_time = 6], seed 40: customers arrive near 0.61, 2.72, 2.75 and
    3.08.  With one server the second customer begins service near 3.61
    after waiting 0.90, and nobody else begins: the average of the two
    recorded waits is 0.45.  With two servers the third and the fourth
    customer also begin service before the horizon, after waiting 0.87
    and 2.64: the average of the four recorded waits is 0.88. *)
Lemma second_server_raises_average_wait :
  option_map (value Tabulated.tabulated)
    (run_simulation Tabulated.tabulated 20 (0%Z, O) 1 1 3 6 40 false)
  = Some (Return (mkResult 1 (Some (45 # 100)) (Some (300 # 100)))) /\
  option_map (value Tabulated.tabulated)
    (run_simulation Tabulated.tabulated 20 (0%Z, O) 2 1 3 6 40 false)
  = Some (Return (mkResult 2 (Some (88 # 100)) (Some (300 # 100)))) /\
  ~ (88 # 100) <= (45 # 100).
Proof.
  split; [vm_compute; reflexivity|].
  split; [vm_compute; reflexivity|].
  intro H. apply H. reflexivity.
Qed.

(** *** The order of the queue *)

Lemma entry_ltb_spec (a b : entry) :
  entry_ltb a b = true <->
  e_time a < e_time b \/
  (e_time a == e_time b /\
   ((e_prio a < e_prio b)%Z \/
    (e_prio a = e_prio b /\ (e_eid a < e_eid b)%nat))).
Proof.
  unfold entry_ltb.
  destruct (Qcompare_spec (e_time a) (e_time b)) as [E|E|E].
  - destruct (e_prio a <? e_prio b)%Z eqn:P1.
    + apply Z.ltb_lt in P1. split; [intros _; right; split; [exact E|left; exact P1]|reflexivity].
    + apply Z.ltb_ge in P1.
      destruct (e_prio b <? e_prio a)%Z eqn:P2.
      * apply Z.ltb_lt in P2. split; [discriminate|].
        intros [F|[_ [F|[F _]]]]; [lra|lia|lia].
      * apply Z.ltb_ge in P2. split.
        -- intro H. apply Nat.ltb_lt in H. right. split; [exact E|].
           right. split; [lia|exact H].
        -- intros [F|[_ [F|[_ F]]]]; [lra|lia|apply Nat.ltb_lt; exact F].
  - split; [intros _; left; exact E|reflexivity].
  - split; [discriminate|]. intros [F|[F _]]; lra.
Qed.

Lemma entry_ltb_trans (a b c : entry) :
  entry_ltb a b = true -> entry_ltb b c = true -> entry_ltb a c = true.
Proof.
  rewrite !entry_ltb_spec.
  intros [H1|[H1 [P1|[P1 I1]]]] [H2|[H2 [P2|[P2 I2]]]];
    try (left; lra);
    right; (split; [lra|]);
    try (left; lia); right; split; lia.
Qed.

Lemma entry_ltb_asym (a b : entry) :
  entry_ltb a b = true -> entry_ltb b a = false.
Proof.
  intro H. destruct (entry_ltb b a) eqn:E; [|reflexivity].
  apply entry_ltb_spec in H. apply entry_ltb_spec in E.
  destruct H as [H1|[H1 [P1|[P1 I1]]]]; destruct E as [H2|[H2 [P2|[P2 I2]]]];
    try lra; lia.
Qed.

Lemma heappop_In (q : list entry) (x : entry) (r : list entry) (y : entry) :
  heappop q = Some (x, r) -> (In y q <-> y = x \/ In y r).
Proof.
  intro H. apply heappop_Permutation in H. split; intro I.
  - apply (Permutation_in _ H) in I. destruct I as [I|I]; auto.
  - apply (Permutation_in _ (Permutation_sym H)). destruct I as [I|I].
    + left. auto.
    + right. exact I.
Qed.

(** Nothing left in the queue is due before the event popped. *)
Lemma heappop_minimal (q : list entry) (x : entry) (r : list entry) :
  heappop q = Some (x, r) -> forall y, In y r -> entry_ltb y x = false.
Proof.
  revert x r. induction q as [|e q IH]; intros x r H y Hy; [discriminate|].
  simpl in H. destruct (heappop q) as [[m r']|] eqn:E.
  - specialize (IH m r' eq_refl).
    destruct (entry_ltb e m) eqn:L; inversion H; subst; clear H.
    + apply (heappop_In _ _ _ y E) in Hy.
      destruct Hy as [->|Hy]; [apply entry_ltb_asym; exact L|].
      specialize (IH y Hy).
      destruct (entry_ltb y x) eqn:F; [|reflexivity].
      rewrite (entry_ltb_trans _ _ _ F L) in IH. discriminate.
    + destruct Hy as [<-|Hy]; [exact L|apply IH; exact Hy].
  - inversion H; subst. destruct Hy.
Qed.

Lemma heappop_first (q : list entry) (x : entry) (r : list entry) (y : entry) :
  heappop q = Some (x, r) -> In y r ->
  e_time y <= e_time x -> e_prio y = e_prio x -> (e_eid y < e_eid x)%nat ->
  False.
Proof.
  intros H Hy T P I.
  pose proof (heappop_minimal q x r H y Hy) as M.
  assert (L : entry_ltb y x = true).
  { apply entry_ltb_spec.
    destruct (Qlt_le_dec (e_time y) (e_time x)) as [Lt|Ge].
    - left. exact Lt.
    - right. split; [lra|]. right. split; assumption. }
  congruence.
Qed.

Lemma heappop_time (q : list entry) (x : entry) (r : list entry) (y : entry) :
  heappop q = Some (x, r) -> In y q -> e_time x <= e_time y.
Proof.
  intros H Hy. apply (heappop_In _ _ _ y H) in Hy.
  destruct Hy as [->|Hy]; [lra|].
  pose proof (heappop_least q x r H) as L.
  rewrite Forall_forall in L. apply L. exact Hy.
Qed.

Lemma heappop_eids (q : list entry) (x : entry) (r : list entry) :
  heappop q = Some (x, r) -> NoDup (map e_eid q) ->
  NoDup (map e_eid r) /\ forall y, In y r -> e_eid y <> e_eid x.
Proof.
  intros H N. apply heappop_Permutation in H.
  pose proof (Permutation_NoDup (Permutation_map e_eid H) N) as N'.
  simpl in N'. inversion N' as [|a l Hn Hr]; subst.
  split; [exact Hr|].
  intros y Hy F. apply Hn. rewrite <- F. apply in_map. exact Hy.
Qed.

Lemma count_app (g : entry -> nat) (q q' : list entry) :
  count g (q ++ q') = (count g q + count g q')%nat.
Proof.
  unfold count. rewrite map_app, list_sum_app. reflexivity.
Qed.

Lemma count_single (g : entry -> nat) (z : entry) : count g [z] = g z.
Proof. unfold count. simpl. lia. Qed.

Lemma heappop_count_of (g : entry -> nat) (q : list entry) (x : entry)
    (r : list entry) :
  heappop q = Some (x, r) -> count g q = (g x + count g r)%nat.
Proof.
  intro H. apply heappop_Permutation in H. unfold count.
  rewrite (list_sum_Permutation _ _ (Permutation_map g H)). reflexivity.
Qed.

Lemma count_positive (g : entry -> nat) (q : list entry) :
  (1 <= count g q)%nat -> exists y, In y q /\ (1 <= g y)%nat.
Proof.
  unfold count. induction q as [|e q IH]; simpl; intro H; [lia|].
  destruct (g e) as [|n] eqn:E.
  - destruct (IH H) as (y & Hy & Gy). exists y. split; [right; exact Hy|exact Gy].
  - exists e. split; [left; reflexivity|lia].
Qed.

(** *** Families of events *)

Section Family.

Variable f : entry -> option nat.
Variable pr : Z.

Lemma family_pop_other (lo hi : nat) (tm : nat -> Q) (q : list entry)
    (x : entry) (r : list entry) :
  heappop q = Some (x, r) -> f x = None ->
  family f lo hi tm pr q -> family f lo hi tm pr r.
Proof.
  intros H N (A & B & C). split; [|split].
  - intros en k I. apply A. apply (heappop_In _ _ _ en H). right. exact I.
  - intros k Hk. destruct (B k Hk) as (en & I & F).
    apply (heappop_In _ _ _ en H) in I. destruct I as [->|I]; [congruence|].
    exists en. split; assumption.
  - intros a b ka kb Ia Ib. apply C; apply (heappop_In _ _ _ _ H); right;
      assumption.
Qed.

(** The event popped is that of the first customer of its family. *)
Lemma family_pop_self (lo hi : nat) (tm : nat -> Q) (q : list entry)
    (x : entry) (r : list entry) (k : nat) :
  heappop q = Some (x, r) -> f x = Some k ->
  NoDup (map e_eid q) ->
  (forall i j, (lo <= i)%nat -> (i <= j)%nat -> (j < hi)%nat -> tm i <= tm j) ->
  family f lo hi tm pr q ->
  k = lo /\ (lo < hi)%nat /\ e_time x == tm lo /\ family f (S lo) hi tm pr r.
Proof.
  intros H Fx N M (A & B & C).
  destruct (heappop_eids q x r H N) as [_ Hne].
  assert (Ix : In x q) by (apply (heappop_In _ _ _ x H); left; reflexivity).
  destruct (A x k Ix Fx) as ([K1 K2] & Tx & Px).
  assert (K : k = lo).
  { destruct (B lo) as (y & Iy & Fy); [lia|].
    apply (heappop_In _ _ _ y H) in Iy. destruct Iy as [->|Iy]; [congruence|].
    destruct (Nat.eq_dec k lo) as [E|E]; [exact E|exfalso].
    assert (Iy' : In y q) by (apply (heappop_In _ _ _ y H); right; exact Iy).
    destruct (A y lo Iy' Fy) as (_ & Ty & Py).
    pose proof (C y x lo k Iy' Ix Fy Fx K1) as Le.
    pose proof (Hne y Iy) as Ne.
    apply (heappop_first q x r y H Iy).
    - rewrite Ty, Tx. apply M; lia.
    - congruence.
    - lia. }
  subst k. split; [reflexivity|]. split; [lia|]. split; [exact Tx|].
  split; [|split].
  - intros en j I Fj.
    assert (I' : In en q) by (apply (heappop_In _ _ _ en H); right; exact I).
    destruct (A en j I' Fj) as ([J1 J2] & Te & Pe).
    split; [|split; assumption].
    split; [|exact J2].
    destruct (Nat.eq_dec j lo) as [E|E]; [|lia]. subst j. exfalso.
    pose proof (C en x lo lo I' Ix Fj Fx (Nat.le_refl _)) as L1.
    pose proof (C x en lo lo Ix I' Fx Fj (Nat.le_refl _)) as L2.
    apply (Hne en I). lia.
  - intros j Hj. destruct (B j) as (y & Iy & Fy); [lia|].
    apply (heappop_In _ _ _ y H) in Iy.
    destruct Iy as [->|Iy]; [rewrite Fx in Fy; inversion Fy; lia|].
    exists y. split; assumption.
  - intros a b ka kb Ia Ib. apply C; apply (heappop_In _ _ _ _ H); right;
      assumption.
Qed.

Lemma family_push_other (lo hi : nat) (tm : nat -> Q) (q : list entry)
    (z : entry) :
  f z = None -> family f lo hi tm pr q -> family f lo hi tm pr (q ++ [z]).
Proof.
  intros N (A & B & C). split; [|split].
  - intros en k I Fk. apply in_app_or in I.
    destruct I as [I|[<-|[]]]; [apply A; assumption|congruence].
  - intros k Hk. destruct (B k Hk) as (en & I & Fe).
    exists en. split; [apply in_or_app; left; exact I|exact Fe].
  - intros a b ka kb Ia Ib Fa Fb. apply in_app_or in Ia, Ib.
    destruct Ia as [Ia|[<-|[]]]; [|congruence].
    destruct Ib as [Ib|[<-|[]]]; [|congruence].
    apply C; assumption.
Qed.

Lemma family_push_self (lo hi : nat) (tm : nat -> Q) (q : list entry)
    (z : entry) :
  f z = Some hi -> e_time z == tm hi -> e_prio z = pr -> (lo <= hi)%nat ->
  Forall (fun en => (e_eid en < e_eid z)%nat) q ->
  family f lo hi tm pr q -> family f lo (S hi) tm pr (q ++ [z]).
Proof.
  intros Fz Tz Pz L E (A & B & C). rewrite Forall_forall in E.
  split; [|split].
  - intros en k I Fk. apply in_app_or in I. destruct I as [I|[<-|[]]].
    + destruct (A en k I Fk) as ([K1 K2] & T & P).
      split; [lia|split; assumption].
    + rewrite Fz in Fk. inversion Fk; subst k.
      split; [lia|split; assumption].
  - intros k Hk. destruct (Nat.eq_dec k hi) as [->|Ne].
    + exists z. split; [apply in_or_app; right; left; reflexivity|exact Fz].
    + destruct (B k) as (en & I & Fe); [lia|].
      exists en. split; [apply in_or_app; left; exact I|exact Fe].
  - intros a b ka kb Ia Ib Fa Fb Le. apply in_app_or in Ia, Ib.
    destruct Ia as [Ia|[<-|[]]]; destruct Ib as [Ib|[<-|[]]].
    + apply (C a b ka kb); assumption.
    + specialize (E a Ia). lia.
    + rewrite Fz in Fa. inversion Fa; subst ka.
      destruct (A b kb Ib Fb) as ([K1 K2] & _). lia.
    + lia.
Qed.

Lemma family_times (lo hi : nat) (tm tm' : nat -> Q) (q : list entry) :
  (forall k, (lo <= k < hi)%nat -> tm k == tm' k) ->
  family f lo hi tm pr q -> family f lo hi tm' pr q.
Proof.
  intros E (A & B & C). split; [|split]; [|exact B|exact C].
  intros en k I Fk. destruct (A en k I Fk) as (K & T & P).
  split; [exact K|split; [|exact P]]. rewrite <- (E k K). exact T.
Qed.

Lemma family_In (lo hi : nat) (tm : nat -> Q) (q : list entry) (k : nat) :
  family f lo hi tm pr q -> (lo <= k < hi)%nat ->
  exists en, In en q /\ f en = Some k /\ e_time en == tm k.
Proof.
  intros (A & B & _) Hk. destruct (B k Hk) as (en & I & Fe).
  destruct (A en k I Fe) as (_ & T & _).
  exists en. split; [exact I|split; assumption].
Qed.

End Family.

(** *** What each event does to the state *)

Section Views.

Variable R : Random.
Variable n_servers : Z.
Variable arrival_rate : Q.
Variable service_time : Q.
Variable verbose : bool.

Local Abbreviation step1 :=
  (step R n_servers arrival_rate service_time verbose).
Local Abbreviation C := (capacity n_servers).




Lemma view_neutral (st : state R) (x : entry) (r : list entry) :
  heappop (queue R st) = Some (x, r) ->
  match e_event x with
  | Process_ok | Process_failed _ | Until => True
  | _ => False
  end ->
  same_view R (after R (step1 st))
    (view R (e_time x) r (eid R st) (users R st) (put_queue R st)
       (wait_times R st) (random_state R st)).
Proof.
  intros H N. unfold step. rewrite H. unfold dispatch.
  destruct (e_event x); try contradiction; cbn [after];
    unfold same_view, view, set_clock; cbn; repeat split.
Qed.

Lemma view_request (st : state R) (x : entry) (r : list entry) (i : nat)
    (a : Q) :
  heappop (queue R st) = Some (x, r) -> e_event x = Request i a ->
  0 <= service_time ->
  same_view R (after R (step1 st))
    (view R (e_time x)
       (r ++ [mkEntry (e_time x + service_time) NORMAL (eid R st)
                (Timeout_service i a (e_time x) (e_time x - a))])
       (S (eid R st)) (users R st) (put_queue R st)
       (wait_times R st ++ [e_time x - a]) (random_state R st)).
Proof.
  intros H E Hs. unfold step. rewrite H. unfold dispatch. rewrite E.
  cbn [after]. unfold customer_start, print_if_verbose.
  apply Qltb_false in Hs. rewrite Hs.
  destruct verbose; unfold same_view, view; cbn; repeat split.
Qed.

Lemma view_service (st : state R) (x : entry) (r : list entry) (i : nat)
    (a s w : Q) :
  heappop (queue R st) = Some (x, r) ->
  e_event x = Timeout_service i a s w ->
  same_view R (after R (step1 st))
    (view R (e_time x)
       (r ++ [mkEntry (e_time x + 0) NORMAL (eid R st) Release]
          ++ [mkEntry (e_time x + 0) NORMAL (S (eid R st)) Process_ok])
       (S (S (eid R st))) (remove_first i (users R st)) (put_queue R st)
       (wait_times R st) (random_state R st)).
Proof.
  intros H E. unfold step. rewrite H. unfold dispatch. rewrite E.
  cbn [after]. unfold customer_leave, print_if_verbose.
  destruct verbose; unfold same_view, view; cbn;
    rewrite <- app_assoc; repeat split.
Qed.

(** [trigger_put] on a state whose queue is not empty and that has a
    free server, and otherwise. *)
Lemma view_trigger_put_grant (st : state R) (h : nat) (a : Q)
    (rest : list (nat * Q)) :
  put_queue R st = (h, a) :: rest ->
  (length (users R st) < C)%nat ->
  same_view R (trigger_put R n_servers st)
    (view R (now R st)
       (queue R st ++ [mkEntry (now R st + 0) NORMAL (eid R st) (Request h a)])
       (S (eid R st)) (users R st ++ [h]) rest (wait_times R st)
       (random_state R st)).
Proof.
  intros P L. unfold trigger_put. rewrite P.
  assert (B : (Z.of_nat (length (users R st)) <? n_servers)%Z = true).
  { apply Z.ltb_lt. unfold capacity in L. lia. }
  rewrite B. unfold same_view, view. cbn. repeat split.
Qed.

Lemma trigger_put_full (st : state R) :
  (C <= length (users R st))%nat -> trigger_put R n_servers st = st.
Proof.
  intro L. unfold trigger_put.
  destruct (put_queue R st) as [|[h a] rest]; [reflexivity|].
  assert (B : (Z.of_nat (length (users R st)) <? n_servers)%Z = false).
  { apply Z.ltb_ge. unfold capacity in L. lia. }
  rewrite B. reflexivity.
Qed.

Lemma trigger_put_empty (st : state R) :
  put_queue R st = [] -> trigger_put R n_servers st = st.
Proof. intro P. unfold trigger_put. rewrite P. reflexivity. Qed.

Lemma after_release (st : state R) (x : entry) (r : list entry) :
  heappop (queue R st) = Some (x, r) -> e_event x = Release ->
  after R (step1 st)
  = trigger_put R n_servers (set_clock R (e_time x) r st).
Proof.
  intros H E. unfold step. rewrite H. unfold dispatch. rewrite E.
  reflexivity.
Qed.

Lemma after_initialize_customer (st : state R) (x : entry) (r : list entry)
    (i : nat) :
  heappop (queue R st) = Some (x, r) -> e_event x = Initialize_customer i ->
  exists st2,
    after R (step1 st) = trigger_put R n_servers st2 /\
    same_view R st2
      (view R (e_time x) r (eid R st) (users R st)
         (put_queue R st ++ [(i, e_time x)]) (wait_times R st)
         (random_state R st)).
Proof.
  intros H E. unfold step. rewrite H. unfold dispatch. rewrite E.
  cbn [after]. unfold customer_arrive, request.
  eexists. split; [reflexivity|].
  unfold print_if_verbose.
  destruct verbose; unfold same_view, view; cbn; repeat split.
Qed.

(** The generator draws and waits, or fails. *)
Lemma view_generator_wait (st : state R) (i : nat) :
  exists z,
    same_view R (generator_wait R arrival_rate i st)
      (view R (now R st) (queue R st ++ [z]) (S (eid R st)) (users R st)
         (put_queue R st) (wait_times R st)
         (snd (exp_draw R (random_state R st)))) /\
    e_eid z = eid R st /\
    (e_time z = now R st + 0 /\
     (exists e, e_event z = Process_failed e) \/
     e_event z = Timeout_generator i /\ e_prio z = NORMAL /\
     e_time z
     = now R st + fst (exp_draw R (random_state R st)) / arrival_rate /\
     0 <= fst (exp_draw R (random_state R st)) / arrival_rate).
Proof.
  unfold generator_wait.
  destruct (exp_draw R (random_state R st)) as [e g'] eqn:D. cbn [fst snd].
  destruct (Qeq_bool arrival_rate 0).
  - eexists. split; [|split; [|left; split; [|eexists]]];
      [unfold same_view, view; cbn; repeat split| | |]; reflexivity.
  - destruct (Qltb (e / arrival_rate) 0) eqn:L.
    + eexists. split; [|split; [|left; split; [|eexists]]];
        [unfold same_view, view; cbn; repeat split| | |]; reflexivity.
    + apply Qltb_false in L.
      eexists. split; [|split; [|right; split; [|split; [|split]]]];
        [unfold same_view, view; cbn; repeat split| | | | |exact L];
        reflexivity.
Qed.

Lemma after_initialize_generator (st : state R) (x : entry) (r : list entry) :
  heappop (queue R st) = Some (x, r) -> e_event x = Initialize_generator ->
  after R (step1 st)
  = generator_wait R arrival_rate 0 (set_clock R (e_time x) r st).
Proof.
  intros H E. unfold step. rewrite H. unfold dispatch. rewrite E.
  reflexivity.
Qed.

Lemma after_timeout_generator (st : state R) (x : entry) (r : list entry)
    (i : nat) :
  heappop (queue R st) = Some (x, r) -> e_event x = Timeout_generator i ->
  after R (step1 st)
  = generator_wait R arrival_rate (S i)
      (schedule R (Initialize_customer i) URGENT 0
         (set_clock R (e_time x) r st)).
Proof.
  intros H E. unfold step. rewrite H. unfold dispatch. rewrite E.
  reflexivity.
Qed.

End Views.

(** ** First come, first served *)

Lemma seq_snoc (d m : nat) :
  (d <= m)%nat -> seq d (m - d) ++ [m] = seq d (S m - d).
Proof.
  intro H. replace (S m - d)%nat with (S (m - d)) by lia.
  rewrite seq_S. replace (d + (m - d))%nat with m by lia. reflexivity.
Qed.

Lemma seq_head (m n : nat) :
  (m < n)%nat -> seq m (n - m) = m :: seq (S m) (n - S m).
Proof.
  intro H. replace (n - m)%nat with (S (n - S m)) by lia. reflexivity.
Qed.

Lemma count_zero_each (g : entry -> nat) (q : list entry) :
  count g q = O -> forall y, In y q -> g y = O.
Proof.
  unfold count. induction q as [|e q IH]; simpl; intros H y Hy; [destruct Hy|].
  destruct Hy as [<-|Hy]; [lia|]. apply IH; [lia|exact Hy].
Qed.

Lemma grant_old (n n' p d n2 n2' p2 d2 : nat) (gs l : list Q) (k : nat) :
  (k < length gs)%nat ->
  grant (mkGhost n2 n2' p2 d2 (gs ++ l)) k = grant (mkGhost n n' p d gs) k.
Proof.
  intro H. unfold grant. cbn [grants]. apply app_nth1. exact H.
Qed.

Lemma grant_new (n n' p d : nat) (gs : list Q) (g : Q) :
  grant (mkGhost n n' p d (gs ++ [g])) (length gs) = g.
Proof.
  unfold grant. cbn [grants]. apply nth_middle.
Qed.

Lemma NoDup_snoc (l : list nat) (x : nat) :
  NoDup l -> ~ In x l -> NoDup (l ++ [x]).
Proof.
  intros N I.
  apply (Permutation_NoDup (Permutation_cons_append l x)).
  constructor; assumption.
Qed.

Lemma eids_push (q : list entry) (e : nat) (z : entry) :
  NoDup (map e_eid q) /\ Forall (fun en => (e_eid en < e)%nat) q ->
  e_eid z = e ->
  NoDup (map e_eid (q ++ [z])) /\
  Forall (fun en => (e_eid en < S e)%nat) (q ++ [z]).
Proof.
  intros [N F] E. split.
  - rewrite map_app. cbn [map]. apply NoDup_snoc; [exact N|].
    intro I. apply in_map_iff in I. destruct I as (y & Ey & Iy).
    rewrite Forall_forall in F. specialize (F y Iy). lia.
  - apply Forall_app. split.
    + eapply Forall_impl; [|exact F]. cbn. intros. lia.
    + constructor; [lia|constructor].
Qed.

Lemma eids_pop (q : list entry) (e : nat) (x : entry) (r : list entry) :
  heappop q = Some (x, r) ->
  NoDup (map e_eid q) /\ Forall (fun en => (e_eid en < e)%nat) q ->
  NoDup (map e_eid r) /\ Forall (fun en => (e_eid en < e)%nat) r.
Proof.
  intros H [N F]. split.
  - apply (heappop_eids q x r H N).
  - rewrite Forall_forall in *. intros y Iy. apply F.
    apply (heappop_In _ _ _ y H). right. exact Iy.
Qed.

Section Fifo.

Variable R : Random.
Variable n_servers : Z.
Variable arrival_rate : Q.
Variable service_time : Q.
Variable random_seed : Z.

Hypothesis servers : (0 < n_servers)%Z.
Hypothesis service_nonneg : 0 <= service_time.

Local Abbreviation C := (capacity n_servers).
Local Abbreviation A := (arrive R arrival_rate random_seed).
Local Abbreviation data := (entry_data R arrival_rate random_seed).
Local Abbreviation tally1 :=
  (tally R n_servers arrival_rate service_time random_seed).
Local Abbreviation elapsed1 := (elapsed service_time).
Local Abbreviation pending1 :=
  (pending R arrival_rate service_time random_seed).
Local Abbreviation resource1 := (resource R arrival_rate random_seed).
Local Abbreviation recorded1 := (recorded R arrival_rate random_seed).
Local Abbreviation wakeup1 := (wakeup n_servers service_time).
Local Abbreviation due1 :=
  (wakeup_due R n_servers arrival_rate service_time random_seed).

Lemma capacity_positive : (1 <= C)%nat.
Proof. unfold capacity. lia. Qed.

(** An entry that stays in the queue keeps what it carries when the
    clock moves on, the generator is left alone or the entry is not the
    generator's, and grants are only added. *)
Lemma data_keep (t t' : Q) (g g' : generator R) (gh gh' : ghost)
    (en : entry) :
  data t g gh en -> t <= t' ->
  (is_generator en = O \/ (g' = g /\ arrived gh' = arrived gh)) ->
  (forall k, (k < granted gh)%nat ->
     (k < granted gh')%nat /\ grant gh' k = grant gh k) ->
  data t' g' gh' en.
Proof.
  unfold entry_data, is_generator. intros D T G E.
  destruct (e_event en) as [|i|i|i a|i a s w| | |e|].
  - destruct G as [G|[-> Ga]]; [discriminate|]. rewrite Ga. exact D.
  - exact I.
  - destruct G as [G|[-> Ga]]; [discriminate|]. rewrite Ga. exact D.
  - exact D.
  - destruct D as (K & Da & Ds). destruct (E i K) as [K' Eg].
    split; [exact K'|]. split; [exact Da|]. rewrite Eg. exact Ds.
  - lra.
  - exact I.
  - exact I.
  - exact I.
Qed.

Lemma data_keep_all (t t' : Q) (g g' : generator R) (gh gh' : ghost)
    (q : list entry) :
  Forall (data t g gh) q -> t <= t' ->
  (count is_generator q = O \/ (g' = g /\ arrived gh' = arrived gh)) ->
  (forall k, (k < granted gh)%nat ->
     (k < granted gh')%nat /\ grant gh' k = grant gh k) ->
  Forall (data t' g' gh') q.
Proof.
  intros D T G E. rewrite Forall_forall in *. intros en I.
  apply (data_keep t t' g g' gh gh' en (D en I) T); [|exact E].
  destruct G as [G|G]; [left|right; exact G].
  apply (count_zero_each is_generator q G en I).
Qed.

(** A customer that holds a server has an event ahead: its granted
    request or the end of its service. *)
Lemma holder_ahead (t : Q) (g : generator R) (e : nat) (q : list entry)
    (gh : ghost) (k : nat) :
  tally1 gh -> pending1 t g e q gh ->
  (departed gh <= k)%nat -> (k < granted gh)%nat ->
  exists y, In y q /\ e_time y <= grant gh k + service_time.
Proof.
  intros T P K1 K2.
  destruct (Nat.lt_ge_cases k (started gh)) as [L|L].
  - destruct (family_In service_index NORMAL _ _ _ q k (p_service _ _ _ _ _ _ _ _ _ P))
      as (y & Iy & _ & Ty); [lia|].
    exists y. split; [exact Iy|]. rewrite Ty. lra.
  - destruct (family_In request_index NORMAL _ _ _ q k (p_request _ _ _ _ _ _ _ _ _ P))
      as (y & Iy & _ & Ty); [lia|].
    exists y. split; [exact Iy|]. rewrite Ty. lra.
Qed.

(** While a customer waits, the clock cannot pass the departure that
    will free a server for it. *)
Lemma pop_wakeup (t : Q) (g : generator R) (e : nat) (q : list entry)
    (gh : ghost) (x : entry) (r : list entry) :
  tally1 gh -> pending1 t g e q gh -> wakeup1 t q gh ->
  heappop q = Some (x, r) ->
  (granted gh < entered gh)%nat ->
  e_time x <= grant gh (granted gh - C) + service_time.
Proof.
  intros T P W H L. destruct (W L) as (W1 & W2 & W3).
  pose proof capacity_positive as Cp.
  destruct (Nat.eq_dec (count is_release q) 0) as [Z0|Nz].
  - pose proof (t_capacity _ _ _ _ _ _ T) as Cap.
    destruct (holder_ahead t g e q gh (granted gh - C) T P) as (y & Iy & Ty);
      [lia|lia|].
    pose proof (heappop_time q x r y H Iy). lra.
  - destruct (count_positive is_release q) as (y & Iy & Ry); [lia|].
    pose proof (p_data _ _ _ _ _ _ _ _ _ P) as D.
    rewrite Forall_forall in D. specialize (D y Iy).
    unfold entry_data in D. unfold is_release in Ry.
    destruct (e_event y); try lia.
    pose proof (heappop_time q x r y H Iy). lra.
Qed.

(** Scheduling an event that belongs to no customer and is not the
    generator's. *)
Lemma pending_push (t : Q) (g : generator R) (e : nat) (q : list entry)
    (gh : ghost) (z : entry) :
  pending1 t g e q gh -> e_eid z = e ->
  initialize_index z = None -> request_index z = None ->
  service_index z = None -> is_generator z = O ->
  data t g gh z ->
  pending1 t g (S e) (q ++ [z]) gh.
Proof.
  intros [P1 P2 P3 P4 P5 P6] E I1 I2 I3 G D. constructor.
  - apply family_push_other; assumption.
  - apply family_push_other; assumption.
  - apply family_push_other; assumption.
  - apply Forall_app. split; [exact P4|]. constructor; [exact D|constructor].
  - apply eids_push; assumption.
  - rewrite count_app, count_single. lia.
Qed.

(** Popping such an event. *)
Lemma pending_pop (t t' : Q) (g : generator R) (e : nat) (q : list entry)
    (gh : ghost) (x : entry) (r : list entry) :
  pending1 t g e q gh -> heappop q = Some (x, r) -> t <= t' ->
  initialize_index x = None -> request_index x = None ->
  service_index x = None ->
  pending1 t' g e r gh.
Proof.
  intros [P1 P2 P3 P4 P5 P6] H T I1 I2 I3. constructor.
  - apply (family_pop_other _ _ _ _ _ q x r H I1 P1).
  - apply (family_pop_other _ _ _ _ _ q x r H I2 P2).
  - apply (family_pop_other _ _ _ _ _ q x r H I3 P3).
  - apply (data_keep_all t t' g g gh gh); [|exact T|right; auto|auto].
    rewrite Forall_forall in *. intros y Iy. apply P4.
    apply (heappop_In _ _ _ y H). right. exact Iy.
  - apply (eids_pop q e x r H P5).
  - rewrite (heappop_count_of is_generator q x r H) in P6. lia.
Qed.

(** The head of the put queue is granted a server. *)
Lemma grant_head (t : Q) (g : generator R) (e : nat) (q : list entry)
    (gh : ghost) (u : list nat) (h : nat) (a : Q) (rest : list (nat * Q))
    (w : list Q) :
  tally1 gh -> elapsed1 t gh -> pending1 t g e q gh ->
  resource1 u ((h, a) :: rest) gh -> recorded1 w gh -> due1 t q gh ->
  a <= t -> (length u < C)%nat ->
  let gh' :=
    mkGhost (arrived gh) (entered gh) (started gh) (departed gh)
      (grants gh ++ [t + 0]) in
  let q' := q ++ [mkEntry (t + 0) NORMAL e (Request h a)] in
  tally1 gh' /\ elapsed1 t gh' /\ pending1 t g (S e) q' gh' /\
  resource1 (u ++ [h]) rest gh' /\ recorded1 w gh' /\ wakeup1 t q' gh'.
Proof.
  destruct gh as [n n' p d gs].
  intros [To Tc Ta Tf Tw Tm Tam] [Eg Ed] [P1 P2 P3 P4 P5 P6] [Ru Rw Ra]
    [Wl Wn] Due At Free gh' q'.
  pose proof capacity_positive as Cp.
  unfold wakeup_due in *. unfold granted in *.
  cbn [grants arrived entered started departed] in *.
  set (m := length gs) in *.
  assert (Hm : (m < n')%nat).
  { destruct (Nat.lt_ge_cases m n') as [L|L]; [exact L|].
    replace (n' - m)%nat with O in Rw by lia. discriminate Rw. }
  rewrite (seq_head m n' Hm) in Rw. cbn [map fst] in Rw.
  inversion Rw as [[Hh Hrest]]. subst h.
  apply Forall_cons_iff in Ra. destruct Ra as [Aa Arest].
  cbn [fst snd] in Aa.
  assert (Lu : length u = (m - d)%nat) by (rewrite Ru; apply length_seq).
  assert (Gold : forall k, (k < m)%nat ->
            grant gh' k = grant (mkGhost n n' p d gs) k).
  { intros k Hk. apply grant_old. exact Hk. }
  assert (Gnew : grant gh' m = t + 0) by apply grant_new.
  assert (Lg : length (gs ++ [t + 0]) = S m).
  { rewrite length_app. cbn [length]. lia. }
  destruct (Due Hm) as [Ready Next].
  assert (Hgm : (C <= m)%nat ->
            grant (mkGhost n n' p d gs) (m - C) + service_time <= t).
  { intro Cm. apply Ed. lia. }
  subst gh' q'.
  split; [|split; [|split; [|split; [|split]]]].
  - (* tally *)
    constructor; unfold granted; cbn [grants arrived entered started departed];
      rewrite ?Lg.
    + lia.
    + lia.
    + intros k Hk. destruct (Nat.eq_dec k m) as [->|Ne].
      * rewrite Gnew. lra.
      * rewrite Gold by lia. apply Ta. lia.
    + intros k Ck Hk. destruct (Nat.eq_dec k m) as [->|Ne].
      * rewrite Gnew, Gold by lia. specialize (Hgm Ck). lra.
      * rewrite !Gold by lia. apply Tf; lia.
    + intros k Hk. destruct (Nat.eq_dec k m) as [->|Ne].
      * rewrite Gnew. destruct Ready as [Rd|[Cm Rd]].
        -- left. lra.
        -- right. split; [exact Cm|]. rewrite Gold by lia.
           specialize (Hgm Cm). lra.
      * rewrite Gold by lia. destruct (Tw k) as [L|[Ck L]]; [lia|left; exact L|].
        right. split; [exact Ck|]. rewrite Gold by lia. exact L.
    + intros j k Hj Hk. destruct (Nat.eq_dec k m) as [->|Ne].
      * rewrite Gnew. destruct (Nat.eq_dec j m) as [->|Nj].
        -- rewrite Gnew. lra.
        -- rewrite Gold by lia.
           assert (Ej : grant (mkGhost n n' p d gs) j <= t) by (apply Eg; lia).
           lra.
      * rewrite !Gold by lia. apply Tm; lia.
    + exact Tam.
  - (* elapsed *)
    constructor; unfold granted; cbn [grants departed]; rewrite ?Lg.
    + intros k Hk. destruct (Nat.eq_dec k m) as [->|Ne].
      * rewrite Gnew. lra.
      * rewrite Gold by lia. apply Eg. lia.
    + intros k Hk. rewrite Gold by lia. apply Ed. exact Hk.
  - (* pending *)
    constructor; unfold granted; cbn [grants arrived entered started departed];
      rewrite ?Lg.
    + apply family_push_other; [reflexivity|exact P1].
    + apply family_push_self; [reflexivity| |reflexivity|lia|apply P5|].
      * cbn [e_time]. rewrite Gnew. reflexivity.
      * apply (family_times _ _ _ _ (grant (mkGhost n n' p d gs)));
          [|exact P2].
        intros k Hk. rewrite Gold by lia. reflexivity.
    + apply family_push_other; [reflexivity|].
      apply (family_times _ _ _ _
               (fun k => grant (mkGhost n n' p d gs) k + service_time));
        [|exact P3].
      intros k Hk. cbn beta. rewrite Gold by lia. reflexivity.
    + apply Forall_app. split.
      * apply (data_keep_all t t g g (mkGhost n n' p d gs));
          [exact P4|lra|right; split; reflexivity|].
        intros k Hk. unfold granted in *. cbn [grants] in *.
        split; [rewrite Lg; lia|apply Gold; exact Hk].
      * constructor; [|constructor]. unfold entry_data. cbn [e_event].
        exact Aa.
    + apply eids_push; [exact P5|reflexivity].
    + rewrite count_app, count_single. cbn [is_generator e_event]. lia.
  - (* resource *)
    constructor; unfold granted; cbn [grants arrived entered started departed];
      rewrite ?Lg.
    + rewrite Ru. apply seq_snoc. lia.
    + exact Hrest.
    + exact Arest.
  - (* recorded *)
    split; cbn [started]; [exact Wl|].
    intros k Hk. rewrite Gold by lia. apply Wn. exact Hk.
  - (* wakeup *)
    unfold wakeup, granted. cbn [grants arrived entered started departed].
    rewrite Lg. intro L. destruct (Next L) as (N1 & N2 & N3).
    split; [lia|]. split.
    + destruct (Nat.eq_dec (S m - C) m) as [E|Ne].
      * rewrite E, Gnew. lra.
      * rewrite Gold by lia.
        assert (M : grant (mkGhost n n' p d gs) (m - C)
                    <= grant (mkGhost n n' p d gs) (S m - C)).
        { apply Tm; lia. }
        lra.
    + rewrite count_app, count_single.
      cbn [is_release e_event]. lia.
Qed.

Local Abbreviation lined_up1 :=
  (lined_up R n_servers arrival_rate service_time random_seed).

Lemma elapsed_later (t t' : Q) (gh : ghost) :
  elapsed1 t gh -> t <= t' -> elapsed1 t' gh.
Proof.
  intros [Eg Ed] L. constructor.
  - intros k Hk. specialize (Eg k Hk). lra.
  - intros k Hk. specialize (Ed k Hk). lra.
Qed.

(** The wake-up condition once an event has been popped. *)
Lemma wakeup_pop (t : Q) (g : generator R) (e : nat) (q : list entry)
    (gh : ghost) (x : entry) (r : list entry) :
  tally1 gh -> pending1 t g e q gh -> wakeup1 t q gh ->
  heappop q = Some (x, r) ->
  (granted gh < entered gh)%nat ->
  (C <= granted gh)%nat /\
  e_time x <= grant gh (granted gh - C) + service_time /\
  (C <= granted gh - departed gh + is_release x + count is_release r)%nat.
Proof.
  intros T P W H L.
  pose proof (pop_wakeup t g e q gh x r T P W H L) as Tx.
  destruct (W L) as (W1 & _ & W3).
  rewrite (heappop_count_of is_release q x r H) in W3.
  split; [exact W1|]. split; [exact Tx|lia].
Qed.

(** With the resource full, a waiting customer waits for a holder. *)
Lemma put_full (t : Q) (g : generator R) (e : nat) (q : list entry)
    (gh : ghost) (u : list nat) (pq : list (nat * Q)) :
  tally1 gh -> pending1 t g e q gh -> resource1 u pq gh ->
  Forall (fun en => t <= e_time en) q ->
  (C <= length u)%nat ->
  wakeup1 t q gh.
Proof.
  intros T P [Ru _ _] T1 Full L.
  pose proof capacity_positive as Cp.
  pose proof (t_capacity _ _ _ _ _ _ T) as Cap.
  pose proof (t_order _ _ _ _ _ _ T) as (O1 & O2 & O3 & O4).
  assert (Lu : length u = (granted gh - departed gh)%nat)
    by (rewrite Ru; apply length_seq).
  split; [lia|]. split; [|lia].
  destruct (holder_ahead t g e q gh (granted gh - C) T P) as (y & Iy & Ty);
    [lia|lia|].
  rewrite Forall_forall in T1. specialize (T1 y Iy). lra.
Qed.

Lemma put_empty (t : Q) (q : list entry) (gh : ghost) (u : list nat) :
  tally1 gh -> resource1 u [] gh -> wakeup1 t q gh.
Proof.
  intros T [_ Rw _] L. exfalso. cbn [map] in Rw.
  rewrite (seq_head _ _ L) in Rw. discriminate Rw.
Qed.

Lemma pop_data (t : Q) (g : generator R) (e : nat) (q : list entry)
    (gh : ghost) (x : entry) (r : list entry) :
  pending1 t g e q gh -> heappop q = Some (x, r) ->
  data t g gh x /\ Forall (data t g gh) r /\ (e_eid x < e)%nat /\
  Forall (fun en => (e_eid en < e)%nat) r.
Proof.
  intros P H.
  pose proof (p_data _ _ _ _ _ _ _ _ _ P) as D.
  destruct (p_eids _ _ _ _ _ _ _ _ _ P) as [_ E].
  rewrite Forall_forall in D, E.
  assert (Ix : In x q) by (apply (heappop_In _ _ _ x H); left; reflexivity).
  split; [apply D; exact Ix|]. split; [|split; [apply E; exact Ix|]].
  - rewrite Forall_forall. intros y Iy. apply D.
    apply (heappop_In _ _ _ y H). right. exact Iy.
  - rewrite Forall_forall. intros y Iy. apply E.
    apply (heappop_In _ _ _ y H). right. exact Iy.
Qed.

(** An event that belongs to no customer, and is not a release, is
    popped: [Process] events and the horizon. *)
Lemma tick (t : Q) (g : generator R) (e : nat) (q : list entry)
    (u : list nat) (pq : list (nat * Q)) (w : list Q) (gh : ghost)
    (x : entry) (r : list entry) :
  lined_up1 t g e q u pq w gh -> wakeup1 t q gh ->
  heappop q = Some (x, r) -> t <= e_time x ->
  initialize_index x = None -> request_index x = None ->
  service_index x = None -> is_release x = O ->
  lined_up1 (e_time x) g e r u pq w gh /\ wakeup1 (e_time x) r gh.
Proof.
  intros (T & E & P & Rs & Rc) W H L I1 I2 I3 Rl.
  split.
  - split; [exact T|]. split; [apply (elapsed_later t); assumption|].
    split; [apply (pending_pop t _ g e q gh x r); assumption|].
    split; assumption.
  - intro Lt. destruct (wakeup_pop t g e q gh x r T P W H Lt) as (A1 & A2 & A3).
    split; [exact A1|]. split; [exact A2|lia].
Qed.

(** A granted request is popped: the service of the first customer not
    yet started begins. *)
Lemma serve (t : Q) (g : generator R) (e : nat) (q : list entry)
    (u : list nat) (pq : list (nat * Q)) (w : list Q) (gh : ghost)
    (x : entry) (r : list entry) (i : nat) (a : Q) :
  lined_up1 t g e q u pq w gh -> wakeup1 t q gh ->
  heappop q = Some (x, r) -> t <= e_time x ->
  e_event x = Request i a ->
  exists gh',
    lined_up1 (e_time x) g (S e)
      (r ++ [mkEntry (e_time x + service_time) NORMAL e
               (Timeout_service i a (e_time x) (e_time x - a))])
      u pq (w ++ [e_time x - a]) gh' /\
    wakeup1 (e_time x)
      (r ++ [mkEntry (e_time x + service_time) NORMAL e
               (Timeout_service i a (e_time x) (e_time x - a))]) gh'.
Proof.
  destruct gh as [n n' p d gs].
  intros (T & E & P & Rs & Rc) W H L Ev.
  exists (mkGhost n n' (S p) d gs).
  destruct T as [To Tc Ta Tf Tw Tm Tam]. destruct P as [P1 P2 P3 P4 P5 P6].
  destruct Rs as [Ru Rw Ra]. destruct Rc as [Wl Wn].
  assert (Pq : pending1 t g e q (mkGhost n n' p d gs))
    by (constructor; assumption).
  assert (Tq : tally1 (mkGhost n n' p d gs)) by (constructor; assumption).
  destruct (pop_data t g e q _ x r Pq H) as (Dx & Dr & Ex & Er).
  assert (I1 : initialize_index x = None)
    by (unfold initialize_index; rewrite Ev; reflexivity).
  assert (I2 : request_index x = Some i)
    by (unfold request_index; rewrite Ev; reflexivity).
  assert (I3 : service_index x = None)
    by (unfold service_index; rewrite Ev; reflexivity).
  assert (Rl : is_release x = O)
    by (unfold is_release; rewrite Ev; reflexivity).
  assert (Mono : forall j k, (p <= j)%nat -> (j <= k)%nat ->
            (k < granted (mkGhost n n' p d gs))%nat ->
            grant (mkGhost n n' p d gs) j <= grant (mkGhost n n' p d gs) k).
  { intros j k J1 J2 J3. apply Tm; assumption. }
  destruct (family_pop_self request_index NORMAL _ _ _ q x r i H I2 (proj1 P5)
              Mono P2) as (Ei & Lp & Tx & F2).
  subst i. unfold entry_data in Dx. rewrite Ev in Dx.
  unfold granted in *. cbn [grants arrived entered started departed] in *.
  split.
  - split; [|split; [|split; [|split]]].
    + constructor; unfold granted;
        cbn [grants arrived entered started departed]; try assumption. lia.
    + apply (elapsed_later t); [constructor; apply E|exact L].
    + constructor; unfold granted;
        cbn [grants arrived entered started departed].
      * apply family_push_other; [reflexivity|].
        apply (family_pop_other _ _ _ _ _ q x r H I1 P1).
      * apply family_push_other; [reflexivity|exact F2].
      * apply family_push_self;
          [reflexivity| |reflexivity|lia|exact Er|].
        -- cbn [e_time]. unfold grant in *. cbn [grants] in *. lra.
        -- apply (family_pop_other _ _ _ _ _ q x r H I3 P3).
      * apply Forall_app. split.
        -- apply (data_keep_all t (e_time x) g g (mkGhost n n' p d gs));
             [exact Dr|exact L|right; split; reflexivity|].
           intros k Hk. split; [exact Hk|reflexivity].
        -- constructor; [|constructor]. unfold entry_data. cbn [e_event].
           unfold granted, grant in *. cbn [grants] in *.
           split; [lia|]. split; [exact Dx|lra].
      * apply eids_push; [apply (eids_pop q e x r H P5)|reflexivity].
      * rewrite count_app, count_single.
        rewrite (heappop_count_of is_generator q x r H) in P6.
        cbn [is_generator e_event]. lia.
    + constructor; assumption.
    + split; cbn [started].
      * rewrite length_app. cbn [length]. lia.
      * intros k Hk. destruct (Nat.eq_dec k p) as [->|Ne].
        -- assert (Nm : nth p (w ++ [e_time x - a]) 0 = e_time x - a)
             by (rewrite <- Wl; apply nth_middle).
           rewrite Nm. unfold grant in *. cbn [grants] in *. lra.
        -- rewrite app_nth1 by lia. apply Wn. lia.
  - intro Lt.
    destruct (wakeup_pop t g e q _ x r Tq Pq W H Lt) as (A1 & A2 & A3).
    unfold granted in *. cbn [grants arrived entered started departed] in *.
    split; [exact A1|]. split; [exact A2|].
    rewrite count_app, count_single. cbn [is_release e_event]. lia.
Qed.

Lemma remove_first_head (d : nat) (l : list nat) :
  remove_first d (d :: l) = l.
Proof. cbn [remove_first]. rewrite Nat.eqb_refl. reflexivity. Qed.

(** The service timeout of a customer is popped: the first customer in
    service leaves and a release is scheduled. *)
Lemma leave (t : Q) (g : generator R) (e : nat) (q : list entry)
    (u : list nat) (pq : list (nat * Q)) (w : list Q) (gh : ghost)
    (x : entry) (r : list entry) (i : nat) (a s v : Q) :
  lined_up1 t g e q u pq w gh -> wakeup1 t q gh ->
  heappop q = Some (x, r) -> t <= e_time x ->
  e_event x = Timeout_service i a s v ->
  exists gh',
    lined_up1 (e_time x) g (S (S e))
      (r ++ [mkEntry (e_time x + 0) NORMAL e Release]
         ++ [mkEntry (e_time x + 0) NORMAL (S e) Process_ok])
      (remove_first i u) pq w gh' /\
    wakeup1 (e_time x)
      (r ++ [mkEntry (e_time x + 0) NORMAL e Release]
         ++ [mkEntry (e_time x + 0) NORMAL (S e) Process_ok]) gh'.
Proof.
  destruct gh as [n n' p d gs].
  intros (T & E & P & Rs & Rc) W H L Ev.
  exists (mkGhost n n' p (S d) gs).
  destruct T as [To Tc Ta Tf Tw Tm Tam]. destruct P as [P1 P2 P3 P4 P5 P6].
  destruct Rs as [Ru Rw Ra]. destruct Rc as [Wl Wn]. destruct E as [Eg Ed].
  assert (Pq : pending1 t g e q (mkGhost n n' p d gs))
    by (constructor; assumption).
  assert (Tq : tally1 (mkGhost n n' p d gs)) by (constructor; assumption).
  destruct (pop_data t g e q _ x r Pq H) as (Dx & Dr & Ex & Er).
  assert (I1 : initialize_index x = None)
    by (unfold initialize_index; rewrite Ev; reflexivity).
  assert (I2 : request_index x = None)
    by (unfold request_index; rewrite Ev; reflexivity).
  assert (I3 : service_index x = Some i)
    by (unfold service_index; rewrite Ev; reflexivity).
  assert (Rl : is_release x = O)
    by (unfold is_release; rewrite Ev; reflexivity).
  assert (Mono : forall j k, (d <= j)%nat -> (j <= k)%nat -> (k < p)%nat ->
            grant (mkGhost n n' p d gs) j + service_time
            <= grant (mkGhost n n' p d gs) k + service_time).
  { intros j k J1 J2 J3.
    assert (M : grant (mkGhost n n' p d gs) j <= grant (mkGhost n n' p d gs) k).
    { apply Tm; [exact J2|]. unfold granted in *.
      cbn [grants arrived entered started departed] in *. lia. }
    lra. }
  destruct (family_pop_self service_index NORMAL _ _ _ q x r i H I3 (proj1 P5)
              Mono P3) as (Ei & Ld & Tx & F3).
  subst i. cbn beta in Tx.
  unfold granted in *. cbn [grants arrived entered started departed] in *.
  set (z1 := mkEntry (e_time x + 0) NORMAL e Release).
  set (z2 := mkEntry (e_time x + 0) NORMAL (S e) Process_ok).
  assert (Pr : pending1 (e_time x) g e r (mkGhost n n' p (S d) gs)).
  { constructor; unfold granted;
      cbn [grants arrived entered started departed].
    - apply (family_pop_other _ _ _ _ _ q x r H I1 P1).
    - apply (family_pop_other _ _ _ _ _ q x r H I2 P2).
    - exact F3.
    - apply (data_keep_all t (e_time x) g g (mkGhost n n' p d gs));
        [exact Dr|exact L|right; split; reflexivity|].
      intros k Hk. split; [exact Hk|reflexivity].
    - apply (eids_pop q e x r H P5).
    - rewrite (heappop_count_of is_generator q x r H) in P6. lia. }
  assert (Pz : pending1 (e_time x) g (S (S e)) ((r ++ [z1]) ++ [z2])
                 (mkGhost n n' p (S d) gs)).
  { apply pending_push; try reflexivity.
    apply pending_push; try reflexivity; [exact Pr|].
    unfold entry_data. cbn [e_event z1 e_time]. lra. }
  rewrite app_assoc.
  split.
  - split; [|split; [|split; [|split]]].
    + constructor; unfold granted;
        cbn [grants arrived entered started departed]; try assumption; lia.
    + constructor; unfold granted; cbn [grants departed].
      * intros k Hk. specialize (Eg k Hk).
        unfold grant in *. cbn [grants] in *. lra.
      * intros k Hk. destruct (Nat.eq_dec k d) as [->|Ne].
        -- unfold grant in *. cbn [grants] in *. lra.
        -- assert (Ek : grant (mkGhost n n' p d gs) k + service_time <= t)
             by (apply Ed; lia).
           unfold grant in *. cbn [grants] in *. lra.
    + exact Pz.
    + constructor; unfold granted;
        cbn [grants arrived entered started departed].
      * rewrite Ru. rewrite (seq_head d (length gs)) by lia.
        apply remove_first_head.
      * exact Rw.
      * exact Ra.
    + split; assumption.
  - intro Lt.
    destruct (wakeup_pop t g e q _ x r Tq Pq W H Lt) as (A1 & A2 & A3).
    unfold granted in *. cbn [grants arrived entered started departed] in *.
    split; [exact A1|]. split; [exact A2|].
    rewrite !count_app, !count_single. cbn [is_release e_event z1 z2]. lia.
Qed.

(** A release is popped: [trigger_put] is due. *)
Lemma release_due (t : Q) (g : generator R) (e : nat) (q : list entry)
    (u : list nat) (pq : list (nat * Q)) (w : list Q) (gh : ghost)
    (x : entry) (r : list entry) :
  lined_up1 t g e q u pq w gh -> wakeup1 t q gh ->
  heappop q = Some (x, r) -> t <= e_time x ->
  e_event x = Release ->
  lined_up1 (e_time x) g e r u pq w gh /\ due1 (e_time x) r gh.
Proof.
  intros (T & E & P & Rs & Rc) W H L Ev.
  assert (I1 : initialize_index x = None)
    by (unfold initialize_index; rewrite Ev; reflexivity).
  assert (I2 : request_index x = None)
    by (unfold request_index; rewrite Ev; reflexivity).
  assert (I3 : service_index x = None)
    by (unfold service_index; rewrite Ev; reflexivity).
  assert (Rl : is_release x = 1%nat)
    by (unfold is_release; rewrite Ev; reflexivity).
  split.
  - split; [exact T|]. split; [apply (elapsed_later t); assumption|].
    split; [apply (pending_pop t _ g e q gh x r); assumption|].
    split; assumption.
  - intro Lt. destruct (wakeup_pop t g e q gh x r T P W H Lt) as (A1 & A2 & A3).
    split; [right; split; assumption|].
    intros _. split; [exact A1|]. split; [exact A2|lia].
Qed.

(** The [Initialize] of a customer is popped: the first customer that
    has not yet made its request joins the put queue. *)
Lemma enter (t : Q) (g : generator R) (e : nat) (q : list entry)
    (u : list nat) (pq : list (nat * Q)) (w : list Q) (gh : ghost)
    (x : entry) (r : list entry) (i : nat) :
  lined_up1 t g e q u pq w gh -> wakeup1 t q gh ->
  heappop q = Some (x, r) -> t <= e_time x ->
  e_event x = Initialize_customer i ->
  exists gh',
    lined_up1 (e_time x) g e r u (pq ++ [(i, e_time x)]) w gh' /\
    due1 (e_time x) r gh'.
Proof.
  destruct gh as [n n' p d gs].
  intros (T & E & P & Rs & Rc) W H L Ev.
  exists (mkGhost n (S n') p d gs).
  destruct T as [To Tc Ta Tf Tw Tm Tam]. destruct P as [P1 P2 P3 P4 P5 P6].
  destruct Rs as [Ru Rw Ra]. destruct Rc as [Wl Wn].
  assert (Pq : pending1 t g e q (mkGhost n n' p d gs))
    by (constructor; assumption).
  assert (Tq : tally1 (mkGhost n n' p d gs)) by (constructor; assumption).
  destruct (pop_data t g e q _ x r Pq H) as (Dx & Dr & Ex & Er).
  assert (I1 : initialize_index x = Some i)
    by (unfold initialize_index; rewrite Ev; reflexivity).
  assert (I2 : request_index x = None)
    by (unfold request_index; rewrite Ev; reflexivity).
  assert (I3 : service_index x = None)
    by (unfold service_index; rewrite Ev; reflexivity).
  assert (Rl : is_release x = O)
    by (unfold is_release; rewrite Ev; reflexivity).
  assert (Mono : forall j k, (n' <= j)%nat -> (j <= k)%nat -> (k < n)%nat ->
            A j <= A k).
  { intros j k J1 J2 J3. apply Tam; assumption. }
  destruct (family_pop_self initialize_index URGENT _ _ _ q x r i H I1
              (proj1 P5) Mono P1) as (Ei & Ln & Tx & F1).
  subst i.
  unfold granted in *. cbn [grants arrived entered started departed] in *.
  split.
  - split; [|split; [|split; [|split]]].
    + constructor; unfold granted;
        cbn [grants arrived entered started departed]; try assumption; lia.
    + apply (elapsed_later t); [constructor; apply E|exact L].
    + constructor; unfold granted;
        cbn [grants arrived entered started departed].
      * exact F1.
      * apply (family_pop_other _ _ _ _ _ q x r H I2 P2).
      * apply (family_pop_other _ _ _ _ _ q x r H I3 P3).
      * apply (data_keep_all t (e_time x) g g (mkGhost n n' p d gs));
          [exact Dr|exact L|right; split; reflexivity|].
        intros k Hk. split; [exact Hk|reflexivity].
      * apply (eids_pop q e x r H P5).
      * rewrite (heappop_count_of is_generator q x r H) in P6. lia.
    + constructor; unfold granted;
        cbn [grants arrived entered started departed].
      * exact Ru.
      * rewrite map_app, Rw. cbn [map fst]. apply seq_snoc. lia.
      * apply Forall_app. split; [exact Ra|].
        constructor; [cbn [fst snd]; exact Tx|constructor].
    + split; assumption.
  - unfold wakeup_due, granted.
    cbn [grants arrived entered started departed].
    intro Lt. split.
    + destruct (Nat.eq_dec (length gs) n') as [Em|Ne].
      * left. rewrite Em. exact Tx.
      * right.
        destruct (wakeup_pop t g e q _ x r Tq Pq W H) as (A1 & A2 & A3).
        { unfold granted. cbn [grants entered]. lia. }
        split; assumption.
    + intro Lt2.
      destruct (wakeup_pop t g e q _ x r Tq Pq W H) as (A1 & A2 & A3).
      { unfold granted. cbn [grants entered]. lia. }
      unfold granted in *. cbn [grants arrived entered started departed] in *.
      split; [exact A1|]. split; [exact A2|lia].
Qed.

(** What [customer_generator] schedules after a draw. *)
Lemma generator_next (t' : Q) (g : generator R) (gh' : ghost) (z : entry)
    (i : nat) :
  ((exists e', e_event z = Process_failed e') \/
   (e_event z = Timeout_generator i /\ e_prio z = NORMAL /\
    e_time z = t' + fst (exp_draw R g) / arrival_rate /\
    0 <= fst (exp_draw R g) / arrival_rate)) ->
  i = arrived gh' -> g = drawn R i (seed R random_seed) ->
  t' + gap R arrival_rate random_seed i == A i ->
  (forall j, (j < i)%nat -> A j <= t') ->
  initialize_index z = None /\ request_index z = None /\
  service_index z = None /\ is_release z = O /\
  (is_generator z <= 1)%nat /\
  data t' (snd (exp_draw R g)) gh' z.
Proof.
  intros Z Ei Eg Et Past.
  unfold initialize_index, request_index, service_index, is_release,
    is_generator, entry_data.
  destruct Z as [[e' Ev]|(Ev & Pz & Tz & Gz)]; rewrite Ev.
  - repeat split; auto.
  - repeat split; auto.
    + rewrite Tz. rewrite <- Et. unfold gap. rewrite Eg. reflexivity.
    + rewrite Eg. reflexivity.
    + intros j Hj. destruct (Nat.eq_dec j i) as [->|Ne]; [lra|].
      assert (P : A j <= t') by (apply Past; lia).
      rewrite <- Et. unfold gap. rewrite <- Eg. lra.
Qed.

(** The timeout of the generator is popped: a customer is created and
    the generator draws again. *)
Lemma spawn (t : Q) (g : generator R) (e : nat) (q : list entry)
    (u : list nat) (pq : list (nat * Q)) (w : list Q) (gh : ghost)
    (x : entry) (r : list entry) (i : nat) (z : entry) :
  lined_up1 t g e q u pq w gh -> wakeup1 t q gh ->
  heappop q = Some (x, r) -> t <= e_time x ->
  e_event x = Timeout_generator i ->
  e_eid z = S e ->
  ((exists e', e_event z = Process_failed e') \/
   (e_event z = Timeout_generator (S i) /\ e_prio z = NORMAL /\
    e_time z = e_time x + fst (exp_draw R g) / arrival_rate /\
    0 <= fst (exp_draw R g) / arrival_rate)) ->
  exists gh',
    lined_up1 (e_time x) (snd (exp_draw R g)) (S (S e))
      ((r ++ [mkEntry (e_time x + 0) URGENT e (Initialize_customer i)])
         ++ [z]) u pq w gh' /\
    wakeup1 (e_time x)
      ((r ++ [mkEntry (e_time x + 0) URGENT e (Initialize_customer i)])
         ++ [z]) gh'.
Proof.
  destruct gh as [n n' p d gs].
  intros (T & E & P & Rs & Rc) W H L Ev Ez Z.
  exists (mkGhost (S n) n' p d gs).
  destruct T as [To Tc Ta Tf Tw Tm Tam]. destruct P as [P1 P2 P3 P4 P5 P6].
  destruct Rs as [Ru Rw Ra]. destruct Rc as [Wl Wn].
  assert (Pq : pending1 t g e q (mkGhost n n' p d gs))
    by (constructor; assumption).
  assert (Tq : tally1 (mkGhost n n' p d gs)) by (constructor; assumption).
  destruct (pop_data t g e q _ x r Pq H) as (Dx & Dr & Ex & Er).
  assert (I1 : initialize_index x = None)
    by (unfold initialize_index; rewrite Ev; reflexivity).
  assert (I2 : request_index x = None)
    by (unfold request_index; rewrite Ev; reflexivity).
  assert (I3 : service_index x = None)
    by (unfold service_index; rewrite Ev; reflexivity).
  assert (Rl : is_release x = O)
    by (unfold is_release; rewrite Ev; reflexivity).
  assert (Gx : is_generator x = 1%nat)
    by (unfold is_generator; rewrite Ev; reflexivity).
  assert (G0 : count is_generator r = O).
  { rewrite (heappop_count_of is_generator q x r H) in P6. lia. }
  unfold entry_data in Dx. rewrite Ev in Dx.
  cbn [arrived] in Dx. destruct Dx as (Ei & Tx & Eg & Mx). subst i.
  destruct (generator_next (e_time x) g (mkGhost (S n) n' p d gs) z (S n) Z)
    as (Z1 & Z2 & Z3 & Z4 & Z5 & Z6).
  { reflexivity. }
  { exact Eg. }
  { cbn [arrive]. rewrite Tx. reflexivity. }
  { intros j Hj. rewrite Tx. apply Mx. lia. }
  set (zi := mkEntry (e_time x + 0) URGENT e (Initialize_customer n)).
  unfold granted in *. cbn [grants arrived entered started departed] in *.
  split.
  - split; [|split; [|split; [|split]]].
    + constructor; unfold granted;
        cbn [grants arrived entered started departed]; try assumption.
      * lia.
      * intros j k Hj Hk. destruct (Nat.eq_dec k n) as [->|Ne].
        -- apply Mx. exact Hj.
        -- apply Tam; lia.
    + apply (elapsed_later t); [constructor; apply E|exact L].
    + constructor; unfold granted;
        cbn [grants arrived entered started departed].
      * apply family_push_other; [exact Z1|].
        apply family_push_self;
          [reflexivity| |reflexivity|lia|exact Er|].
        -- cbn [e_time zi]. rewrite Tx. lra.
        -- apply (family_pop_other _ _ _ _ _ q x r H I1 P1).
      * apply family_push_other; [exact Z2|].
        apply family_push_other; [reflexivity|].
        apply (family_pop_other _ _ _ _ _ q x r H I2 P2).
      * apply family_push_other; [exact Z3|].
        apply family_push_other; [reflexivity|].
        apply (family_pop_other _ _ _ _ _ q x r H I3 P3).
      * apply Forall_app. split; [apply Forall_app; split|].
        -- apply (data_keep_all t (e_time x) g _ (mkGhost n n' p d gs));
             [exact Dr|exact L|left; exact G0|].
           intros k Hk. split; [exact Hk|reflexivity].
        -- constructor; [exact I|constructor].
        -- constructor; [exact Z6|constructor].
      * apply eids_push; [|exact Ez].
        apply eids_push; [|reflexivity]. apply (eids_pop q e x r H P5).
      * rewrite !count_app, !count_single, G0.
        cbn [is_generator e_event zi]. lia.
    + constructor; assumption.
    + split; assumption.
  - intro Lt.
    destruct (wakeup_pop t g e q _ x r Tq Pq W H Lt) as (A1 & A2 & A3).
    unfold granted in *. cbn [grants arrived entered started departed] in *.
    split; [exact A1|]. split; [exact A2|].
    rewrite !count_app, !count_single, Z4. cbn [is_release e_event zi]. lia.
Qed.

(** The [Initialize] of the generator is popped: its first draw. *)
Lemma begin (t : Q) (g : generator R) (e : nat) (q : list entry)
    (u : list nat) (pq : list (nat * Q)) (w : list Q) (gh : ghost)
    (x : entry) (r : list entry) (z : entry) :
  lined_up1 t g e q u pq w gh -> wakeup1 t q gh ->
  heappop q = Some (x, r) -> t <= e_time x ->
  e_event x = Initialize_generator ->
  e_eid z = e ->
  ((exists e', e_event z = Process_failed e') \/
   (e_event z = Timeout_generator 0 /\ e_prio z = NORMAL /\
    e_time z = e_time x + fst (exp_draw R g) / arrival_rate /\
    0 <= fst (exp_draw R g) / arrival_rate)) ->
  lined_up1 (e_time x) (snd (exp_draw R g)) (S e) (r ++ [z]) u pq w gh /\
  wakeup1 (e_time x) (r ++ [z]) gh.
Proof.
  intros (T & E & P & Rs & Rc) W H L Ev Ez Z.
  destruct (pop_data t g e q _ x r P H) as (Dx & Dr & Ex & Er).
  assert (I1 : initialize_index x = None)
    by (unfold initialize_index; rewrite Ev; reflexivity).
  assert (I2 : request_index x = None)
    by (unfold request_index; rewrite Ev; reflexivity).
  assert (I3 : service_index x = None)
    by (unfold service_index; rewrite Ev; reflexivity).
  assert (Rl : is_release x = O)
    by (unfold is_release; rewrite Ev; reflexivity).
  assert (Gx : is_generator x = 1%nat)
    by (unfold is_generator; rewrite Ev; reflexivity).
  pose proof (p_generator _ _ _ _ _ _ _ _ _ P) as P6.
  assert (G0 : count is_generator r = O).
  { rewrite (heappop_count_of is_generator q x r H) in P6. lia. }
  unfold entry_data in Dx. rewrite Ev in Dx. destruct Dx as (En & Eg & Tx).
  destruct (generator_next (e_time x) g gh z 0 Z)
    as (Z1 & Z2 & Z3 & Z4 & Z5 & Z6).
  { symmetry. exact En. }
  { exact Eg. }
  { cbn [arrive]. rewrite Tx. lra. }
  { intros j Hj. lia. }
  destruct P as [P1 P2 P3 P4 P5 P6'].
  split.
  - split; [exact T|]. split; [apply (elapsed_later t); assumption|].
    split; [|split; assumption].
    constructor.
    + apply family_push_other; [exact Z1|].
      apply (family_pop_other _ _ _ _ _ q x r H I1 P1).
    + apply family_push_other; [exact Z2|].
      apply (family_pop_other _ _ _ _ _ q x r H I2 P2).
    + apply family_push_other; [exact Z3|].
      apply (family_pop_other _ _ _ _ _ q x r H I3 P3).
    + apply Forall_app. split.
      * apply (data_keep_all t (e_time x) g _ gh);
          [exact Dr|exact L|left; exact G0|].
        intros k Hk. split; [exact Hk|reflexivity].
      * constructor; [exact Z6|constructor].
    + apply eids_push; [|exact Ez]. apply (eids_pop q e x r H P5).
    + rewrite count_app, count_single, G0. lia.
  - intro Lt.
    assert (Pq : pending1 t g e q gh) by (constructor; assumption).
    destruct (wakeup_pop t g e q _ x r T Pq W H Lt) as (A1 & A2 & A3).
    split; [exact A1|]. split; [exact A2|].
    rewrite count_app, count_single, Z4. lia.
Qed.

(** *** The loop keeps the discipline *)

Variable verbose : bool.

Local Abbreviation lined1 :=
  (lined R n_servers arrival_rate service_time random_seed).
Local Abbreviation fifo1 :=
  (fifo R n_servers arrival_rate service_time random_seed).
Local Abbreviation step2 :=
  (step R n_servers arrival_rate service_time verbose).

Lemma lined_same_view (st st2 : state R) (gh : ghost) :
  same_view R st st2 -> lined1 st2 gh -> lined1 st gh.
Proof.
  intros (E1 & E2 & E3 & E4 & E5 & E6 & E7). unfold lined.
  rewrite E1, E2, E3, E4, E5, E6, E7. auto.
Qed.

Lemma wakeup_same_view (st st2 : state R) (gh : ghost) :
  same_view R st st2 ->
  wakeup1 (now R st2) (queue R st2) gh -> wakeup1 (now R st) (queue R st) gh.
Proof.
  intros (E1 & E2 & _). rewrite E1, E2. auto.
Qed.

(** [trigger_put] grants the head of the put queue when it can, and
    the wake-up condition holds afterwards either way. *)
Lemma settle (st : state R) (gh : ghost) :
  lined1 st gh -> due1 (now R st) (queue R st) gh ->
  Forall (fun en => now R st <= e_time en) (queue R st) ->
  Forall (fun p => snd p <= now R st) (put_queue R st) ->
  exists gh',
    lined1 (trigger_put R n_servers st) gh' /\
    wakeup1 (now R (trigger_put R n_servers st))
      (queue R (trigger_put R n_servers st)) gh'.
Proof.
  intros Ln Due T1 T2.
  destruct (put_queue R st) as [|[h a] rest] eqn:Pq.
  - rewrite (trigger_put_empty R n_servers st Pq). exists gh.
    split; [exact Ln|].
    destruct Ln as (T & _ & _ & Rs & _). rewrite Pq in Rs.
    apply (put_empty _ _ _ (users R st) T Rs).
  - destruct (Nat.lt_ge_cases (length (users R st)) C) as [Free|Full].
    + pose proof (view_trigger_put_grant R n_servers st h a rest Pq Free) as V.
      destruct Ln as (T & E & P & Rs & Rc). rewrite Pq in Rs.
      apply Forall_cons_iff in T2. destruct T2 as [At _]. cbn [snd] in At.
      destruct (grant_head (now R st) (random_state R st) (eid R st)
                  (queue R st) gh (users R st) h a rest (wait_times R st)
                  T E P Rs Rc Due At Free) as (T' & E' & P' & Rs' & Rc' & W').
      eexists. split.
      * apply (lined_same_view _ _ _ V). unfold lined, view.
        cbn [now queue eid users put_queue wait_times random_state].
        exact (conj T' (conj E' (conj P' (conj Rs' Rc')))).
      * apply (wakeup_same_view _ _ _ V). unfold view. cbn [now queue].
        exact W'.
    + rewrite (trigger_put_full R n_servers st Full). exists gh.
      split; [exact Ln|].
      destruct Ln as (T & _ & P & Rs & _).
      apply (put_full _ _ _ _ _ _ _ T P Rs T1 Full).
Qed.

Lemma fifo_step (st : state R) :
  (exists gh, fifo1 st gh) -> exists gh, fifo1 (after R (step2 st)) gh.
Proof.
  intros (gh & Ln & W & Tm).
  pose proof (timed_step R n_servers arrival_rate service_time verbose st Tm)
    as Tm'.
  destruct (heappop (queue R st)) as [[x r]|] eqn:H.
  2:{ exists gh. unfold step. rewrite H. cbn [after].
      split; [exact Ln|split; [exact W|exact Tm]]. }
  destruct (timed_pop R service_time st x r Tm H) as (_ & L & _).
  pose proof (heappop_least _ _ _ H) as Least.
  destruct Tm as (_ & _ & Tpq & _).
  unfold lined in Ln.
  destruct (e_event x) as [|i|i|i a|i a s v| | |e'|] eqn:Ev.
  - (* Initialize_generator *)
    rewrite (after_initialize_generator R n_servers arrival_rate service_time
               verbose st x r H Ev) in *.
    destruct (view_generator_wait R arrival_rate
                (set_clock R (e_time x) r st) 0) as (z & V & Ez & Z).
    cbn [now queue eid users put_queue wait_times random_state set_clock]
      in V, Ez, Z.
    destruct (begin _ _ _ _ _ _ _ gh x r z Ln W H L Ev Ez) as [Ln' W'].
    { destruct Z as [[_ Z]|Z]; [left; exact Z|right; exact Z]. }
    exists gh. split; [|split; [|exact Tm']].
    + apply (lined_same_view _ _ _ V). exact Ln'.
    + apply (wakeup_same_view _ _ _ V). exact W'.
  - (* Initialize_customer *)
    destruct (after_initialize_customer R n_servers arrival_rate service_time
                verbose st x r i H Ev) as (st2 & Ea & V).
    rewrite Ea in *.
    destruct (enter _ _ _ _ _ _ _ gh x r i Ln W H L Ev) as (gh1 & Ln1 & Due1).
    destruct V as (V1 & V2 & V3 & V4 & V5 & V6 & V7).
    unfold view in V1, V2, V3, V4, V5, V6, V7.
    cbn [now queue eid users put_queue wait_times random_state]
      in V1, V2, V3, V4, V5, V6, V7.
    destruct (settle st2 gh1) as (gh2 & Ln2 & W2).
    + unfold lined. rewrite V1, V2, V3, V4, V5, V6, V7. exact Ln1.
    + rewrite V1, V2. exact Due1.
    + rewrite V1, V2. exact Least.
    + rewrite V1, V5. apply Forall_app. split.
      * eapply Forall_impl; [|exact Tpq]. cbn beta. intros p Hp. lra.
      * constructor; [cbn [snd]; lra|constructor].
    + exists gh2. split; [exact Ln2|split; [exact W2|exact Tm']].
  - (* Timeout_generator *)
    rewrite (after_timeout_generator R n_servers arrival_rate service_time
               verbose st x r i H Ev) in *.
    destruct (view_generator_wait R arrival_rate
                (schedule R (Initialize_customer i) URGENT 0
                   (set_clock R (e_time x) r st)) (S i)) as (z & V & Ez & Z).
    cbn [now queue eid users put_queue wait_times random_state set_clock
         schedule] in V, Ez, Z.
    destruct (spawn _ _ _ _ _ _ _ gh x r i z Ln W H L Ev Ez)
      as (gh1 & Ln' & W').
    { destruct Z as [[_ Z]|Z]; [left; exact Z|right; exact Z]. }
    exists gh1. split; [|split; [|exact Tm']].
    + apply (lined_same_view _ _ _ V). exact Ln'.
    + apply (wakeup_same_view _ _ _ V). exact W'.
  - (* Request *)
    pose proof (view_request R n_servers arrival_rate service_time verbose
                  st x r i a H Ev service_nonneg) as V.
    destruct (serve _ _ _ _ _ _ _ gh x r i a Ln W H L Ev) as (gh1 & Ln' & W').
    exists gh1. split; [|split; [|exact Tm']].
    + apply (lined_same_view _ _ _ V). exact Ln'.
    + apply (wakeup_same_view _ _ _ V). exact W'.
  - (* Timeout_service *)
    pose proof (view_service R n_servers arrival_rate service_time verbose
                  st x r i a s v H Ev) as V.
    destruct (leave _ _ _ _ _ _ _ gh x r i a s v Ln W H L Ev)
      as (gh1 & Ln' & W').
    exists gh1. split; [|split; [|exact Tm']].
    + apply (lined_same_view _ _ _ V). exact Ln'.
    + apply (wakeup_same_view _ _ _ V). exact W'.
  - (* Release *)
    rewrite (after_release R n_servers arrival_rate service_time verbose
               st x r H Ev) in *.
    destruct (release_due _ _ _ _ _ _ _ gh x r Ln W H L Ev) as [Ln1 Due1].
    destruct (settle (set_clock R (e_time x) r st) gh) as (gh2 & Ln2 & W2).
    + exact Ln1.
    + exact Due1.
    + exact Least.
    + cbn [now put_queue set_clock].
      eapply Forall_impl; [|exact Tpq]. cbn beta. intros p Hp. lra.
    + exists gh2. split; [exact Ln2|split; [exact W2|exact Tm']].
  - (* Process_ok *)
    assert (V : same_view R (after R (step2 st))
                  (view R (e_time x) r (eid R st) (users R st)
                     (put_queue R st) (wait_times R st) (random_state R st))).
    { apply (view_neutral R n_servers arrival_rate service_time verbose
               st x r H). rewrite Ev. exact I. }
    destruct (tick _ _ _ _ _ _ _ gh x r Ln W H L) as [Ln' W'];
      try (unfold initialize_index, request_index, service_index, is_release;
           rewrite Ev; reflexivity).
    exists gh. split; [|split; [|exact Tm']].
    + apply (lined_same_view _ _ _ V). exact Ln'.
    + apply (wakeup_same_view _ _ _ V). exact W'.
  - (* Process_failed *)
    assert (V : same_view R (after R (step2 st))
                  (view R (e_time x) r (eid R st) (users R st)
                     (put_queue R st) (wait_times R st) (random_state R st))).
    { apply (view_neutral R n_servers arrival_rate service_time verbose
               st x r H). rewrite Ev. exact I. }
    destruct (tick _ _ _ _ _ _ _ gh x r Ln W H L) as [Ln' W'];
      try (unfold initialize_index, request_index, service_index, is_release;
           rewrite Ev; reflexivity).
    exists gh. split; [|split; [|exact Tm']].
    + apply (lined_same_view _ _ _ V). exact Ln'.
    + apply (wakeup_same_view _ _ _ V). exact W'.
  - (* Until *)
    assert (V : same_view R (after R (step2 st))
                  (view R (e_time x) r (eid R st) (users R st)
                     (put_queue R st) (wait_times R st) (random_state R st))).
    { apply (view_neutral R n_servers arrival_rate service_time verbose
               st x r H). rewrite Ev. exact I. }
    destruct (tick _ _ _ _ _ _ _ gh x r Ln W H L) as [Ln' W'];
      try (unfold initialize_index, request_index, service_index, is_release;
           rewrite Ev; reflexivity).
    exists gh. split; [|split; [|exact Tm']].
    + apply (lined_same_view _ _ _ V). exact Ln'.
    + apply (wakeup_same_view _ _ _ V). exact W'.
Qed.

Lemma family_none (f : entry -> option nat) (tm : nat -> Q) (pr : Z)
    (lo : nat) (q : list entry) :
  Forall (fun en => f en = None) q -> family f lo lo tm pr q.
Proof.
  intro N. rewrite Forall_forall in N. split; [|split].
  - intros en k I F. rewrite (N en I) in F. discriminate.
  - intros k Hk. lia.
  - intros x y kx ky Ix Iy Fx. rewrite (N x Ix) in Fx. discriminate.
Qed.

Lemma fifo_armed (g : generator R) (sim_time : Q) :
  0 < sim_time ->
  fifo1 (armed R g sim_time random_seed) (mkGhost 0 0 0 0 []).
Proof.
  intro H. split; [|split].
  - unfold lined, lined_up, armed, fresh, schedule, set_random.
    cbn [now queue eid users put_queue wait_times random_state app].
    split; [|split; [|split; [|split]]].
    + constructor; unfold granted;
        cbn [grants arrived entered started departed length];
        intros; lia.
    + constructor; unfold granted; cbn [grants departed length];
        intros k Hk; lia.
    + constructor; unfold granted;
        cbn [grants arrived entered started departed length].
      * apply family_none. repeat constructor.
      * apply family_none. repeat constructor.
      * apply family_none. repeat constructor.
      * constructor; [|constructor; [exact I|constructor]].
        unfold entry_data. cbn [e_event arrived e_time].
        split; [reflexivity|]. split; [reflexivity|lra].
      * split.
        -- cbn [map e_eid]. constructor; [|constructor; [|constructor]].
           ++ intros [F|[]]. discriminate F.
           ++ intros [].
        -- constructor; [cbn; lia|constructor; [cbn; lia|constructor]].
      * unfold count. cbn. lia.
    + constructor; unfold granted;
        cbn [grants arrived entered started departed length].
      * reflexivity.
      * reflexivity.
      * constructor.
    + split; cbn [started length]; [reflexivity|]. intros k Hk. lia.
  - unfold wakeup, granted. cbn [grants entered length]. intro F. lia.
  - apply (proj1 (sound_armed R service_time g sim_time random_seed H)).
Qed.

Lemma fifo_run (g : generator R) (sim_time : Q) (fuel : nat)
    (o : option exn) (st : state R) :
  0 < sim_time ->
  run R n_servers arrival_rate service_time verbose fuel
    (armed R g sim_time random_seed) = Some (o, st) ->
  exists gh, fifo1 st gh.
Proof.
  intros H Hr.
  apply (run_invariant R n_servers arrival_rate service_time verbose
           (fun s => exists gh, fifo1 s gh) fifo_step fuel
           (armed R g sim_time random_seed) o st);
    [|exact Hr].
  exists (mkGhost 0 0 0 0 []). apply fifo_armed. exact H.
Qed.

End Fifo.

(** *** Two capacities *)

Lemma Qsum_le_nth (l l' : list Q) :
  length l = length l' ->
  (forall k, (k < length l)%nat -> nth k l 0 <= nth k l' 0) ->
  Qsum l <= Qsum l'.
Proof.
  revert l'. induction l as [|x l IH]; intros [|y l'] L H;
    try discriminate L.
  - simpl. lra.
  - simpl in *. pose proof (H O ltac:(lia)) as H0. simpl in H0.
    assert (R0 : Qsum l <= Qsum l').
    { apply IH; [lia|]. intros k Hk. apply (H (S k)). lia. }
    lra.
Qed.

Lemma mean_le (l l' : list Q) :
  l <> [] -> length l = length l' ->
  (forall k, (k < length l)%nat -> nth k l 0 <= nth k l' 0) ->
  mean l <= mean l'.
Proof.
  intros Ne L H. unfold mean. rewrite <- L.
  pose proof (Qsum_le_nth l l' L H) as S0.
  pose proof (length_pos_Q l Ne) as P.
  set (n := inject_Z (Z.of_nat (length l))) in *.
  apply Qle_shift_div_l; [exact P|].
  assert (E : Qsum l / n * n == Qsum l) by (field; lra).
  rewrite E. exact S0.
Qed.

Section Capacities.

Variable R : Random.
Variable c1 c2 : Z.
Variable arrival_rate : Q.
Variable service_time : Q.
Variable random_seed : Z.

Hypothesis c1_positive : (0 < c1)%Z.
Hypothesis c1_c2 : (c1 <= c2)%Z.

(** With more servers no request is granted later. *)
Lemma grants_monotone (gh1 gh2 : ghost) :
  tally R c1 arrival_rate service_time random_seed gh1 ->
  tally R c2 arrival_rate service_time random_seed gh2 ->
  forall k, (k < granted gh1)%nat -> (k < granted gh2)%nat ->
    grant gh2 k <= grant gh1 k.
Proof.
  intros T1 T2 k.
  assert (C1 : (1 <= capacity c1)%nat) by (unfold capacity; lia).
  assert (C12 : (capacity c1 <= capacity c2)%nat) by (unfold capacity; lia).
  induction k as [k IH] using lt_wf_ind. intros K1 K2.
  destruct (t_grant_when _ _ _ _ _ _ T2 k K2) as [E|[Ck E]].
  - rewrite E. apply (t_grant_arrival _ _ _ _ _ _ T1 k K1).
  - rewrite E.
    assert (I : grant gh2 (k - capacity c2) <= grant gh1 (k - capacity c2)).
    { apply IH; lia. }
    assert (M : grant gh1 (k - capacity c2) <= grant gh1 (k - capacity c1)).
    { apply (t_grant_mono _ _ _ _ _ _ T1); lia. }
    assert (F : grant gh1 (k - capacity c1) + service_time <= grant gh1 k).
    { apply (t_grant_after _ _ _ _ _ _ T1); lia. }
    lra.
Qed.

Lemma waits_monotone (gh1 gh2 : ghost) (w1 w2 : list Q) :
  tally R c1 arrival_rate service_time random_seed gh1 ->
  tally R c2 arrival_rate service_time random_seed gh2 ->
  recorded R arrival_rate random_seed w1 gh1 ->
  recorded R arrival_rate random_seed w2 gh2 ->
  forall k, (k < length w1)%nat -> (k < length w2)%nat ->
    nth k w2 0 <= nth k w1 0.
Proof.
  intros T1 T2 [L1 N1] [L2 N2] k K1 K2.
  destruct (t_order _ _ _ _ _ _ T1) as (_ & O1 & _).
  destruct (t_order _ _ _ _ _ _ T2) as (_ & O2 & _).
  rewrite N1, N2 by lia.
  pose proof (grants_monotone gh1 gh2 T1 T2 k ltac:(lia) ltac:(lia)).
  lra.
Qed.

End Capacities.

(** C7 (amended).  With the other arguments fixed, a non-negative
    [service_time] and [c1 <= c2] servers, every customer that begins
    service within the horizon in both runs waits no longer with [c2]
    servers than with [c1]; so when the same number of customers has
    begun service in both runs, [avg_wait_time] with [c2] servers is not
    greater than with [c1].  Nothing is claimed when more customers
    begin service with [c2] servers: their waits enter the average. *)
Theorem more_servers_same_customers :
  forall (R : Random) (fuel1 fuel2 : nat) (g1 g2 : generator R) (c1 c2 : Z)
    (arrival_rate service_time sim_time : Q) (random_seed : Z)
    (verbose1 verbose2 : bool) (call1 call2 : call R) (r1 r2 : result)
    (o1 o2 : option exn) (st1 st2 : state R),
  (c1 <= c2)%Z -> 0 <= service_time ->
  run_simulation R fuel1 g1 c1 arrival_rate service_time sim_time
    random_seed verbose1 = Some call1 ->
  value R call1 = Return r1 ->
  run_simulation R fuel2 g2 c2 arrival_rate service_time sim_time
    random_seed verbose2 = Some call2 ->
  value R call2 = Return r2 ->
  run R c1 arrival_rate service_time verbose1 fuel1
    (armed R g1 sim_time random_seed) = Some (o1, st1) ->
  run R c2 arrival_rate service_time verbose2 fuel2
    (armed R g2 sim_time random_seed) = Some (o2, st2) ->
  (forall k, (k < length (wait_times R st1))%nat ->
     (k < length (wait_times R st2))%nat ->
     nth k (wait_times R st2) 0 <= nth k (wait_times R st1) 0) /\
  (length (wait_times R st1) = length (wait_times R st2) ->
   forall w1 w2 : Q,
     avg_wait_time r1 = Some w1 -> avg_wait_time r2 = Some w2 -> w2 <= w1).
Proof.
  intros R fuel1 fuel2 g1 g2 c1 c2 arrival_rate service_time sim_time
    random_seed verbose1 verbose2 call1 call2 r1 r2 o1 o2 st1 st2
    Hc Hs H1 V1 H2 V2 Hr1 Hr2.
  destruct (run_simulation_Return R c1 arrival_rate service_time verbose1
              fuel1 g1 sim_time random_seed call1 r1 H1 V1)
    as (Ht & P1 & s1 & Hs1 & -> & _).
  destruct (run_simulation_Return R c2 arrival_rate service_time verbose2
              fuel2 g2 sim_time random_seed call2 r2 H2 V2)
    as (_ & P2 & s2 & Hs2 & -> & _).
  rewrite Hr1 in Hs1. inversion Hs1; subst o1 s1. clear Hs1.
  rewrite Hr2 in Hs2. inversion Hs2; subst o2 s2. clear Hs2.
  destruct (fifo_run R c1 arrival_rate service_time random_seed P1 Hs
              verbose1 g1 sim_time fuel1 None st1 Ht Hr1)
    as (gh1 & (T1 & _ & _ & _ & Rc1) & _ & _).
  destruct (fifo_run R c2 arrival_rate service_time random_seed P2 Hs
              verbose2 g2 sim_time fuel2 None st2 Ht Hr2)
    as (gh2 & (T2 & _ & _ & _ & Rc2) & _ & Tm2).
  pose proof (waits_monotone R c1 c2 arrival_rate service_time random_seed
                P1 Hc gh1 gh2 _ _ T1 T2 Rc1 Rc2) as W.
  split; [exact W|].
  intros L w1 w2. unfold summary. cbn [avg_wait_time].
  destruct (wait_times R st1) as [|x1 l1] eqn:E1;
    destruct (wait_times R st2) as [|x2 l2] eqn:E2;
    try discriminate; try (simpl in L; discriminate L).
  intros A1 A2. inversion A1; subst w1. inversion A2; subst w2.
  apply round2_monotone. apply mean_le.
  - discriminate.
  - symmetry. exact L.
  - intros k Hk. apply W; [rewrite L|]; exact Hk.
Qed.

Lemma more_servers_same_customers_witness :
  exists (call1 call2 : call Tabulated.tabulated)
         (st1 st2 : state Tabulated.tabulated),
    (1 <= 2)%Z /\ 0 <= 1 /\
    run_simulation Tabulated.tabulated 40 (0%Z, O) 1 (1 # 5) 1 8 42 false
    = Some call1 /\
    value Tabulated.tabulated call1
    = Return (mkResult 2 (Some (38 # 100)) (Some (144 # 100))) /\
    run_simulation Tabulated.tabulated 40 (0%Z, O) 2 (1 # 5) 1 8 42 false
    = Some call2 /\
    value Tabulated.tabulated call2
    = Return (mkResult 3 (Some (0 # 100)) (Some (100 # 100))) /\
    run Tabulated.tabulated 1 (1 # 5) 1 false 40
      (armed Tabulated.tabulated (0%Z, O) 8 42) = Some (None, st1) /\
    run Tabulated.tabulated 2 (1 # 5) 1 false 40
      (armed Tabulated.tabulated (0%Z, O) 8 42) = Some (None, st2) /\
    length (wait_times Tabulated.tabulated st1)
    = length (wait_times Tabulated.tabulated st2) /\
    (0 # 100) <= (38 # 100).
Proof.
  destruct (run_simulation Tabulated.tabulated 40 (0%Z, O) 1 (1 # 5) 1 8 42
              false) as [call1|] eqn:E1; [|vm_compute in E1; discriminate E1].
  destruct (run_simulation Tabulated.tabulated 40 (0%Z, O) 2 (1 # 5) 1 8 42
              false) as [call2|] eqn:E2; [|vm_compute in E2; discriminate E2].
  destruct (run Tabulated.tabulated 1 (1 # 5) 1 false 40
              (armed Tabulated.tabulated (0%Z, O) 8 42))
    as [[o1 st1]|] eqn:R1; [|vm_compute in R1; discriminate R1].
  destruct (run Tabulated.tabulated 2 (1 # 5) 1 false 40
              (armed Tabulated.tabulated (0%Z, O) 8 42))
    as [[o2 st2]|] eqn:R2; [|vm_compute in R2; discriminate R2].
  assert (O1 : o1 = None) by (vm_compute in R1; inversion R1; reflexivity).
  assert (O2 : o2 = None) by (vm_compute in R2; inversion R2; reflexivity).
  assert (V1 : value Tabulated.tabulated call1
               = Return (mkResult 2 (Some (38 # 100)) (Some (144 # 100))))
    by (vm_compute in E1; inversion E1; reflexivity).
  assert (V2 : value Tabulated.tabulated call2
               = Return (mkResult 3 (Some (0 # 100)) (Some (100 # 100))))
    by (vm_compute in E2; inversion E2; reflexivity).
  assert (L : length (wait_times Tabulated.tabulated st1)
              = length (wait_times Tabulated.tabulated st2)).
  { vm_compute in R1. vm_compute in R2. inversion R1. inversion R2.
    reflexivity. }
  assert (A1 : (1 <= 2)%Z) by lia.
  assert (A2 : 0 <= 1) by (intro F; discriminate F).
  exists call1, call2, st1, st2.
  split; [exact A1|]. split; [exact A2|]. split; [reflexivity|].
  split; [exact V1|]. split; [reflexivity|]. split; [exact V2|].
  subst o1 o2. split; [reflexivity|]. split; [reflexivity|].
  split; [exact L|].
  exact (proj2 (more_servers_same_customers Tabulated.tabulated 40 40
                  (0%Z, O) (0%Z, O) 1 2 (1 # 5) 1 8 42 false false
                  call1 call2 _ _ None None st1 st2 A1 A2 E1 V1 E2 V2 R1 R2)
           L (38 # 100) (0 # 100) eq_refl eq_refl).
Defined.
(** ** The queueing discipline from outside *)

Lemma keys_In (f : entry -> option nat) (q : list entry) (k : nat) :
  In k (keys f q) <-> exists en, In en q /\ f en = Some k.
Proof.
  induction q as [|x q IH]; cbn [keys].
  - split; [intros []|intros (en & [] & _)].
  - destruct (f x) as [j|] eqn:Fx.
    + cbn [In]. rewrite IH. split.
      * intros [<-|(en & I & F)].
        -- exists x. split; [left; reflexivity|exact Fx].
        -- exists en. split; [right; exact I|exact F].
      * intros (en & [<-|I] & F).
        -- left. congruence.
        -- right. exists en. split; assumption.
    + rewrite IH. split.
      * intros (en & I & F). exists en. split; [right; exact I|exact F].
      * intros (en & [<-|I] & F); [congruence|].
        exists en. split; assumption.
Qed.

Lemma keys_NoDup (f : entry -> option nat) (q : list entry) :
  NoDup (map e_eid q) ->
  (forall x y k, In x q -> In y q -> f x = Some k -> f y = Some k ->
     e_eid x = e_eid y) ->
  NoDup (keys f q).
Proof.
  induction q as [|x q IH]; cbn [keys map]; intros N U.
  - constructor.
  - apply NoDup_cons_iff in N. destruct N as [Nx N].
    assert (IHq : NoDup (keys f q)).
    { apply IH; [exact N|]. intros a b k Ia Ib. apply U; right; assumption. }
    destruct (f x) as [j|] eqn:Fx; [|exact IHq].
    constructor; [|exact IHq].
    intro Ij. apply keys_In in Ij. destruct Ij as (y & Iy & Fy).
    apply Nx. rewrite (U x y j); [|left; reflexivity|right; exact Iy| |];
      try assumption.
    apply in_map. exact Iy.
Qed.

Lemma keys_length (f : entry -> option nat) (ind : entry -> nat)
    (q : list entry) :
  (forall en, ind en = match f en with Some _ => 1%nat | None => O end) ->
  length (keys f q) = count ind q.
Proof.
  intro E. unfold count, list_sum.
  induction q as [|x q IH]; cbn [keys map fold_right].
  - reflexivity.
  - rewrite (E x). destruct (f x); cbn [length]; lia.
Qed.

(** A family has one event for each of its customers. *)
Lemma family_count (f : entry -> option nat) (ind : entry -> nat)
    (lo hi : nat) (tm : nat -> Q) (pr : Z) (q : list entry) :
  (forall en, ind en = match f en with Some _ => 1%nat | None => O end) ->
  NoDup (map e_eid q) ->
  family f lo hi tm pr q ->
  count ind q = (hi - lo)%nat.
Proof.
  intros E N (A & B & C).
  rewrite <- (keys_length f ind q E).
  rewrite <- (length_seq (hi - lo) lo).
  apply Permutation_length. apply NoDup_Permutation.
  - apply keys_NoDup; [exact N|]. intros x y k Ix Iy Fx Fy.
    pose proof (C x y k k Ix Iy Fx Fy (Nat.le_refl k)).
    pose proof (C y x k k Iy Ix Fy Fx (Nat.le_refl k)). lia.
  - apply seq_NoDup.
  - intro k. rewrite keys_In, in_seq. split.
    + intros (en & I & F). destruct (A en k I F) as (K & _). lia.
    + intro K. apply B. lia.
Qed.

Lemma in_service_index (en : entry) :
  in_service en
  = match service_index en with Some _ => 1%nat | None => O end.
Proof.
  unfold in_service, service_index. destruct (e_event en); reflexivity.
Qed.

Section Discipline.

Variable R : Random.
Variable n_servers : Z.
Variable arrival_rate : Q.
Variable service_time : Q.
Variable random_seed : Z.
Variable verbose : bool.

Hypothesis servers : (0 < n_servers)%Z.
Hypothesis service_nonneg : 0 <= service_time.

Local Abbreviation fifo2 :=
  (fifo R n_servers arrival_rate service_time random_seed).
Local Abbreviation arrive2 := (arrive R arrival_rate random_seed).
Local Abbreviation C2 := (capacity n_servers).

Lemma fifo_reachable (g : generator R) (sim_time : Q) (st : state R) :
  0 < sim_time ->
  reachable R n_servers arrival_rate service_time verbose g sim_time
    random_seed st ->
  exists gh, fifo2 st gh.
Proof.
  intros H [n Hn].
  apply (advance_invariant R n_servers arrival_rate service_time verbose
           (fun s => exists gh, fifo2 s gh)
           (fifo_step R n_servers arrival_rate service_time random_seed
              servers service_nonneg verbose)
           n (armed R g sim_time random_seed) st);
    [|exact Hn].
  exists (mkGhost 0 0 0 0 []). apply fifo_armed. exact H.
Qed.

(** The customers that have left are those counted as served. *)
Lemma served_departed (st : state R) (gh : ghost) :
  fifo2 st gh -> accounted R service_time st ->
  customers_served R st = departed gh /\
  length (wait_times R st) = started gh.
Proof.
  intros ((T & _ & P & _ & Rc) & _ & _) (_ & B & _).
  destruct (B (proj2 (Qltb_false _ _) service_nonneg)) as [B1 _].
  destruct Rc as [L _].
  pose proof (family_count service_index in_service _ _ _ _ (queue R st)
                in_service_index
                (proj1 (p_eids _ _ _ _ _ _ _ _ _ P))
                (p_service _ _ _ _ _ _ _ _ _ P)) as Cn.
  unfold count_in_service in B1. unfold count in Cn.
  destruct (t_order _ _ _ _ _ _ T) as (O1 & _).
  split; [lia|exact L].
Qed.

(** The waits of a state against the arrivals, as [tally] and
    [recorded] give them. *)
Lemma waits_recursion (w : list Q) (gh : ghost) :
  tally R n_servers arrival_rate service_time random_seed gh ->
  recorded R arrival_rate random_seed w gh ->
  forall k, (k < length w)%nat ->
    ((k < C2)%nat -> nth k w 0 == 0) /\
    ((C2 <= k)%nat ->
     nth k w 0
     == Qmax 0 (arrive2 (k - C2) + nth (k - C2) w 0 + service_time
                - arrive2 k)).
Proof.
  intros T [L N] k K. rewrite L in K.
  destruct (t_order _ _ _ _ _ _ T) as (_ & O2 & _).
  pose proof (t_grant_arrival _ _ _ _ _ _ T k ltac:(lia)) as Ga.
  pose proof (t_grant_when _ _ _ _ _ _ T k ltac:(lia)) as Gw.
  rewrite (N k K). split.
  - intro Kc. destruct Gw as [E|[Ck _]]; [lra|lia].
  - intro Kc.
    pose proof (t_grant_after _ _ _ _ _ _ T k Kc ltac:(lia)) as Gf.
    rewrite (N (k - C2)%nat ltac:(lia)).
    set (x := arrive2 (k - C2)
              + (grant gh (k - C2) - arrive2 (k - C2)) + service_time
              - arrive2 k).
    assert (Ex : x == grant gh (k - C2) + service_time - arrive2 k)
      by (unfold x; lra).
    destruct Gw as [E|[_ E]].
    + rewrite Q.max_l; lra.
    + rewrite Q.max_r; lra.
Qed.

(** The event popped is that of the next customer in order. *)
Lemma popped_in_order (st : state R) (gh : ghost) (en : entry)
    (q : list entry) :
  fifo2 st gh -> sound R service_time st ->
  heappop (queue R st) = Some (en, q) ->
  match e_event en with
  | Request i a =>
      i = length (wait_times R st) /\ a == arrive2 i
  | Timeout_service i a s w =>
      i = customers_served R st /\ a == arrive2 i /\
      (i < length (wait_times R st))%nat /\
      w == nth i (wait_times R st) 0
  | _ => True
  end.
Proof.
  intros F [Tm Ac] H.
  destruct (served_departed st gh F Ac) as [Sd Ls].
  destruct F as ((T & E & P & Rs & Rc) & W & _).
  destruct (pop_data R arrival_rate service_time random_seed _ _ _ _ gh en q
              P H) as (Dx & _).
  destruct (timed_pop R service_time st en q Tm H) as (_ & _ & Wf).
  pose proof (proj1 (p_eids _ _ _ _ _ _ _ _ _ P)) as Nd.
  destruct (t_order _ _ _ _ _ _ T) as (O1 & O2 & _).
  destruct (e_event en) as [|i|i|i a|i a s w| | |e'|] eqn:Ev; try exact I.
  - destruct (family_pop_self request_index NORMAL (started gh) (granted gh)
                (grant gh) (queue R st) en q i H) as (K & _);
      [unfold request_index; rewrite Ev; reflexivity|exact Nd| |
       exact (p_request _ _ _ _ _ _ _ _ _ P)|].
    + intros a0 b0 A0 B0 C0. apply (t_grant_mono _ _ _ _ _ _ T); lia.
    + unfold entry_data in Dx. rewrite Ev in Dx. subst i.
      split; [symmetry; exact Ls|exact Dx].
  - destruct (family_pop_self service_index NORMAL (departed gh) (started gh)
                (fun k => grant gh k + service_time) (queue R st) en q i H)
      as (K & Lt & _);
      [unfold service_index; rewrite Ev; reflexivity|exact Nd| |
       exact (p_service _ _ _ _ _ _ _ _ _ P)|].
    + intros a0 b0 A0 B0 C0.
      pose proof (t_grant_mono _ _ _ _ _ _ T a0 b0 B0 ltac:(lia)). lra.
    + unfold entry_data in Dx. rewrite Ev in Dx.
      destruct Dx as (_ & Da & Ds).
      unfold entry_wf in Wf. rewrite Ev in Wf. destruct Wf as (Ww & _).
      subst i. destruct Rc as [_ Rn].
      split; [symmetry; exact Sd|]. split; [exact Da|].
      split; [lia|]. rewrite (Rn _ Lt). rewrite Ww, Ds, Da. reflexivity.
Qed.

End Discipline.

(** X7.  First come, first served.  In a call with at least one server,
    a non-negative [service_time] and a positive [sim_time], the
    customer whose granted request is processed is always the next in
    order of arrival: Customer [i] with [i] the number of waits
    recorded so far, and its [arrival_time] is the sum of the first
    [i + 1] inter-arrival draws.  The customer whose service ends is
    Customer [customers_served], and the wait it recorded is the entry
    of [wait_times] at that index.  So the entries of [wait_times] and
    of [system_times] at index [k] are those of Customer [k]. *)
Theorem first_come_first_served :
  forall (R : Random) (n_servers : Z) (arrival_rate service_time : Q)
    (verbose : bool) (g : generator R) (sim_time : Q) (random_seed : Z)
    (st : state R) (en : entry) (q : list entry),
  (0 < n_servers)%Z -> 0 <= service_time -> 0 < sim_time ->
  reachable R n_servers arrival_rate service_time verbose g sim_time
    random_seed st ->
  heappop (queue R st) = Some (en, q) ->
  match e_event en with
  | Request i a =>
      i = length (wait_times R st) /\
      a == arrive R arrival_rate random_seed i
  | Timeout_service i a s w =>
      i = customers_served R st /\
      a == arrive R arrival_rate random_seed i /\
      (i < length (wait_times R st))%nat /\
      w == nth i (wait_times R st) 0
  | _ => True
  end.
Proof.
  intros R n_servers arrival_rate service_time verbose g sim_time
    random_seed st en q Hn Hs Ht Hr H.
  destruct (fifo_reachable R n_servers arrival_rate service_time random_seed
              verbose Hn Hs g sim_time st Ht Hr) as (gh & F).
  pose proof (sound_reachable R n_servers arrival_rate service_time verbose
                g sim_time random_seed st Ht Hr) as Sd.
  exact (popped_in_order R n_servers arrival_rate service_time random_seed
           Hs st gh en q F Sd H).
Qed.
Lemma first_come_first_served_witness :
  let st := Tabulated.state_after 12 1 3 5 42 in
  exists (en : entry) (q : list entry) (a s w : Q),
    (0 < 1)%Z /\ 0 <= 3 /\ 0 < 5 /\
    reachable Tabulated.tabulated 1 1 3 false (0%Z, O) 5 42 st /\
    heappop (queue Tabulated.tabulated st) = Some (en, q) /\
    e_event en = Timeout_service 0 a s w /\
    customers_served Tabulated.tabulated st = O /\
    a == arrive Tabulated.tabulated 1 42 0 /\
    w == nth 0 (wait_times Tabulated.tabulated st) 0.
Proof.
  intro st.
  assert (H0 : (0 < 1)%Z) by lia.
  assert (H1 : 0 <= 3) by (intro F; discriminate F).
  assert (H2 : 0 < 5) by reflexivity.
  assert (H3 : reachable Tabulated.tabulated 1 1 3 false (0%Z, O) 5 42 st).
  { exists 12%nat. vm_compute. reflexivity. }
  destruct (heappop (queue Tabulated.tabulated st)) as [[en q]|] eqn:E;
    [|vm_compute in E; discriminate E].
  pose proof (first_come_first_served Tabulated.tabulated 1 1 3 false
                (0%Z, O) 5 42 st en q H0 H1 H2 H3 E) as C.
  assert (Ev : exists a s w, e_event en = Timeout_service 0 a s w).
  { vm_compute in E. inversion E; subst en. simpl.
    eexists. eexists. eexists. reflexivity. }
  destruct Ev as (a & s & w & Ev). rewrite Ev in C.
  destruct C as (C1 & C2 & C3 & C4).
  exists en, q, a, s, w.
  repeat (split; [first [assumption|reflexivity|symmetry; assumption]|]).
  exact C4.
Defined.

(** X8.  The waits follow the recursion of a first-come-first-served
    queue with [n_servers] servers and a constant service time.  In the
    state in which the loop of a call ends (at least one server, a
    non-negative [service_time]), the first [n_servers] customers have
    waited 0, and Customer [k], for [k >= n_servers], has waited just
    until Customer [k - n_servers] has been served:
    [wait k = max(0, arrival (k - n) + wait (k - n) + service_time
    - arrival k)], the arrivals being the partial sums of the
    inter-arrival draws. *)
Theorem waits_follow_recursion :
  forall (R : Random) (fuel : nat) (g : generator R) (n_servers : Z)
    (arrival_rate service_time sim_time : Q) (random_seed : Z)
    (verbose : bool) (o : option exn) (st : state R) (k : nat),
  (0 < n_servers)%Z -> 0 <= service_time -> 0 < sim_time ->
  run R n_servers arrival_rate service_time verbose fuel
    (armed R g sim_time random_seed) = Some (o, st) ->
  (k < length (wait_times R st))%nat ->
  ((k < capacity n_servers)%nat -> nth k (wait_times R st) 0 == 0) /\
  ((capacity n_servers <= k)%nat ->
   nth k (wait_times R st) 0
   == Qmax 0
        (arrive R arrival_rate random_seed (k - capacity n_servers)
         + nth (k - capacity n_servers) (wait_times R st) 0
         + service_time
         - arrive R arrival_rate random_seed k)).
Proof.
  intros R fuel g n_servers arrival_rate service_time sim_time random_seed
    verbose o st k Hn Hs Ht Hr Hk.
  destruct (fifo_run R n_servers arrival_rate service_time random_seed Hn Hs
              verbose g sim_time fuel o st Ht Hr)
    as (gh & (T & _ & _ & _ & Rc) & _ & _).
  apply (waits_recursion R n_servers arrival_rate service_time random_seed
           (wait_times R st) gh T Rc k Hk).
Qed.

Lemma waits_follow_recursion_witness :
  exists st : state Tabulated.tabulated,
    (0 < 1)%Z /\ 0 <= 3 /\ 0 < 5 /\
    run Tabulated.tabulated 1 1 3 false 40
      (armed Tabulated.tabulated (0%Z, O) 5 42) = Some (None, st) /\
    length (wait_times Tabulated.tabulated st) = 2%nat /\
    nth 1 (wait_times Tabulated.tabulated st) 0
    == Qmax 0
         (arrive Tabulated.tabulated 1 42 0
          + nth 0 (wait_times Tabulated.tabulated st) 0 + 3
          - arrive Tabulated.tabulated 1 42 1).
Proof.
  destruct (run Tabulated.tabulated 1 1 3 false 40
              (armed Tabulated.tabulated (0%Z, O) 5 42))
    as [[o st]|] eqn:E; [|vm_compute in E; discriminate E].
  assert (O1 : o = None) by (vm_compute in E; inversion E; reflexivity).
  assert (L : length (wait_times Tabulated.tabulated st) = 2%nat)
    by (vm_compute in E; inversion E; reflexivity).
  assert (H0 : (0 < 1)%Z) by lia.
  assert (H1 : 0 <= 3) by (intro F; discriminate F).
  assert (H2 : 0 < 5) by reflexivity.
  assert (K : (1 < length (wait_times Tabulated.tabulated st))%nat)
    by (rewrite L; lia).
  exists st. subst o.
  split; [exact H0|]. split; [exact H1|]. split; [exact H2|].
  split; [reflexivity|]. split; [exact L|].
  apply (proj2 (waits_follow_recursion Tabulated.tabulated 40 (0%Z, O) 1 1 3
                  5 42 false None st 1 H0 H1 H2 E K)).
  unfold capacity. cbn. lia.
Defined.

(** X9.  The resource never holds more customers than [n_servers], and
    it serves them in order: at every point of a call (at least one
    server, non-negative [service_time]) [users] are the consecutive
    customers from Customer [customers_served] on, and the put queue
    holds the customers that come right after them, in order of
    arrival. *)
Theorem resource_holds_consecutive_customers :
  forall (R : Random) (n_servers : Z) (arrival_rate service_time : Q)
    (verbose : bool) (g : generator R) (sim_time : Q) (random_seed : Z)
    (st : state R),
  (0 < n_servers)%Z -> 0 <= service_time -> 0 < sim_time ->
  reachable R n_servers arrival_rate service_time verbose g sim_time
    random_seed st ->
  (Z.of_nat (length (users R st)) <= n_servers)%Z /\
  users R st = seq (customers_served R st) (length (users R st)) /\
  map fst (put_queue R st)
  = seq (customers_served R st + length (users R st))
      (length (put_queue R st)).
Proof.
  intros R n_servers arrival_rate service_time verbose g sim_time
    random_seed st Hn Hs Ht Hr.
  destruct (fifo_reachable R n_servers arrival_rate service_time random_seed
              verbose Hn Hs g sim_time st Ht Hr) as (gh & F).
  pose proof (sound_reachable R n_servers arrival_rate service_time verbose
                g sim_time random_seed st Ht Hr) as [_ Ac].
  destruct (served_departed R n_servers arrival_rate service_time
              random_seed Hs st gh F Ac) as [Sd _].
  destruct F as ((T & _ & _ & [Ru Rw _] & _) & _ & _).
  destruct (t_order _ _ _ _ _ _ T) as (O1 & O2 & O3 & O4).
  pose proof (t_capacity _ _ _ _ _ _ T) as Cp. unfold capacity in Cp.
  assert (Lu : length (users R st) = (granted gh - departed gh)%nat).
  { rewrite Ru. apply length_seq. }
  assert (Lp : length (put_queue R st) = (entered gh - granted gh)%nat).
  { rewrite <- (length_map fst), Rw. apply length_seq. }
  split; [lia|]. split.
  - rewrite Lu, Sd. exact Ru.
  - rewrite Lu, Lp, Sd, Rw. f_equal. lia.
Qed.

Lemma resource_holds_consecutive_customers_witness :
  let st := Tabulated.state_after 10 1 3 5 42 in
  (0 < 1)%Z /\ 0 <= 3 /\ 0 < 5 /\
  reachable Tabulated.tabulated 1 1 3 false (0%Z, O) 5 42 st /\
  users Tabulated.tabulated st = [0%nat] /\
  map fst (put_queue Tabulated.tabulated st) = [1; 2; 3]%nat /\
  (Z.of_nat (length (users Tabulated.tabulated st)) <= 1)%Z.
Proof.
  intro st.
  assert (H0 : (0 < 1)%Z) by lia.
  assert (H1 : 0 <= 3) by (intro F; discriminate F).
  assert (H2 : 0 < 5) by reflexivity.
  assert (H3 : reachable Tabulated.tabulated 1 1 3 false (0%Z, O) 5 42 st).
  { exists 10%nat. vm_compute. reflexivity. }
  split; [exact H0|]. split; [exact H1|]. split; [exact H2|].
  split; [exact H3|]. split; [vm_compute; reflexivity|].
  split; [vm_compute; reflexivity|].
  exact (proj1 (resource_holds_consecutive_customers Tabulated.tabulated 1 1
                  3 false (0%Z, O) 5 42 st H0 H1 H2 H3)).
Defined.

(** X10.  No server idles while a customer queues.  At every point of
    a call (at least one server, non-negative [service_time]), if the
    put queue is not empty then the customers in [users] and the
    Release events still to be processed together make up at least
    [n_servers]; and a Release event in the queue is always due at the
    current time, so a freed server is handed on within the same
    instant. *)
Theorem no_idle_server_while_waiting :
  forall (R : Random) (n_servers : Z) (arrival_rate service_time : Q)
    (verbose : bool) (g : generator R) (sim_time : Q) (random_seed : Z)
    (st : state R),
  (0 < n_servers)%Z -> 0 <= service_time -> 0 < sim_time ->
  reachable R n_servers arrival_rate service_time verbose g sim_time
    random_seed st ->
  (put_queue R st <> [] ->
   (n_servers
    <= Z.of_nat (length (users R st) + count is_release (queue R st)))%Z) /\
  Forall (fun en => e_event en = Release -> e_time en == now R st)
    (queue R st).
Proof.
  intros R n_servers arrival_rate service_time verbose g sim_time
    random_seed st Hn Hs Ht Hr.
  destruct (fifo_reachable R n_servers arrival_rate service_time random_seed
              verbose Hn Hs g sim_time st Ht Hr)
    as (gh & (T & _ & P & [Ru Rw _] & _) & W & (Tq & _)).
  split.
  - intro Ne.
    assert (Lp : (granted gh < entered gh)%nat).
    { destruct (put_queue R st) as [|x l] eqn:Pq; [congruence|].
      cbn [map] in Rw.
      destruct (entered gh - granted gh)%nat eqn:D; [discriminate Rw|lia]. }
    destruct (W Lp) as (_ & _ & W3). unfold capacity in W3.
    rewrite Ru, length_seq. lia.
  - pose proof (p_data _ _ _ _ _ _ _ _ _ P) as D.
    rewrite Forall_forall in *. intros en I Ev.
    specialize (D en I). specialize (Tq en I).
    unfold entry_data in D. rewrite Ev in D. cbn beta in Tq. lra.
Qed.

Lemma no_idle_server_while_waiting_witness :
  let st := Tabulated.state_after 13 1 3 5 42 in
  (0 < 1)%Z /\ 0 <= 3 /\ 0 < 5 /\
  reachable Tabulated.tabulated 1 1 3 false (0%Z, O) 5 42 st /\
  users Tabulated.tabulated st = [] /\
  put_queue Tabulated.tabulated st <> [] /\
  count is_release (queue Tabulated.tabulated st) = 1%nat /\
  (1 <= Z.of_nat (length (users Tabulated.tabulated st)
                  + count is_release (queue Tabulated.tabulated st)))%Z.
Proof.
  intro st.
  assert (H0 : (0 < 1)%Z) by lia.
  assert (H1 : 0 <= 3) by (intro F; discriminate F).
  assert (H2 : 0 < 5) by reflexivity.
  assert (H3 : reachable Tabulated.tabulated 1 1 3 false (0%Z, O) 5 42 st).
  { exists 13%nat. vm_compute. reflexivity. }
  assert (H4 : put_queue Tabulated.tabulated st <> [])
    by (vm_compute; discriminate).
  split; [exact H0|]. split; [exact H1|]. split; [exact H2|].
  split; [exact H3|]. split; [vm_compute; reflexivity|].
  split; [exact H4|]. split; [vm_compute; reflexivity|].
  exact (proj1 (no_idle_server_while_waiting Tabulated.tabulated 1 1 3 false
                  (0%Z, O) 5 42 st H0 H1 H2 H3) H4).
Defined.
(** ** Within the horizon *)

(** An invariant of the running loop gives what holds when it ends. *)
Lemma run_ends (R : Random) (n_servers : Z) (arrival_rate service_time : Q)
    (verbose : bool) (Inv : state R -> Prop)
    (End : option exn -> state R -> Prop) :
  (forall st, Inv st ->
     match step R n_servers arrival_rate service_time verbose st with
     | Running _ st' => Inv st'
     | Stopped _ st' => End None st'
     | Raised _ e st' => End (Some e) st'
     end) ->
  forall fuel st o st',
    Inv st ->
    run R n_servers arrival_rate service_time verbose fuel st = Some (o, st') ->
    End o st'.
Proof.
  intros Hstep fuel. induction fuel as [|fuel IH]; intros st o st' H0 H.
  - discriminate.
  - cbn [run] in H. specialize (Hstep st H0).
    destruct (step R n_servers arrival_rate service_time verbose st)
      as [s|s|e s].
    + apply (IH s o st'); assumption.
    + inversion H; subst. exact Hstep.
    + inversion H; subst. exact Hstep.
Qed.

Lemma advance_running (R : Random) (n_servers : Z)
    (arrival_rate service_time : Q) (verbose : bool)
    (Inv : state R -> Prop) :
  (forall st st', Inv st ->
     step R n_servers arrival_rate service_time verbose st = Running R st' ->
     Inv st') ->
  forall n st st',
    Inv st ->
    advance R n_servers arrival_rate service_time verbose n st = Some st' ->
    Inv st'.
Proof.
  intros Hstep n. induction n as [|n IH]; intros st st' H0 H.
  - cbn [advance] in H. inversion H; subst. exact H0.
  - cbn [advance] in H.
    destruct (step R n_servers arrival_rate service_time verbose st)
      as [s|s|e s] eqn:E; try discriminate.
    apply (IH s st'); [|exact H]. apply (Hstep st s H0 E).
Qed.

Section Within.

Variable R : Random.
Variable n_servers : Z.
Variable arrival_rate : Q.
Variable service_time : Q.
Variable verbose : bool.
Variable sim_time : Q.

Local Abbreviation horizon1 := (horizon R arrival_rate service_time sim_time).
Local Abbreviation entry_ok1 := (entry_ok R arrival_rate service_time sim_time).
Local Abbreviation until1 := (until_entry sim_time).
Local Abbreviation failure1 := (failure R arrival_rate service_time).

Lemma horizon_schedule (st : state R) (ev : event) (priority : Z)
    (delay : Q) :
  horizon1 st ->
  entry_ok1 (mkEntry (now R st + delay) priority (eid R st) ev) ->
  horizon1 (schedule R ev priority delay st).
Proof.
  intros [H1 H2 H3 H4 H5 H6] Ok. constructor;
    cbn [schedule queue put_queue now wait_times system_times];
    try assumption.
  - apply in_or_app. left. exact H1.
  - apply Forall_app. split; [exact H2|]. constructor; [exact Ok|constructor].
Qed.

Lemma horizon_set_resource (st : state R) (u : list nat)
    (p : list (nat * Q)) :
  horizon1 st -> Forall (fun x => 0 <= snd x /\ snd x < sim_time) p ->
  horizon1 (set_resource R u p st).
Proof.
  intros [H1 H2 H3 H4 H5 H6] Hp. constructor;
    cbn [set_resource queue put_queue now wait_times system_times];
    assumption.
Qed.

Lemma horizon_print (st : state R) (l : line) :
  horizon1 st -> horizon1 (print_if_verbose R verbose l st).
Proof.
  intros [H1 H2 H3 H4 H5 H6]. unfold print_if_verbose.
  destruct verbose; constructor;
    cbn [print queue put_queue now wait_times system_times]; assumption.
Qed.

Lemma horizon_set_random (st : state R) (g : generator R) :
  horizon1 st -> horizon1 (set_random R g st).
Proof.
  intros [H1 H2 H3 H4 H5 H6]. constructor;
    cbn [set_random queue put_queue now wait_times system_times]; assumption.
Qed.

Lemma horizon_trigger_put (st : state R) :
  horizon1 st -> horizon1 (trigger_put R n_servers st).
Proof.
  intro H. unfold trigger_put.
  destruct (put_queue R st) as [|[h a] rest] eqn:E; [exact H|].
  destruct (Z.of_nat (length (users R st)) <? n_servers)%Z; [|exact H].
  pose proof (h_put _ _ _ _ _ H) as Hp. rewrite E in Hp.
  apply Forall_cons_iff in Hp. destruct Hp as [Ha Hr]. cbn [snd] in Ha.
  apply horizon_schedule.
  - apply horizon_set_resource; assumption.
  - split; [reflexivity|]. cbn [e_event]. exact Ha.
Qed.

Lemma horizon_release (st : state R) (i : nat) :
  horizon1 st -> horizon1 (release R i st).
Proof.
  intro H. unfold release. apply horizon_schedule.
  - apply horizon_set_resource; [exact H|]. apply (h_put _ _ _ _ _ H).
  - split; [reflexivity|exact I].
Qed.

Lemma horizon_customer_arrive (st : state R) (i : nat) :
  horizon1 st -> now R st < sim_time ->
  horizon1 (customer_arrive R n_servers verbose i st).
Proof.
  intros H Lt. unfold customer_arrive, request.
  apply horizon_trigger_put.
  pose proof (horizon_print st (Arrives i (now R st)) H) as Hp.
  assert (E : put_queue R (print_if_verbose R verbose (Arrives i (now R st)) st)
              = put_queue R st).
  { unfold print_if_verbose. destruct verbose; reflexivity. }
  apply horizon_set_resource; [exact Hp|].
  rewrite E. apply Forall_app. split; [apply (h_put _ _ _ _ _ H)|].
  constructor; [|constructor]. cbn [snd].
  split; [apply (h_now _ _ _ _ _ H)|exact Lt].
Qed.

Lemma horizon_generator_wait (st : state R) (i : nat) :
  horizon1 st -> horizon1 (generator_wait R arrival_rate i st).
Proof.
  intro H. unfold generator_wait.
  destruct (exp_draw R (random_state R st)) as [e g] eqn:D.
  destruct (Qeq_bool arrival_rate 0) eqn:Z0.
  - apply horizon_schedule; [apply horizon_set_random; exact H|].
    split; [reflexivity|]. cbn [e_event]. left.
    split; [reflexivity|]. apply Qeq_bool_iff. exact Z0.
  - destruct (Qltb (e / arrival_rate) 0) eqn:Ng.
    + apply horizon_schedule; [apply horizon_set_random; exact H|].
      split; [reflexivity|]. cbn [e_event]. right.
      split; [reflexivity|]. right. exists (random_state R st).
      rewrite D. cbn [fst]. apply Qltb_true. exact Ng.
    + apply horizon_schedule; [apply horizon_set_random; exact H|].
      split; [reflexivity|exact I].
Qed.

Lemma horizon_generator_arrival (st : state R) (i : nat) :
  horizon1 st -> now R st < sim_time ->
  horizon1 (generator_arrival R arrival_rate i st).
Proof.
  intros H Lt. unfold generator_arrival. apply horizon_generator_wait.
  apply horizon_schedule; [exact H|]. split; [reflexivity|].
  cbn [e_event e_time]. lra.
Qed.

Lemma horizon_append_wait (st : state R) (w : Q) :
  horizon1 st -> w < sim_time -> horizon1 (append_wait R w st).
Proof.
  intros [H1 H2 H3 H4 H5 H6] Hw. constructor;
    cbn [append_wait queue put_queue now wait_times system_times];
    try assumption.
  apply Forall_app. split; [exact H5|]. constructor; [exact Hw|constructor].
Qed.

Lemma horizon_append_system (st : state R) (s : Q) :
  horizon1 st -> service_time <= s -> s < sim_time ->
  horizon1 (incr_served R (append_system R s st)).
Proof.
  intros [H1 H2 H3 H4 H5 H6] S1 S2. constructor;
    cbn [incr_served append_system queue put_queue now wait_times
         system_times]; try assumption.
  apply Forall_app. split; [exact H6|].
  constructor; [split; assumption|constructor].
Qed.

Lemma horizon_customer_start (st : state R) (i : nat) (a : Q) :
  horizon1 st -> 0 <= a -> a <= now R st -> now R st < sim_time ->
  horizon1 (customer_start R service_time verbose i a st).
Proof.
  intros H A0 A1 Lt. unfold customer_start.
  assert (K : horizon1
                (print_if_verbose R verbose
                   (Starts i (now R st) (now R st - a))
                   (append_wait R (now R st - a) st))).
  { apply horizon_print. apply horizon_append_wait; [exact H|lra]. }
  destruct (Qltb service_time 0) eqn:Ng.
  - apply Qltb_true in Ng. apply horizon_schedule.
    + apply horizon_release. exact K.
    + split; [reflexivity|]. cbn [e_event]. right.
      split; [reflexivity|left; exact Ng].
  - apply horizon_schedule; [exact K|].
    split; [reflexivity|]. cbn [e_event]. exact A0.
Qed.

Lemma horizon_customer_leave (st : state R) (i : nat) (a : Q) :
  horizon1 st -> service_time <= now R st - a -> now R st - a < sim_time ->
  horizon1 (customer_leave R verbose i a st).
Proof.
  intros H S1 S2. unfold customer_leave.
  apply horizon_schedule.
  - apply horizon_release. apply horizon_print.
    apply horizon_append_system; assumption.
  - split; [reflexivity|exact I].
Qed.

(** What is popped while the event that ends the loop is pending. *)
Lemma pop_before_until (q : list entry) (x : entry) (r : list entry) :
  In until1 q -> heappop q = Some (x, r) ->
  e_time x <= sim_time /\
  (e_prio x = NORMAL -> e_time x < sim_time) /\
  (e_event x <> Until -> In until1 r).
Proof.
  intros U H.
  pose proof (heappop_time q x r until1 H U) as Le.
  cbn [until_entry e_time] in Le.
  assert (Ur : x <> until1 -> In until1 r).
  { intro Ne. apply (heappop_In q x r until1 H) in U.
    destruct U as [E|I]; [congruence|exact I]. }
  split; [lra|]. split.
  - intro P.
    assert (Ne : x <> until1).
    { intro E. rewrite E in P. discriminate P. }
    pose proof (heappop_minimal q x r H until1 (Ur Ne)) as M.
    destruct (Qlt_le_dec (e_time x) sim_time) as [L|G]; [exact L|].
    rewrite entry_ltb_le_prio in M; [discriminate M| |].
    + cbn [until_entry e_time]. lra.
    + rewrite P. cbn [until_entry e_prio]. unfold URGENT, NORMAL. lia.
  - intro Ne. apply Ur. intro E. apply Ne. rewrite E. reflexivity.
Qed.

Lemma horizon_pop (st : state R) (x : entry) (r : list entry) :
  horizon1 st -> now R st <= e_time x ->
  heappop (queue R st) = Some (x, r) -> e_event x <> Until ->
  horizon1 (set_clock R (e_time x) r st).
Proof.
  intros [H1 H2 H3 H4 H5 H6] Le H Ne.
  destruct (pop_before_until (queue R st) x r H1 H) as (T1 & _ & T3).
  constructor; cbn [set_clock queue put_queue now wait_times system_times];
    try assumption.
  - apply T3. exact Ne.
  - rewrite Forall_forall in *. intros y Iy. apply H2.
    apply (heappop_In _ _ _ y H). right. exact Iy.
  - split; lra.
Qed.

(** The running loop stays within the horizon; when it stops it has
    reached [sim_time], and when it fails a process has failed. *)
Lemma horizon_step (st : state R) :
  timed R service_time st -> horizon1 st ->
  match step R n_servers arrival_rate service_time verbose st with
  | Running _ st' => horizon1 st'
  | Stopped _ st' =>
      now R st' == sim_time /\
      Forall (fun w => w < sim_time) (wait_times R st') /\
      Forall (fun s => service_time <= s /\ s < sim_time)
        (system_times R st')
  | Raised _ e st' => failure1 e
  end.
Proof.
  intros Tm H. unfold step.
  destruct (heappop (queue R st)) as [[x r]|] eqn:Hp.
  2:{ apply heappop_None in Hp. pose proof (h_until _ _ _ _ _ H) as U.
      rewrite Hp in U. destruct U. }
  destruct (timed_pop R service_time st x r Tm Hp) as (_ & Le & Wf).
  pose proof (h_entries _ _ _ _ _ H) as Ok.
  rewrite Forall_forall in Ok.
  assert (Ix : In x (queue R st))
    by (apply (heappop_In _ _ _ x Hp); left; reflexivity).
  destruct (Ok x Ix) as [Px Dx].
  destruct (pop_before_until (queue R st) x r (h_until _ _ _ _ _ H) Hp)
    as (T1 & T2 & _).
  unfold entry_wf in Wf.
  destruct (e_event x) as [|i|i|i a|i a s w| | |e'|] eqn:Ev;
    cbn [dispatch prio_of] in *.
  - apply horizon_generator_wait. apply horizon_pop; try assumption.
    rewrite Ev. discriminate.
  - apply horizon_customer_arrive;
      [apply horizon_pop; try assumption; rewrite Ev; discriminate|].
    cbn [set_clock now]. exact Dx.
  - apply horizon_generator_arrival;
      [apply horizon_pop; try assumption; rewrite Ev; discriminate|].
    cbn [set_clock now]. apply T2. exact Px.
  - apply horizon_customer_start;
      [apply horizon_pop; try assumption; rewrite Ev; discriminate| | |];
      cbn [set_clock now]; [apply Dx|exact Wf|apply T2; exact Px].
  - destruct Wf as (W1 & W2 & W3 & _). specialize (T2 Px).
    apply horizon_customer_leave;
      [apply horizon_pop; try assumption; rewrite Ev; discriminate| |];
      cbn [set_clock now]; lra.
  - apply horizon_trigger_put. apply horizon_pop; try assumption.
    rewrite Ev. discriminate.
  - apply horizon_pop; try assumption. rewrite Ev. discriminate.
  - exact Dx.
  - cbn [set_clock now wait_times system_times].
    rewrite Dx. cbn [until_entry e_time].
    split; [lra|]. split; [apply (h_waits _ _ _ _ _ H)|].
    apply (h_systems _ _ _ _ _ H).
Qed.

Lemma horizon_armed (g : generator R) (random_seed : Z) :
  0 < sim_time -> horizon1 (armed R g sim_time random_seed).
Proof.
  intro Ht. constructor;
    cbn [armed fresh schedule set_random queue put_queue now wait_times
         system_times app].
  - right. left. reflexivity.
  - constructor; [split; [reflexivity|exact I]|].
    constructor; [split; reflexivity|constructor].
  - constructor.
  - split; lra.
  - constructor.
  - constructor.
Qed.

End Within.
(** *** A negative [service_time] *)

Section Doomed.

Variable R : Random.
Variable n_servers : Z.
Variable arrival_rate : Q.
Variable service_time : Q.
Variable verbose : bool.
Variable sim_time : Q.

Local Abbreviation horizon2 := (horizon R arrival_rate service_time sim_time).
Local Abbreviation doomed2 := (doomed R service_time sim_time).

Lemma doomed_grow (st st' : state R) :
  wait_times R st' = wait_times R st ->
  (forall en, In en (queue R st) -> In en (queue R st')) ->
  doomed2 st -> doomed2 st'.
Proof.
  intros W G D N. rewrite W.
  destruct (D N) as [E|(en & e & I & Ev & Tm)]; [left; exact E|right].
  exists en, e. split; [apply G; exact I|split; assumption].
Qed.

Lemma doomed_quiet (st st' : state R) :
  quiet R st st' -> doomed2 st -> doomed2 st'.
Proof.
  intros (W & _ & _ & l & Q0 & _). apply doomed_grow; [exact W|].
  intros en I. rewrite Q0. apply in_or_app. left. exact I.
Qed.

Lemma doomed_pop (st : state R) (x : entry) (r : list entry) :
  doomed2 st -> heappop (queue R st) = Some (x, r) ->
  (forall e, e_event x <> Process_failed e) ->
  doomed2 (set_clock R (e_time x) r st).
Proof.
  intros D H Ne N. cbn [set_clock wait_times queue].
  destruct (D N) as [E|(en & e & I & Ev & Tm)]; [left; exact E|right].
  exists en, e. split; [|split; assumption].
  apply (heappop_In _ _ _ en H) in I. destruct I as [->|I]; [|exact I].
  exfalso. apply (Ne e Ev).
Qed.

Lemma doomed_customer_start (st : state R) (i : nat) (a : Q) :
  now R st < sim_time ->
  doomed2 (customer_start R service_time verbose i a st).
Proof.
  intros Lt N. right. unfold customer_start.
  rewrite (proj2 (Qltb_true _ _) N).
  exists (mkEntry (now R st + 0) NORMAL (S (eid R st))
            (Process_failed ValueError)), ValueError.
  split; [|split; [reflexivity|cbn [e_time]; lra]].
  unfold print_if_verbose. destruct verbose;
    cbn [schedule release set_resource print append_wait queue now eid];
    apply in_or_app; right; left; reflexivity.
Qed.

Lemma doomed_customer_leave (st : state R) (i : nat) (a : Q) :
  doomed2 st -> doomed2 (customer_leave R verbose i a st).
Proof.
  apply doomed_grow; unfold customer_leave, print_if_verbose;
    destruct verbose;
    cbn [schedule release set_resource print incr_served append_system
         queue wait_times]; try reflexivity;
    intros en I; apply in_or_app; left; apply in_or_app; left; exact I.
Qed.

(** The loop keeps it, and cannot stop on [sim_time] once a service
    has begun. *)
Lemma doomed_step (st : state R) :
  timed R service_time st -> horizon2 st -> doomed2 st ->
  match step R n_servers arrival_rate service_time verbose st with
  | Running _ st' => doomed2 st'
  | Stopped _ st' => service_time < 0 -> wait_times R st' = []
  | Raised _ _ _ => True
  end.
Proof.
  intros Tm H D. unfold step.
  destruct (heappop (queue R st)) as [[x r]|] eqn:Hp; [|exact I].
  pose proof (h_entries _ _ _ _ _ H) as Ok.
  rewrite Forall_forall in Ok.
  assert (Ix : In x (queue R st))
    by (apply (heappop_In _ _ _ x Hp); left; reflexivity).
  destruct (Ok x Ix) as [Px Dx].
  destruct (pop_before_until sim_time (queue R st) x r
              (h_until _ _ _ _ _ H) Hp) as (_ & T2 & _).
  destruct (e_event x) as [|i|i|i a|i a s w| | |e'|] eqn:Ev;
    cbn [dispatch prio_of] in *.
  - apply (doomed_quiet (set_clock R (e_time x) r st));
      [apply quiet_generator_wait|].
    apply doomed_pop; [exact D|exact Hp|]. rewrite Ev. discriminate.
  - apply (doomed_quiet (set_clock R (e_time x) r st));
      [apply quiet_customer_arrive|].
    apply doomed_pop; [exact D|exact Hp|]. rewrite Ev. discriminate.
  - apply (doomed_quiet (set_clock R (e_time x) r st));
      [apply quiet_generator_arrival|].
    apply doomed_pop; [exact D|exact Hp|]. rewrite Ev. discriminate.
  - apply doomed_customer_start. cbn [set_clock now]. apply T2. exact Px.
  - apply doomed_customer_leave.
    apply doomed_pop; [exact D|exact Hp|]. rewrite Ev. discriminate.
  - apply (doomed_quiet (set_clock R (e_time x) r st));
      [apply quiet_trigger_put|].
    apply doomed_pop; [exact D|exact Hp|]. rewrite Ev. discriminate.
  - apply doomed_pop; [exact D|exact Hp|]. rewrite Ev. discriminate.
  - exact I.
  - intro N. cbn [set_clock wait_times].
    destruct (D N) as [E|(en & e & Ie & Eve & Tme)]; [exact E|exfalso].
    pose proof (heappop_time _ _ _ en Hp Ie) as Le.
    rewrite Dx in Le. cbn [until_entry e_time] in Le. lra.
Qed.

Local Abbreviation within_horizon :=
  (within R arrival_rate service_time sim_time).

Lemma within_step (st : state R) :
  within_horizon st ->
  match step R n_servers arrival_rate service_time verbose st with
  | Running _ st' => within_horizon st'
  | Stopped _ st' => ended R service_time sim_time st'
  | Raised _ e st' => failure R arrival_rate service_time e
  end.
Proof.
  intros (Tm & H & D).
  pose proof (timed_step R n_servers arrival_rate service_time verbose st Tm)
    as Tm'.
  pose proof (horizon_step R n_servers arrival_rate service_time verbose
                sim_time st Tm H) as H'.
  pose proof (doomed_step st Tm H D) as D'.
  destruct (step R n_servers arrival_rate service_time verbose st)
    as [s|s|e s]; cbn [after] in Tm'.
  - split; [exact Tm'|split; [exact H'|exact D']].
  - destruct H' as (A & B & C). split; [exact A|].
    split; [exact B|split; [exact C|exact D']].
  - exact H'.
Qed.

Lemma within_armed (g : generator R) (random_seed : Z) :
  0 < sim_time -> within_horizon (armed R g sim_time random_seed).
Proof.
  intro Ht. split; [|split].
  - apply (proj1 (sound_armed R service_time g sim_time random_seed Ht)).
  - apply horizon_armed. exact Ht.
  - intros _. left. reflexivity.
Qed.

Lemma within_run (g : generator R) (random_seed : Z) (fuel : nat)
    (o : option exn) (st : state R) :
  0 < sim_time ->
  run R n_servers arrival_rate service_time verbose fuel
    (armed R g sim_time random_seed) = Some (o, st) ->
  match o with
  | None => ended R service_time sim_time st
  | Some e => failure R arrival_rate service_time e
  end.
Proof.
  intros Ht Hr.
  apply (run_ends R n_servers arrival_rate service_time verbose
           within_horizon
           (fun o st =>
              match o with
              | None => ended R service_time sim_time st
              | Some e => failure R arrival_rate service_time e
              end)
           within_step fuel (armed R g sim_time random_seed) o st);
    [|exact Hr].
  apply within_armed. exact Ht.
Qed.

Lemma within_reachable (g : generator R) (random_seed : Z) (st : state R) :
  0 < sim_time ->
  reachable R n_servers arrival_rate service_time verbose g sim_time
    random_seed st ->
  within_horizon st.
Proof.
  intros Ht [n Hn].
  apply (advance_running R n_servers arrival_rate service_time verbose
           within_horizon) with (n := n)
           (st := armed R g sim_time random_seed);
    [|apply within_armed; exact Ht|exact Hn].
  intros s s' Hs E. pose proof (within_step s Hs) as W.
  rewrite E in W. exact W.
Qed.

End Doomed.

Lemma mean_bounds (lo hi : Q) (l : list Q) :
  l <> [] -> Forall (fun x => lo <= x /\ x <= hi) l ->
  lo <= mean l /\ mean l <= hi.
Proof.
  intros Ne F. unfold mean.
  pose proof (length_pos_Q l Ne) as P.
  set (n := inject_Z (Z.of_nat (length l))) in *.
  assert (S0 : lo * n <= Qsum l /\ Qsum l <= hi * n).
  { unfold n. clear Ne P n. induction F as [|x l [A B] F [IH1 IH2]].
    - unfold Qsum. cbn [length Z.of_nat fold_right].
      change (inject_Z 0) with 0. split; lra.
    - cbn [length]. rewrite Nat2Z.inj_succ. unfold Z.succ.
      rewrite inject_Z_plus. change (inject_Z 1) with 1.
      change (Qsum (x :: l)) with (x + Qsum l).
      set (m := inject_Z (Z.of_nat (length l))) in *. split; lra. }
  destruct S0 as [S1 S2]. split.
  - apply Qle_shift_div_l; [exact P|exact S1].
  - apply Qle_shift_div_r; [exact P|exact S2].
Qed.



(** X12.  A call fails only for a reason: when [run_simulation] raises,
    the exception is a [ValueError] and [n_servers < 1], or
    [sim_time <= 0], or [service_time < 0], or some inter-arrival delay
    came out negative; or it is a [ZeroDivisionError] and
    [arrival_rate] is 0.  In particular the event queue never runs
    empty (no [RuntimeError]), and a call with at least one server, a
    positive [sim_time] and [arrival_rate], a non-negative
    [service_time] and non-negative draws does not raise. *)
Theorem failures_have_a_cause :
  forall (R : Random) (fuel : nat) (g : generator R) (n_servers : Z)
    (arrival_rate service_time sim_time : Q) (random_seed : Z)
    (verbose : bool) (c : call R) (e : exn),
  run_simulation R fuel g n_servers arrival_rate service_time sim_time
    random_seed verbose = Some c ->
  value R c = Raise e ->
  (e = ValueError /\
   ((n_servers <= 0)%Z \/ sim_time <= 0 \/ service_time < 0 \/
    exists g' : generator R, fst (exp_draw R g') / arrival_rate < 0)) \/
  (e = ZeroDivisionError /\ arrival_rate == 0).
Proof.
  intros R fuel g n_servers arrival_rate service_time sim_time random_seed
    verbose c e H V. unfold run_simulation in H.
  destruct (n_servers <=? 0)%Z eqn:N.
  { inversion H; subst c. cbn [value] in V. inversion V; subst e.
    left. split; [reflexivity|]. left. apply Z.leb_le. exact N. }
  destruct (Qle_bool sim_time
              (now R (schedule R Initialize_generator URGENT 0
                        (fresh R g random_seed)))) eqn:L.
  { inversion H; subst c. cbn [value] in V. inversion V; subst e.
    left. split; [reflexivity|]. right. left.
    apply Qle_bool_iff in L. exact L. }
  assert (Ht : 0 < sim_time).
  { apply Qnot_le_lt. intro F.
    assert (L' : Qle_bool sim_time
                   (now R (schedule R Initialize_generator URGENT 0
                             (fresh R g random_seed))) = true)
      by (apply Qle_bool_iff; exact F).
    congruence. }
  change (schedule R Until URGENT
            (sim_time - now R (schedule R Initialize_generator URGENT 0
                                 (fresh R g random_seed)))
            (schedule R Initialize_generator URGENT 0 (fresh R g random_seed)))
    with (armed R g sim_time random_seed) in H.
  destruct (run R n_servers arrival_rate service_time verbose fuel
              (armed R g sim_time random_seed)) as [[o st]|] eqn:Hr;
    [|discriminate H].
  inversion H; subst c. clear H.
  destruct o as [e'|]; cbn [finish value] in V; [|discriminate V].
  inversion V; subst e'. clear V.
  pose proof (within_run R n_servers arrival_rate service_time verbose
                sim_time g random_seed fuel (Some e) st Ht Hr) as F.
  destruct F as [[E Z0]|[E [Ng|Dr]]].
  - right. split; assumption.
  - left. split; [exact E|]. right. right. left. exact Ng.
  - left. split; [exact E|]. right. right. right. exact Dr.
Qed.

Lemma failures_have_a_cause_witness :
  exists c : call Tabulated.tabulated,
    run_simulation Tabulated.tabulated 40 (0%Z, O) 1 0 3 5 42 false = Some c /\
    value Tabulated.tabulated c = Raise ZeroDivisionError /\
    ((ZeroDivisionError = ValueError /\
      ((1 <= 0)%Z \/ 5 <= 0 \/ 3 < 0 \/
       exists g' : generator Tabulated.tabulated,
         fst (exp_draw Tabulated.tabulated g') / 0 < 0)) \/
     (ZeroDivisionError = ZeroDivisionError /\ 0 == 0)).
Proof.
  destruct (run_simulation Tabulated.tabulated 40 (0%Z, O) 1 0 3 5 42 false)
    as [c|] eqn:E; [|vm_compute in E; discriminate E].
  assert (V : value Tabulated.tabulated c = Raise ZeroDivisionError)
    by (vm_compute in E; inversion E; reflexivity).
  exists c. split; [reflexivity|]. split; [exact V|].
  exact (failures_have_a_cause Tabulated.tabulated 40 (0%Z, O) 1 0 3 5 42
           false c ZeroDivisionError E V).
Defined.

(** X13.  With a negative [service_time] nobody is ever served: a call
    that returns returns [total_customers = 0] with both averages null,
    and it returns only if no customer's service began before
    [sim_time] (the timeout of a service raises [ValueError] in the
    customer's process as soon as the service begins). *)
Theorem negative_service_time_serves_nobody :
  forall (R : Random) (fuel : nat) (g : generator R) (n_servers : Z)
    (arrival_rate service_time sim_time : Q) (random_seed : Z)
    (verbose : bool) (c : call R) (r : result),
  service_time < 0 ->
  run_simulation R fuel g n_servers arrival_rate service_time sim_time
    random_seed verbose = Some c ->
  value R c = Return r ->
  r = mkResult 0 None None.
Proof.
  intros R fuel g n_servers arrival_rate service_time sim_time random_seed
    verbose c r Ng H V.
  destruct (run_simulation_Return R n_servers arrival_rate service_time
              verbose fuel g sim_time random_seed c r H V)
    as (Ht & _ & st & Hrun & -> & _).
  destruct (sound_run R n_servers arrival_rate service_time verbose g
              sim_time random_seed fuel None st Ht Hrun)
    as (_ & [C1 C2] & _).
  pose proof (within_run R n_servers arrival_rate service_time verbose
                sim_time g random_seed fuel None st Ht Hrun)
    as (_ & _ & _ & W).
  specialize (W Ng). unfold summary. rewrite W in *. cbn [length] in C2.
  assert (Z0 : customers_served R st = O) by lia.
  rewrite Z0 in *. destruct (system_times R st); [reflexivity|discriminate C1].
Qed.

Lemma negative_service_time_serves_nobody_witness :
  exists c : call Tabulated.tabulated,
    (-3) < 0 /\
    run_simulation Tabulated.tabulated 40 (0%Z, O) 1 1 (-3) 1 42 false
    = Some c /\
    value Tabulated.tabulated c = Return (mkResult 0 None None).
Proof.
  destruct (run_simulation Tabulated.tabulated 40 (0%Z, O) 1 1 (-3) 1 42
              false) as [c|] eqn:E; [|vm_compute in E; discriminate E].
  assert (N : (-3) < 0) by reflexivity.
  assert (V : exists r, value Tabulated.tabulated c = Return r).
  { vm_compute in E. inversion E. eexists. reflexivity. }
  destruct V as (r & V).
  exists c. split; [exact N|]. split; [reflexivity|].
  rewrite V. f_equal.
  exact (negative_service_time_serves_nobody Tabulated.tabulated 40 (0%Z, O)
           1 1 (-3) 1 42 false c r N E V).
Defined.
(** ** The trace of a verbose call *)

Lemma starts_of_app (l l' : list line) :
  starts_of (l ++ l') = starts_of l ++ starts_of l'.
Proof.
  induction l as [|x l IH]; cbn [app starts_of]; [reflexivity|].
  destruct x; rewrite IH; reflexivity.
Qed.

Lemma leaves_of_app (l l' : list line) :
  leaves_of (l ++ l') = leaves_of l ++ leaves_of l'.
Proof.
  induction l as [|x l IH]; cbn [app leaves_of]; [reflexivity|].
  destruct x; rewrite IH; reflexivity.
Qed.

Section Trace.

Variable R : Random.
Variable n_servers : Z.
Variable arrival_rate : Q.
Variable service_time : Q.
Variable verbose : bool.

Local Abbreviation traced1 := (traced R verbose).
Local Abbreviation kept st st' :=
  (stdout R st' = stdout R st /\ wait_times R st' = wait_times R st /\
   system_times R st' = system_times R st).

Lemma traced_kept (st st' : state R) : kept st st' -> traced1 st -> traced1 st'.
Proof.
  intros (E1 & E2 & E3). unfold traced. rewrite E1, E2, E3. auto.
Qed.

Lemma kept_trigger_put (st : state R) : kept st (trigger_put R n_servers st).
Proof.
  unfold trigger_put. destruct (put_queue R st) as [|[h a] rest];
    [repeat split|].
  destruct (Z.of_nat (length (users R st)) <? n_servers)%Z; repeat split.
Qed.

Lemma kept_release (st : state R) (i : nat) : kept st (release R i st).
Proof. repeat split. Qed.

Lemma kept_generator_wait (st : state R) (i : nat) :
  kept st (generator_wait R arrival_rate i st).
Proof.
  unfold generator_wait. destruct (exp_draw R (random_state R st)) as [e g].
  destruct (Qeq_bool arrival_rate 0); [repeat split|].
  destruct (Qltb (e / arrival_rate) 0); repeat split.
Qed.

Lemma kept_generator_arrival (st : state R) (i : nat) :
  kept st (generator_arrival R arrival_rate i st).
Proof.
  unfold generator_arrival.
  destruct (kept_generator_wait
              (schedule R (Initialize_customer i) URGENT 0 st) (S i))
    as (E1 & E2 & E3).
  rewrite E1, E2, E3. repeat split.
Qed.

Lemma traced_customer_arrive (st : state R) (i : nat) :
  traced1 st -> traced1 (customer_arrive R n_servers verbose i st).
Proof.
  intro T. unfold customer_arrive, request.
  apply (traced_kept _ _ (kept_trigger_put _)).
  unfold traced, print_if_verbose in *.
  destruct verbose; cbn [set_resource print stdout wait_times system_times].
  - rewrite starts_of_app, leaves_of_app. cbn [starts_of leaves_of].
    rewrite !app_nil_r. exact T.
  - exact T.
Qed.

Lemma traced_customer_start (st : state R) (i : nat) (a : Q) :
  traced1 st -> traced1 (customer_start R service_time verbose i a st).
Proof.
  intro T. unfold customer_start.
  assert (K : traced1
                (print_if_verbose R verbose
                   (Starts i (now R st) (now R st - a))
                   (append_wait R (now R st - a) st))).
  { unfold traced, print_if_verbose in *.
    destruct verbose; cbn [print append_wait stdout wait_times system_times].
    - rewrite starts_of_app, leaves_of_app. cbn [starts_of leaves_of].
      destruct T as [T1 T2]. rewrite T1, T2, app_nil_r. split; reflexivity.
    - exact T. }
  destruct (Qltb service_time 0).
  - eapply traced_kept; [|exact K]. repeat split.
  - eapply traced_kept; [|exact K]. repeat split.
Qed.

Lemma traced_customer_leave (st : state R) (i : nat) (a : Q) :
  traced1 st -> traced1 (customer_leave R verbose i a st).
Proof.
  intro T. unfold customer_leave.
  assert (K : traced1
                (print_if_verbose R verbose
                   (Leaves i (now R st) (now R st - a))
                   (incr_served R (append_system R (now R st - a) st)))).
  { unfold traced, print_if_verbose in *.
    destruct verbose;
      cbn [print incr_served append_system stdout wait_times system_times].
    - rewrite starts_of_app, leaves_of_app. cbn [starts_of leaves_of].
      destruct T as [T1 T2]. rewrite T1, T2, app_nil_r. split; reflexivity.
    - exact T. }
  eapply traced_kept; [|exact K]. repeat split.
Qed.

Lemma traced_step (st : state R) :
  traced1 st ->
  traced1 (after R (step R n_servers arrival_rate service_time verbose st)).
Proof.
  intro T. unfold step.
  destruct (heappop (queue R st)) as [[x r]|]; [|exact T].
  assert (P : traced1 (set_clock R (e_time x) r st)).
  { eapply traced_kept; [|exact T]. repeat split. }
  destruct (e_event x); cbn [dispatch after].
  - apply (traced_kept _ _ (kept_generator_wait _ _)). exact P.
  - apply traced_customer_arrive. exact P.
  - apply (traced_kept _ _ (kept_generator_arrival _ _)). exact P.
  - apply traced_customer_start. exact P.
  - apply traced_customer_leave. exact P.
  - apply (traced_kept _ _ (kept_trigger_put _)). exact P.
  - exact P.
  - exact P.
  - exact P.
Qed.

Lemma traced_run (g : generator R) (sim_time : Q) (random_seed : Z)
    (fuel : nat) (o : option exn) (st : state R) :
  run R n_servers arrival_rate service_time verbose fuel
    (armed R g sim_time random_seed) = Some (o, st) ->
  traced1 st.
Proof.
  intro Hr.
  apply (run_invariant R n_servers arrival_rate service_time verbose
           traced1 traced_step fuel (armed R g sim_time random_seed) o st);
    [|exact Hr].
  unfold traced. destruct verbose; [split|]; reflexivity.
Qed.

End Trace.

(** What a call ends with, whichever way it ends. *)
Lemma run_simulation_ends (R : Random) (fuel : nat) (g : generator R)
    (n_servers : Z) (arrival_rate service_time sim_time : Q)
    (random_seed : Z) (verbose : bool) (c : call R) :
  run_simulation R fuel g n_servers arrival_rate service_time sim_time
    random_seed verbose = Some c ->
  (printed R c = [] /\ exists e, value R c = Raise e) \/
  exists o st,
    0 < sim_time /\
    run R n_servers arrival_rate service_time verbose fuel
      (armed R g sim_time random_seed) = Some (o, st) /\
    c = finish R o st.
Proof.
  unfold run_simulation. intro H.
  destruct (n_servers <=? 0)%Z.
  { inversion H; subst c. left. split; [reflexivity|].
    exists ValueError. reflexivity. }
  destruct (Qle_bool sim_time
              (now R (schedule R Initialize_generator URGENT 0
                        (fresh R g random_seed)))) eqn:L.
  { inversion H; subst c. left. split; [reflexivity|].
    exists ValueError. reflexivity. }
  assert (Ht : 0 < sim_time).
  { apply Qnot_le_lt. intro F.
    assert (L' : Qle_bool sim_time
                   (now R (schedule R Initialize_generator URGENT 0
                             (fresh R g random_seed))) = true)
      by (apply Qle_bool_iff; exact F).
    congruence. }
  change (schedule R Until URGENT
            (sim_time - now R (schedule R Initialize_generator URGENT 0
                                 (fresh R g random_seed)))
            (schedule R Initialize_generator URGENT 0 (fresh R g random_seed)))
    with (armed R g sim_time random_seed) in H.
  destruct (run R n_servers arrival_rate service_time verbose fuel
              (armed R g sim_time random_seed)) as [[o st]|] eqn:Hr;
    [|discriminate H].
  inversion H; subst c. right. exists o, st.
  split; [exact Ht|]. split; reflexivity.
Qed.

(** X14.  A call with [verbose=False] prints nothing, however it
    ends. *)
Theorem silent_without_verbose :
  forall (R : Random) (fuel : nat) (g : generator R) (n_servers : Z)
    (arrival_rate service_time sim_time : Q) (random_seed : Z)
    (c : call R),
  run_simulation R fuel g n_servers arrival_rate service_time sim_time
    random_seed false = Some c ->
  printed R c = [].
Proof.
  intros R fuel g n_servers arrival_rate service_time sim_time random_seed
    c H.
  destruct (run_simulation_ends R fuel g n_servers arrival_rate service_time
              sim_time random_seed false c H)
    as [[P _]|(o & st & _ & Hr & ->)]; [exact P|].
  pose proof (traced_run R n_servers arrival_rate service_time false g
                sim_time random_seed fuel o st Hr) as T.
  unfold traced in T. destruct o; exact T.
Qed.

Lemma silent_without_verbose_witness :
  exists c : call Tabulated.tabulated,
    run_simulation Tabulated.tabulated 40 (0%Z, O) 1 1 3 5 42 false = Some c /\
    printed Tabulated.tabulated c = [].
Proof.
  destruct (run_simulation Tabulated.tabulated 40 (0%Z, O) 1 1 3 5 42 false)
    as [c|] eqn:E; [|vm_compute in E; discriminate E].
  exists c. split; [reflexivity|].
  exact (silent_without_verbose Tabulated.tabulated 40 (0%Z, O) 1 1 3 5 42 c
           E).
Defined.

(** X15.  The dictionary a verbose call returns matches its trace:
    [total_customers] is the number of "leaves" lines,
    [avg_wait_time] is the rounded mean of the [wait_time] values that
    the "starts service" lines were printed from (null if there is no
    such line) and [avg_system_time] the rounded mean of the
    [system_time] values that the "leaves" lines were printed from
    (null if there is none).  The values are those handed to [print],
    before their rendering with [:.2f]. *)
Theorem trace_gives_the_statistics :
  forall (R : Random) (fuel : nat) (g : generator R) (n_servers : Z)
    (arrival_rate service_time sim_time : Q) (random_seed : Z)
    (c : call R) (r : result),
  run_simulation R fuel g n_servers arrival_rate service_time sim_time
    random_seed true = Some c ->
  value R c = Return r ->
  r = mkResult (length (leaves_of (printed R c)))
        (match starts_of (printed R c) with
         | [] => None
         | _ => Some (round2 (mean (starts_of (printed R c))))
         end)
        (match leaves_of (printed R c) with
         | [] => None
         | _ => Some (round2 (mean (leaves_of (printed R c))))
         end).
Proof.
  intros R fuel g n_servers arrival_rate service_time sim_time random_seed
    c r H V.
  destruct (run_simulation_Return R n_servers arrival_rate service_time
              true fuel g sim_time random_seed c r H V)
    as (Ht & _ & st & Hrun & -> & _ & Pr).
  destruct (sound_run R n_servers arrival_rate service_time true g
              sim_time random_seed fuel None st Ht Hrun)
    as (_ & [C1 _] & _).
  pose proof (traced_run R n_servers arrival_rate service_time true g
                sim_time random_seed fuel None st Hrun) as [T1 T2].
  rewrite Pr, T1, T2, C1. reflexivity.
Qed.

Lemma trace_gives_the_statistics_witness :
  exists c : call Tabulated.tabulated,
    run_simulation Tabulated.tabulated 40 (0%Z, O) 1 1 3 5 42 true = Some c /\
    value Tabulated.tabulated c
    = Return (mkResult 1 (Some (149 # 100)) (Some (300 # 100))) /\
    length (leaves_of (printed Tabulated.tabulated c)) = 1%nat /\
    length (starts_of (printed Tabulated.tabulated c)) = 2%nat.
Proof.
  destruct (run_simulation Tabulated.tabulated 40 (0%Z, O) 1 1 3 5 42 true)
    as [c|] eqn:E; [|vm_compute in E; discriminate E].
  assert (V : value Tabulated.tabulated c
              = Return (mkResult 1 (Some (149 # 100)) (Some (300 # 100))))
    by (vm_compute in E; inversion E; reflexivity).
  assert (S2 : length (starts_of (printed Tabulated.tabulated c)) = 2%nat)
    by (vm_compute in E; inversion E; reflexivity).
  exists c. split; [reflexivity|]. split; [exact V|].
  split; [|exact S2].
  pose proof (trace_gives_the_statistics Tabulated.tabulated 40 (0%Z, O) 1 1
                3 5 42 c _ E V) as T.
  exact (eq_sym (f_equal total_customers T)).
Defined.
(** ** Capacity *)

Lemma wait_times_step (R : Random) (n_servers : Z)
    (arrival_rate service_time : Q) (verbose : bool) (st : state R)
    (x : entry) (r : list entry) :
  heappop (queue R st) = Some (x, r) ->
  wait_times R (after R (step R n_servers arrival_rate service_time verbose st))
  = match e_event x with
    | Request _ a => wait_times R st ++ [e_time x - a]
    | _ => wait_times R st
    end.
Proof.
  intro H. unfold step. rewrite H.
  destruct (e_event x) as [|i|i|i a|i a s w| | |e'|]; cbn [dispatch after].
  - apply (quiet_generator_wait R arrival_rate
             (set_clock R (e_time x) r st) 0).
  - apply (quiet_customer_arrive R n_servers verbose
             (set_clock R (e_time x) r st) i).
  - apply (quiet_generator_arrival R arrival_rate
             (set_clock R (e_time x) r st) i).
  - unfold customer_start, print_if_verbose.
    destruct verbose; destruct (Qltb service_time 0); reflexivity.
  - unfold customer_leave, print_if_verbose. destruct verbose; reflexivity.
  - apply (quiet_trigger_put R n_servers (set_clock R (e_time x) r st)).
  - reflexivity.
  - reflexivity.
  - reflexivity.
Qed.

Section Punctual.

Variable R : Random.
Variable n_servers : Z.
Variable arrival_rate : Q.
Variable service_time : Q.
Variable random_seed : Z.
Variable verbose : bool.
Variable sim_time : Q.

Hypothesis servers : (0 < n_servers)%Z.
Hypothesis service_nonneg : 0 <= service_time.
Hypothesis horizon_positive : 0 < sim_time.

Local Abbreviation fifo3 :=
  (fifo R n_servers arrival_rate service_time random_seed).
Local Abbreviation within3 := (within R arrival_rate service_time sim_time).
Local Abbreviation punctual3 :=
  (punctual R arrival_rate sim_time random_seed).
Local Abbreviation step3 :=
  (step R n_servers arrival_rate service_time verbose).
Local Abbreviation arrive3 := (arrive R arrival_rate random_seed).
Local Abbreviation C3 := (capacity n_servers).

Lemma punctual_step (st : state R) (gh : ghost) :
  fifo3 st gh -> sound R service_time st -> within3 st -> punctual3 st ->
  punctual3 (after R (step3 st)).
Proof.
  intros F Sd (_ & H & _) P.
  destruct (heappop (queue R st)) as [[x r]|] eqn:Hp.
  2:{ unfold step. rewrite Hp. exact P. }
  pose proof (popped_in_order R n_servers arrival_rate service_time
                random_seed service_nonneg st gh x r F Sd Hp) as Po.
  pose proof (h_entries _ _ _ _ _ H) as Ok. rewrite Forall_forall in Ok.
  assert (Ix : In x (queue R st))
    by (apply (heappop_In _ _ _ x Hp); left; reflexivity).
  destruct (Ok x Ix) as [_ Dx].
  intros k Hk.
  rewrite (wait_times_step R n_servers arrival_rate service_time verbose st
             x r Hp) in Hk.
  destruct (e_event x) as [|i|i|i a|i a s w| | |e'|]; try (apply P; exact Hk).
  rewrite length_app in Hk. cbn [length] in Hk.
  destruct (Nat.eq_dec k (length (wait_times R st))) as [E|Ne].
  - destruct Po as [Ei Ea]. subst k. rewrite <- Ei, <- Ea. exact Dx.
  - apply P. lia.
Qed.

(** What the loop of a call with valid arguments keeps while it
    runs. *)
Lemma disciplined_step (st : state R) :
  ((exists gh, fifo3 st gh) /\ sound R service_time st /\ within3 st /\
   punctual3 st) ->
  match step3 st with
  | Running _ st' =>
      (exists gh, fifo3 st' gh) /\ sound R service_time st' /\ within3 st' /\
      punctual3 st'
  | Stopped _ st' =>
      (exists gh, fifo3 st' gh) /\ sound R service_time st' /\
      ended R service_time sim_time st' /\ punctual3 st'
  | Raised _ e st' => True
  end.
Proof.
  intros ((gh & F) & Sd & W & P).
  pose proof (fifo_step R n_servers arrival_rate service_time random_seed
                servers service_nonneg verbose st
                (ex_intro _ gh F)) as F'.
  pose proof (sound_step R n_servers arrival_rate service_time verbose st Sd)
    as Sd'.
  pose proof (within_step R n_servers arrival_rate service_time verbose
                sim_time st W) as W'.
  pose proof (punctual_step st gh F Sd W P) as P'.
  destruct (step3 st) as [s|s|e s]; cbn [after] in *; [| |exact I];
    (split; [exact F'|split; [exact Sd'|split; [exact W'|exact P']]]).
Qed.

Lemma disciplined_run (g : generator R) (fuel : nat) (st : state R) :
  run R n_servers arrival_rate service_time verbose fuel
    (armed R g sim_time random_seed) = Some (None, st) ->
  (exists gh, fifo3 st gh) /\ sound R service_time st /\
  ended R service_time sim_time st /\ punctual3 st.
Proof.
  intro Hr.
  apply (run_ends R n_servers arrival_rate service_time verbose
           (fun s => (exists gh, fifo3 s gh) /\ sound R service_time s /\
                     within3 s /\ punctual3 s)
           (fun o s =>
              match o with
              | None =>
                  (exists gh, fifo3 s gh) /\ sound R service_time s /\
                  ended R service_time sim_time s /\ punctual3 s
              | Some _ => True
              end)
           disciplined_step fuel (armed R g sim_time random_seed) None st);
    [|exact Hr].
  split; [|split; [|split]].
  - exists (mkGhost 0 0 0 0 []). apply fifo_armed. exact horizon_positive.
  - apply sound_armed. exact horizon_positive.
  - apply within_armed. exact horizon_positive.
  - intros k Hk. cbn in Hk. lia.
Qed.

(** A request is granted no sooner than the services ahead of it on
    its server can have taken. *)
Lemma grant_lower (gh : ghost) :
  tally R n_servers arrival_rate service_time random_seed gh ->
  (forall j, (j < granted gh)%nat -> 0 <= arrive3 j) ->
  forall k, (k < granted gh)%nat ->
    inject_Z (Z.of_nat (k / C3)) * service_time <= grant gh k.
Proof.
  intros T A k.
  assert (Cp : (1 <= C3)%nat) by (unfold capacity; lia).
  induction k as [k IH] using lt_wf_ind. intro K.
  destruct (Nat.lt_ge_cases k C3) as [Lt|Ge].
  - rewrite (Nat.div_small k C3 Lt). change (inject_Z (Z.of_nat 0)) with 0.
    pose proof (t_grant_arrival _ _ _ _ _ _ T k K).
    pose proof (A k K). lra.
  - pose proof (t_grant_after _ _ _ _ _ _ T k Ge K) as Gf.
    pose proof (IH (k - C3)%nat ltac:(lia) ltac:(lia)) as I0.
    assert (D : (k / C3 = S ((k - C3) / C3))%nat).
    { replace k with ((k - C3) + 1 * C3)%nat at 1 by lia.
      rewrite Nat.div_add by lia. lia. }
    rewrite D, Nat2Z.inj_succ. unfold Z.succ. rewrite inject_Z_plus.
    change (inject_Z 1) with 1.
    set (m := inject_Z (Z.of_nat ((k - C3) / C3))) in *. lra.
Qed.

End Punctual.

(** X16.  Zero wait with idle capacity.  When a call returns (at least
    one server, non-negative [service_time]) and the customer number
    [n_servers + 1] would arrive at [sim_time] or later, so that no more
    than [n_servers] customers arrive within the horizon, then nobody
    has waited: [avg_wait_time] is 0 or null. *)
Theorem zero_wait_with_idle_capacity :
  forall (R : Random) (fuel : nat) (g : generator R) (n_servers : Z)
    (arrival_rate service_time sim_time : Q) (random_seed : Z)
    (verbose : bool) (c : call R) (r : result) (w : Q),
  0 <= service_time ->
  sim_time <= arrive R arrival_rate random_seed (capacity n_servers) ->
  run_simulation R fuel g n_servers arrival_rate service_time sim_time
    random_seed verbose = Some c ->
  value R c = Return r ->
  avg_wait_time r = Some w ->
  w == 0.
Proof.
  intros R fuel g n_servers arrival_rate service_time sim_time random_seed
    verbose c r w Hs Ha H V Ew.
  destruct (run_simulation_Return R n_servers arrival_rate service_time
              verbose fuel g sim_time random_seed c r H V)
    as (Ht & Hn & st & Hrun & -> & _).
  destruct (disciplined_run R n_servers arrival_rate service_time random_seed
              verbose sim_time Hn Hs Ht g fuel st Hrun)
    as ((gh & (T & _ & _ & _ & Rc) & _) & _ & _ & P).
  assert (Lw : (length (wait_times R st) <= capacity n_servers)%nat).
  { destruct (Nat.le_gt_cases (length (wait_times R st)) (capacity n_servers))
      as [L|G]; [exact L|].
    destruct (P _ G) as [_ F]. lra. }
  assert (Zw : Forall (fun x => 0 <= x /\ x <= 0) (wait_times R st)).
  { apply Forall_forall. intros x Ix.
    destruct (In_nth _ _ 0 Ix) as (k & Hk & <-).
    pose proof (proj1 (waits_recursion R n_servers arrival_rate service_time
                         random_seed (wait_times R st) gh T Rc k Hk)
                  ltac:(lia)) as Z0.
    rewrite Z0. split; lra. }
  unfold summary in Ew. cbn [avg_wait_time] in Ew.
  destruct (wait_times R st) as [|x l] eqn:E; [discriminate Ew|].
  inversion Ew; subst w. clear Ew.
  destruct (mean_bounds 0 0 (x :: l) ltac:(discriminate) Zw) as [M1 M2].
  pose proof (round2_monotone _ _ M1) as R1.
  pose proof (round2_monotone _ _ M2) as R2.
  assert (Z0 : round2 0 == 0) by reflexivity.
  rewrite Z0 in R1, R2. lra.
Qed.

Lemma zero_wait_with_idle_capacity_witness :
  exists c : call Tabulated.tabulated,
    0 <= 1 /\
    8 <= arrive Tabulated.tabulated (1 # 5) 42 (capacity 3) /\
    run_simulation Tabulated.tabulated 40 (0%Z, O) 3 (1 # 5) 1 8 42 false
    = Some c /\
    value Tabulated.tabulated c
    = Return (mkResult 3 (Some (0 # 100)) (Some (100 # 100))) /\
    (0 # 100) == 0.
Proof.
  destruct (run_simulation Tabulated.tabulated 40 (0%Z, O) 3 (1 # 5) 1 8 42
              false) as [c|] eqn:E; [|vm_compute in E; discriminate E].
  assert (V : value Tabulated.tabulated c
              = Return (mkResult 3 (Some (0 # 100)) (Some (100 # 100))))
    by (vm_compute in E; inversion E; reflexivity).
  assert (H1 : 0 <= 1) by (intro F; discriminate F).
  assert (H2 : 8 <= arrive Tabulated.tabulated (1 # 5) 42 (capacity 3))
    by (vm_compute; intro F; discriminate F).
  exists c. split; [exact H1|]. split; [exact H2|]. split; [reflexivity|].
  split; [exact V|].
  exact (zero_wait_with_idle_capacity Tabulated.tabulated 40 (0%Z, O) 3
           (1 # 5) 1 8 42 false c _ (0 # 100) H1 H2 E V eq_refl).
Defined.

(** X17.  Throughput is bounded by capacity.  When a call returns (at
    least one server, non-negative [service_time]), the customers
    served could all be served within the horizon by [n_servers]
    servers: [total_customers * service_time <= n_servers * sim_time]. *)
Theorem throughput_within_capacity :
  forall (R : Random) (fuel : nat) (g : generator R) (n_servers : Z)
    (arrival_rate service_time sim_time : Q) (random_seed : Z)
    (verbose : bool) (c : call R) (r : result),
  0 <= service_time ->
  run_simulation R fuel g n_servers arrival_rate service_time sim_time
    random_seed verbose = Some c ->
  value R c = Return r ->
  inject_Z (Z.of_nat (total_customers r)) * service_time
  <= inject_Z n_servers * sim_time.
Proof.
  intros R fuel g n_servers arrival_rate service_time sim_time random_seed
    verbose c r Hs H V.
  destruct (run_simulation_Return R n_servers arrival_rate service_time
              verbose fuel g sim_time random_seed c r H V)
    as (Ht & Hn & st & Hrun & -> & _).
  destruct (disciplined_run R n_servers arrival_rate service_time random_seed
              verbose sim_time Hn Hs Ht g fuel st Hrun)
    as ((gh & F) & [_ Ac] & (Nw & _) & P).
  destruct (served_departed R n_servers arrival_rate service_time
              random_seed Hs st gh F Ac) as [Sd Ls].
  destruct F as ((T & El & _) & _ & _).
  destruct (t_order _ _ _ _ _ _ T) as (O1 & O2 & O3 & O4).
  unfold summary. cbn [total_customers]. rewrite Sd.
  set (C := capacity n_servers).
  assert (Cp : (1 <= C)%nat) by (unfold C, capacity; lia).
  assert (Cz : inject_Z n_servers == inject_Z (Z.of_nat C)).
  { unfold C, capacity. rewrite Z2Nat.id by lia. reflexivity. }
  rewrite Cz.
  destruct (departed gh) as [|d] eqn:Ed.
  { change (inject_Z (Z.of_nat 0)) with 0.
    assert (0 <= inject_Z (Z.of_nat C)).
    { change 0 with (inject_Z 0). rewrite <- Zle_Qle. lia. }
    nra. }
  pose proof (e_departed _ _ _ El d ltac:(lia)) as Dp.
  assert (Gl : inject_Z (Z.of_nat (d / C)) * service_time <= grant gh d).
  { apply (grant_lower R n_servers arrival_rate service_time random_seed Hn
             gh T); [|lia].
    intros j Hj.
    destruct (Nat.lt_ge_cases j (started gh)) as [Lj|Gj].
    - apply P. rewrite Ls. exact Lj.
    - pose proof (t_arrive_mono _ _ _ _ _ _ T d j ltac:(lia) ltac:(lia)) as M.
      destruct (P d ltac:(lia)) as [P0 _]. lra. }
  assert (Dv : (S d <= C * (d / C + 1))%nat).
  { pose proof (Nat.mul_succ_div_gt d C ltac:(lia)). lia. }
  assert (Dq : inject_Z (Z.of_nat (S d))
               <= inject_Z (Z.of_nat C)
                  * (inject_Z (Z.of_nat (d / C)) + 1)).
  { change 1 with (inject_Z 1).
    rewrite <- inject_Z_plus, <- inject_Z_mult, <- Zle_Qle. lia. }
  set (a := inject_Z (Z.of_nat (S d))) in *.
  set (b := inject_Z (Z.of_nat C)) in *.
  set (m := inject_Z (Z.of_nat (d / C))) in *.
  assert (Bp : 0 <= b).
  { unfold b. change 0 with (inject_Z 0). rewrite <- Zle_Qle. lia. }
  assert (S1 : (m + 1) * service_time <= sim_time) by lra.
  assert (S2 : a * service_time <= b * (m + 1) * service_time).
  { apply Qmult_le_compat_r; assumption. }
  assert (S3 : b * ((m + 1) * service_time) <= b * sim_time).
  { rewrite !(Qmult_comm b). apply Qmult_le_compat_r; assumption. }
  rewrite <- Qmult_assoc in S2. lra.
Qed.

Lemma throughput_within_capacity_witness :
  exists c : call Tabulated.tabulated,
    0 <= 3 /\
    run_simulation Tabulated.tabulated 40 (0%Z, O) 1 1 3 5 42 false = Some c /\
    value Tabulated.tabulated c
    = Return (mkResult 1 (Some (149 # 100)) (Some (300 # 100))) /\
    inject_Z (Z.of_nat 1) * 3 <= inject_Z 1 * 5.
Proof.
  destruct (run_simulation Tabulated.tabulated 40 (0%Z, O) 1 1 3 5 42 false)
    as [c|] eqn:E; [|vm_compute in E; discriminate E].
  assert (V : value Tabulated.tabulated c
              = Return (mkResult 1 (Some (149 # 100)) (Some (300 # 100))))
    by (vm_compute in E; inversion E; reflexivity).
  assert (H1 : 0 <= 3) by (intro F; discriminate F).
  exists c. split; [exact H1|]. split; [reflexivity|]. split; [exact V|].
  exact (throughput_within_capacity Tabulated.tabulated 40 (0%Z, O) 1 1 3 5
           42 false c _ H1 E V).
Defined.
(** ** A call with valid arguments returns *)

Section Measure.

Variable R : Random.
Variable n_servers : Z.
Variable arrival_rate : Q.
Variable service_time : Q.
Variable verbose : bool.
Variable bound : nat.

Local Abbreviation weight1 := (weight bound).
Local Abbreviation potential1 := (potential R bound).
Local Abbreviation settled1 := (settled R bound).

Lemma settled_trans (d d' : nat) (st1 st2 st3 : state R) :
  settled1 d st1 st2 -> settled1 d' st2 st3 -> settled1 (d + d') st1 st3.
Proof.
  intros (l & Q1 & F1 & P1) (l' & Q2 & F2 & P2).
  exists (l ++ l'). split; [|split].
  - rewrite Q2, Q1, app_assoc. reflexivity.
  - apply Forall_app. split; assumption.
  - rewrite count_app. lia.
Qed.

Lemma settled_grow (d : nat) (st st' : state R) :
  queue R st' = queue R st ->
  (5 * length (put_queue R st') <= d + 5 * length (put_queue R st))%nat ->
  settled1 d st st'.
Proof.
  intros Q0 P0. exists []. rewrite Q0, app_nil_r.
  split; [reflexivity|]. split; [constructor|]. unfold count. cbn [map list_sum].
  exact P0.
Qed.

Lemma settled_schedule (st : state R) (ev : event) (priority : Z)
    (delay : Q) :
  (forall e, ev <> Process_failed e) ->
  settled1 (weight1 (mkEntry (now R st + delay) priority (eid R st) ev))
    st (schedule R ev priority delay st).
Proof.
  intro Nf. eexists. split; [reflexivity|]. split.
  - constructor; [|constructor]. intro e. cbn [e_event]. apply Nf.
  - rewrite count_single. cbn [schedule put_queue]. lia.
Qed.

Lemma settled_trigger_put (st : state R) :
  settled1 0 st (trigger_put R n_servers st).
Proof.
  unfold trigger_put.
  destruct (put_queue R st) as [|[h a] rest] eqn:E;
    [apply settled_grow; [reflexivity|lia]|].
  destruct (Z.of_nat (length (users R st)) <? n_servers)%Z;
    [|apply settled_grow; [reflexivity|lia]].
  eexists. split; [reflexivity|]. split.
  - constructor; [|constructor]. intro e. discriminate.
  - rewrite count_single. cbn [schedule set_resource put_queue weight e_event].
    rewrite E. cbn [length]. lia.
Qed.

Lemma settled_release (st : state R) (i : nat) :
  settled1 1 st (release R i st).
Proof.
  eexists. split; [reflexivity|]. split.
  - constructor; [|constructor]. intro e. discriminate.
  - rewrite count_single. unfold release.
    cbn [schedule set_resource put_queue weight e_event]. lia.
Qed.

Lemma settled_customer_arrive (st : state R) (i : nat) :
  settled1 5 st (customer_arrive R n_servers verbose i st).
Proof.
  unfold customer_arrive, request.
  refine (settled_trans 5 0 st _ _ _ (settled_trigger_put _)).
  unfold print_if_verbose.
  destruct verbose; (apply settled_grow; [reflexivity|]);
    cbn [set_resource print put_queue]; rewrite length_app; cbn [length]; lia.
Qed.

Lemma settled_customer_start (st : state R) (i : nat) (a : Q) :
  0 <= service_time ->
  settled1 3 st (customer_start R service_time verbose i a st).
Proof.
  intro Hs. unfold customer_start.
  rewrite (proj2 (Qltb_false _ _) Hs).
  apply (settled_trans 0 3 st
           (print_if_verbose R verbose (Starts i (now R st) (now R st - a))
              (append_wait R (now R st - a) st))).
  - unfold print_if_verbose.
    destruct verbose; (apply settled_grow; [reflexivity|cbn; lia]).
  - apply (settled_schedule _ (Timeout_service i a (now R st) (now R st - a))).
    intro e. discriminate.
Qed.

Lemma settled_customer_leave (st : state R) (i : nat) (a : Q) :
  settled1 2 st (customer_leave R verbose i a st).
Proof.
  unfold customer_leave.
  set (st1 := print_if_verbose R verbose
                (Leaves i (now R st) (now R st - a))
                (incr_served R (append_system R (now R st - a) st))).
  assert (S1 : settled1 0 st st1).
  { unfold st1, print_if_verbose.
    destruct verbose; (apply settled_grow; [reflexivity|cbn; lia]). }
  pose proof (settled_release st1 i) as S2.
  pose proof (settled_schedule (release R i st1) Process_ok NORMAL 0
                ltac:(intro e; discriminate)) as S3.
  cbn [weight e_event] in S3.
  pose proof (settled_trans _ _ _ _ _ (settled_trans _ _ _ _ _ S1 S2) S3) as S4.
  exact S4.
Qed.

Lemma settled_generator_wait (st : state R) (i : nat) :
  Qeq_bool arrival_rate 0 = false ->
  0 <= fst (exp_draw R (random_state R st)) / arrival_rate ->
  settled1 (7 * (bound - i)) st (generator_wait R arrival_rate i st).
Proof.
  intros Nz Dl. unfold generator_wait.
  destruct (exp_draw R (random_state R st)) as [e g]. cbn [fst] in Dl.
  rewrite Nz.
  assert (Ng : Qltb (e / arrival_rate) 0 = false)
    by (apply Qltb_false; exact Dl).
  rewrite Ng.
  apply (settled_trans 0 (7 * (bound - i)) st (set_random R g st)).
  - apply settled_grow; [reflexivity|cbn; lia].
  - apply (settled_schedule _ (Timeout_generator i)). intro e0. discriminate.
Qed.

Lemma settled_generator_arrival (st : state R) (i : nat) :
  Qeq_bool arrival_rate 0 = false ->
  0 <= fst (exp_draw R (random_state R st)) / arrival_rate ->
  settled1 (6 + 7 * (bound - S i)) st
    (generator_arrival R arrival_rate i st).
Proof.
  intros Nz Dl. unfold generator_arrival.
  apply (settled_trans 6 (7 * (bound - S i)) st
           (schedule R (Initialize_customer i) URGENT 0 st)).
  - apply (settled_schedule _ (Initialize_customer i)). intro e. discriminate.
  - apply (settled_generator_wait _ _ Nz). exact Dl.
Qed.

Lemma potential_settled (d : nat) (st st' : state R) :
  settled1 d st st' ->
  (potential1 st' <= potential1 st + d)%nat /\
  (Forall (not_failed) (queue R st) -> Forall (not_failed) (queue R st')).
Proof.
  intros (l & Q0 & F & P). unfold potential. rewrite Q0, count_app.
  split; [lia|]. intro F0. apply Forall_app. split; assumption.
Qed.

Lemma potential_pop (st : state R) (x : entry) (r : list entry) :
  heappop (queue R st) = Some (x, r) ->
  (potential1 (set_clock R (e_time x) r st) + weight1 x)%nat = potential1 st /\
  (Forall (not_failed) (queue R st) ->
   not_failed x /\ Forall (not_failed) r).
Proof.
  intro H. unfold potential. cbn [set_clock queue put_queue].
  rewrite (heappop_count_of weight1 _ _ _ H). split; [lia|].
  intro F. rewrite Forall_forall in F. split.
  - apply F. apply (heappop_In _ _ _ x H). left. reflexivity.
  - apply Forall_forall. intros y Iy. apply F.
    apply (heappop_In _ _ _ y H). right. exact Iy.
Qed.

End Measure.

Section Returns.

Variable R : Random.
Variable n_servers : Z.
Variable arrival_rate : Q.
Variable service_time : Q.
Variable random_seed : Z.
Variable verbose : bool.
Variable sim_time : Q.
Variable bound : nat.

Hypothesis servers : (0 < n_servers)%Z.
Hypothesis service_nonneg : 0 <= service_time.
Hypothesis horizon_positive : 0 < sim_time.
Hypothesis gaps : forall k, 0 <= gap R arrival_rate random_seed k.
Hypothesis bound_reached : sim_time <= arrive R arrival_rate random_seed bound.

Local Abbreviation step4 :=
  (step R n_servers arrival_rate service_time verbose).
Local Abbreviation potential4 := (potential R bound).
Local Abbreviation fifo4 :=
  (fifo R n_servers arrival_rate service_time random_seed).
Local Abbreviation within4 := (within R arrival_rate service_time sim_time).
Local Abbreviation working st :=
  ((exists gh, fifo4 st gh) /\ within4 st /\
   Forall not_failed (queue R st)).

Lemma arrive_monotone (i j : nat) :
  (i <= j)%nat ->
  arrive R arrival_rate random_seed i <= arrive R arrival_rate random_seed j.
Proof.
  induction 1 as [|j L IH]; [lra|].
  cbn [arrive]. pose proof (gaps (S j)). lra.
Qed.

Lemma rate_not_zero : Qeq_bool arrival_rate 0 = false.
Proof.
  destruct (Qeq_bool arrival_rate 0) eqn:Z0; [|reflexivity].
  apply Qeq_bool_iff in Z0. exfalso.
  assert (G0 : forall k, gap R arrival_rate random_seed k == 0).
  { intro k. unfold gap. rewrite Z0. unfold Qdiv. change (/ 0) with 0. ring. }
  assert (A0 : forall k, arrive R arrival_rate random_seed k == 0).
  { induction k as [|k IH]; cbn [arrive].
    - rewrite (G0 O). ring.
    - rewrite IH, (G0 (S k)). ring. }
  pose proof (A0 bound). lra.
Qed.

(** A step of the running loop uses up potential. *)
Lemma progress (st : state R) :
  working st ->
  match step4 st with
  | Running _ st' => working st' /\ (potential4 st' < potential4 st)%nat
  | Stopped _ _ => True
  | Raised _ _ _ => False
  end.
Proof.
  intros ((gh & F) & W & Nf).
  pose proof (fifo_step R n_servers arrival_rate service_time random_seed
                servers service_nonneg verbose st (ex_intro _ gh F)) as F'.
  pose proof (within_step R n_servers arrival_rate service_time verbose
                sim_time st W) as W'.
  destruct W as (Tm & H & _).
  destruct F as ((_ & _ & P & _) & _).
  unfold step in *.
  destruct (heappop (queue R st)) as [[x r]|] eqn:Hp.
  2:{ apply heappop_None in Hp. pose proof (h_until _ _ _ _ _ H) as U.
      rewrite Hp in U. destruct U. }
  destruct (pop_data R arrival_rate service_time random_seed _ _ _ _ gh x r
              P Hp) as (Dx & _).
  destruct (potential_pop R bound st x r Hp) as [Pp Pn].
  destruct (Pn Nf) as [Nx Nr].
  destruct (pop_before_until sim_time (queue R st) x r
              (h_until _ _ _ _ _ H) Hp) as (T1 & T2 & _).
  unfold entry_data in Dx.
  assert (Fin : forall d st',
            settled R bound d (set_clock R (e_time x) r st) st' ->
            (d < weight bound x)%nat ->
            Forall not_failed (queue R st') /\
            (potential4 st' < potential4 st)%nat).
  { intros d st' S0 Ld.
    destruct (potential_settled R bound d _ _ S0) as [S1 S2].
    split; [apply S2; exact Nr|lia]. }
  revert F' W'.
  destruct (e_event x) as [|i|i|i a|i a s w| | |e'|] eqn:Ev;
    cbn [dispatch after]; intros F' W'.
  - destruct Dx as (_ & Eg & _).
    destruct (Fin (7 * (bound - 0))%nat
                (generator_wait R arrival_rate 0
                   (set_clock R (e_time x) r st))) as [N' L'].
    + apply (settled_generator_wait R arrival_rate bound _ _ rate_not_zero).
      cbn [set_clock random_state]. rewrite Eg. apply (gaps O).
    + unfold weight. rewrite Ev. lia.
    + split; [|exact L']. split; [exact F'|split; [exact W'|exact N']].
  - destruct (Fin 5%nat
                (customer_arrive R n_servers verbose i
                   (set_clock R (e_time x) r st))) as [N' L'].
    + apply settled_customer_arrive.
    + unfold weight. rewrite Ev. lia.
    + split; [|exact L']. split; [exact F'|split; [exact W'|exact N']].
  - destruct Dx as (_ & Et & Eg & _).
    assert (Kb : (i < bound)%nat).
    { assert (Ix : In x (queue R st))
        by (apply (heappop_In _ _ _ x Hp); left; reflexivity).
      pose proof (proj1 (Forall_forall _ _) (h_entries _ _ _ _ _ H) x Ix)
        as [Px _].
      rewrite Ev in Px. cbn [prio_of] in Px. specialize (T2 Px).
      destruct (le_lt_dec bound i) as [G|L]; [|exact L]. exfalso.
      pose proof (arrive_monotone bound i G). lra. }
    destruct (Fin (6 + 7 * (bound - S i))%nat
                (generator_arrival R arrival_rate i
                   (set_clock R (e_time x) r st))) as [N' L'].
    + apply (settled_generator_arrival R arrival_rate bound _ _
               rate_not_zero).
      cbn [set_clock random_state]. rewrite Eg. apply (gaps (S i)).
    + unfold weight. rewrite Ev. lia.
    + split; [|exact L']. split; [exact F'|split; [exact W'|exact N']].
  - destruct (Fin 3%nat
                (customer_start R service_time verbose i a
                   (set_clock R (e_time x) r st))) as [N' L'].
    + apply settled_customer_start. exact service_nonneg.
    + unfold weight. rewrite Ev. lia.
    + split; [|exact L']. split; [exact F'|split; [exact W'|exact N']].
  - destruct (Fin 2%nat
                (customer_leave R verbose i a
                   (set_clock R (e_time x) r st))) as [N' L'].
    + apply settled_customer_leave.
    + unfold weight. rewrite Ev. lia.
    + split; [|exact L']. split; [exact F'|split; [exact W'|exact N']].
  - destruct (Fin 0%nat
                (trigger_put R n_servers (set_clock R (e_time x) r st)))
      as [N' L'].
    + apply settled_trigger_put.
    + unfold weight. rewrite Ev. lia.
    + split; [|exact L']. split; [exact F'|split; [exact W'|exact N']].
  - destruct (Fin 0%nat (set_clock R (e_time x) r st)) as [N' L'].
    + apply settled_grow; [reflexivity|lia].
    + unfold weight. rewrite Ev. lia.
    + split; [|exact L']. split; [exact F'|split; [exact W'|exact N']].
  - apply (Nx e'). exact Ev.
  - exact I.
Qed.

(** So the loop stops, at the event that ends it. *)
Lemma run_stops (fuel : nat) :
  forall st, working st -> (potential4 st < fuel)%nat ->
  exists st',
    run R n_servers arrival_rate service_time verbose fuel st
    = Some (None, st').
Proof.
  induction fuel as [|fuel IH]; intros st Wk Lt; [lia|].
  pose proof (progress st Wk) as Pg. cbn [run].
  destruct (step4 st) as [s|s|e s].
  - destruct Pg as [Wk' L']. apply IH; [exact Wk'|lia].
  - exists s. reflexivity.
  - destruct Pg.
Qed.

Lemma working_armed (g : generator R) :
  working (armed R g sim_time random_seed).
Proof.
  split; [|split].
  - exists (mkGhost 0 0 0 0 []). apply fifo_armed. exact horizon_positive.
  - apply within_armed. exact horizon_positive.
  - cbn [armed fresh schedule set_random queue app].
    constructor; [intro e; discriminate|].
    constructor; [intro e; discriminate|constructor].
Qed.

Lemma potential_armed (g : generator R) :
  potential4 (armed R g sim_time random_seed) = (7 * bound + 1)%nat.
Proof.
  unfold potential, count, list_sum, armed, weight.
  cbn [fresh schedule set_random queue put_queue app map fold_right
       length e_event].
  lia.
Qed.

Lemma run_simulation_returns (g : generator R) (fuel : nat) :
  (7 * bound + 2 <= fuel)%nat ->
  exists (c : call R) (r : result),
    run_simulation R fuel g n_servers arrival_rate service_time sim_time
      random_seed verbose = Some c /\
    value R c = Return r.
Proof.
  intro Lf.
  destruct (run_stops fuel (armed R g sim_time random_seed) (working_armed g))
    as (st & Hr); [rewrite potential_armed; lia|].
  unfold run_simulation.
  assert (N : (n_servers <=? 0)%Z = false) by (apply Z.leb_gt; exact servers).
  rewrite N.
  assert (L : Qle_bool sim_time
                (now R (schedule R Initialize_generator URGENT 0
                          (fresh R g random_seed))) = false).
  { destruct (Qle_bool sim_time _) eqn:E; [|reflexivity].
    apply Qle_bool_iff in E. cbn in E. lra. }
  rewrite L.
  change (schedule R Until URGENT
            (sim_time - now R (schedule R Initialize_generator URGENT 0
                                 (fresh R g random_seed)))
            (schedule R Initialize_generator URGENT 0 (fresh R g random_seed)))
    with (armed R g sim_time random_seed).
  rewrite Hr. eexists. eexists. split; reflexivity.
Qed.

End Returns.

Lemma tabulated_drawn (s : Z) (k : nat) :
  drawn Tabulated.tabulated k (s, O) = (s, k).
Proof.
  induction k as [|k IH]; [reflexivity|].
  cbn [drawn]. rewrite IH. reflexivity.
Qed.

Lemma nth_nonneg (l : list Q) (k : nat) :
  Forall (fun q => 0 <= q) l -> 0 <= nth k l 1.
Proof.
  intro F. destruct (Nat.lt_ge_cases k (length l)) as [Lt|Ge].
  - apply (proj1 (Forall_forall _ _) F). apply nth_In. exact Lt.
  - rewrite nth_overflow by exact Ge. lra.
Qed.

(** The tabulated draws are not negative. *)
Lemma tabulated_gap_nonneg (k : nat) :
  0 <= gap Tabulated.tabulated 1 42 k.
Proof.
  unfold gap. change (seed Tabulated.tabulated 42) with (42%Z, O).
  rewrite tabulated_drawn.
  change (fst (exp_draw Tabulated.tabulated (42%Z, k)))
    with (nth k Tabulated.draws_42 1).
  assert (N : 0 <= nth k Tabulated.draws_42 1).
  { apply nth_nonneg. unfold Tabulated.draws_42.
    repeat (constructor; [intro F; discriminate F|]). constructor. }
  unfold Qdiv. change (/ 1) with 1. lra.
Qed.



(** ** The work-order endpoints *)

Lemma rint_Qeq (x y : Q) : x == y -> rint x = rint y.
Proof.
  intro E. apply Z.le_antisymm; apply rint_monotone; rewrite E; lra.
Qed.

Lemma rint_inject_Z (z : Z) : rint (inject_Z z) = z.
Proof.
  unfold rint. rewrite Qfloor_Z.
  destruct (Qcompare_spec (inject_Z z - inject_Z z) (1 # 2)) as [C|C|C];
    [exfalso; lra|reflexivity|exfalso; lra].
Qed.

Section Endpoints.

Import Stdlib.Strings.String.
Import Server.

Variable R : Random.
Variable L : Random_lines R.
Variable hash : String.string -> Z.
Variable strftime : Z -> String.string.

Local Abbreviation details_loop' := (details_loop R L strftime).
Local Abbreviation configs_loop' := (configs_loop R L).
Local Abbreviation details :=
  (get_workorder_details R L hash strftime).
Local Abbreviation configuration :=
  (get_workorder_configuration R L hash).

Lemma round1_monotone (x y : Q) : x <= y -> round1 x <= round1 y.
Proof.
  intro H. unfold round1.
  assert (M : (rint (x * 10) <= rint (y * 10))%Z).
  { apply rint_monotone. lra. }
  rewrite Zle_Qle in M.
  set (a := inject_Z (rint (x * 10))) in *.
  set (b := inject_Z (rint (y * 10))) in *.
  assert (Ea : a / 10 == a * (1 # 10)) by (unfold Qdiv; reflexivity).
  assert (Eb : b / 10 == b * (1 # 10)) by (unfold Qdiv; reflexivity).
  rewrite Ea, Eb. lra.
Qed.

(** A number of tenths is left alone by [round(x, 1)]. *)
Lemma round1_tenths (z : Z) (x : Q) :
  x == inject_Z z / 10 -> round1 x == x.
Proof.
  intro E. unfold round1.
  assert (Ex : x * 10 == inject_Z z) by (rewrite E; field).
  rewrite (rint_Qeq _ _ Ex), rint_inject_Z. rewrite E. reflexivity.
Qed.

Lemma sum_from (l : list Q) (a : Q) :
  fold_left Qplus l a == a + fold_left Qplus l 0.
Proof.
  revert a. induction l as [|x l IH]; intro a; cbn [fold_left].
  - lra.
  - rewrite (IH (a + x)), (IH (0 + x)). lra.
Qed.

Lemma sum_cons (x : Q) (l : list Q) : sum (x :: l) == x + sum l.
Proof.
  unfold sum. cbn [fold_left]. rewrite sum_from. lra.
Qed.

(** *** The two loops *)

Lemma details_loop_names (n : Z) (selected_lines : list String.string) :
  forall (i current_date : Z) (g : generator R),
    map ProductionLineDetail.line_name
      (fst (fst (details_loop' n i selected_lines current_date g)))
    = selected_lines.
Proof.
  induction selected_lines as [|x l IH]; intros i d g; cbn [details_loop].
  - reflexivity.
  - destruct (uniform L (1 # 2) 3 g) as [u g1].
    destruct (randint L 0 2 g1) as [k g2].
    specialize (IH (i + 1)%Z
                  (d + timedelta_days (round1 u)
                   + timedelta_days (inject_Z k))%Z g2).
    destruct (details_loop' n (i + 1)%Z l _ g2) as [[ds last] g3].
    cbn [fst map ProductionLineDetail.line_name] in *. rewrite IH.
    reflexivity.
Qed.

Lemma configs_loop_names (selected_lines : list String.string) :
  forall (total : Q) (g : generator R),
    map ProductionLineConfiguration.line_name
      (fst (fst (configs_loop' selected_lines total g)))
    = selected_lines.
Proof.
  induction selected_lines as [|x l IH]; intros total g; cbn [configs_loop].
  - reflexivity.
  - destruct (uniform L 1 4 g) as [u g1].
    destruct (randint L 50 200 g1) as [c g2].
    destruct (randint L 1 5 g2) as [p g3].
    specialize (IH (total + round1 u) g3).
    destruct (configs_loop' l (total + round1 u) g3) as [[cs t] g4].
    cbn [fst map ProductionLineConfiguration.line_name] in *. rewrite IH.
    reflexivity.
Qed.

(** The status of each line is decided by its position alone. *)
Lemma details_loop_status (n : Z) (selected_lines : list String.string) :
  forall (i current_date : Z) (g : generator R) (k : nat)
    (d : ProductionLineDetail.t),
    nth_error (fst (fst (details_loop' n i selected_lines current_date g))) k
    = Some d ->
    ProductionLineDetail.status d = line_status (i + Z.of_nat k) n.
Proof.
  induction selected_lines as [|x l IH]; intros i c g k d;
    cbn [details_loop].
  - cbn [fst]. destruct k; discriminate.
  - destruct (uniform L (1 # 2) 3 g) as [u g1].
    destruct (randint L 0 2 g1) as [j g2].
    specialize (IH (i + 1)%Z
                  (c + timedelta_days (round1 u)
                   + timedelta_days (inject_Z j))%Z g2).
    destruct (details_loop' n (i + 1)%Z l _ g2) as [[ds last] g3].
    cbn [fst] in *. destruct k as [|k]; cbn [nth_error].
    + intro E. inversion E; subst d. cbn [ProductionLineDetail.status].
      f_equal. lia.
    + intro E. rewrite (IH k d E). f_equal. lia.
Qed.

(** Every time spent is a number of tenths between 0.5 and 3.0. *)
Lemma details_loop_times (n : Z) (selected_lines : list String.string) :
  uniform_in_range R L ->
  forall (i current_date : Z) (g : generator R),
    Forall
      (fun d =>
         (1 # 2) <= ProductionLineDetail.time_spent_days d /\
         ProductionLineDetail.time_spent_days d <= 3 /\
         exists z : Z,
           ProductionLineDetail.time_spent_days d == inject_Z z / 10)
      (fst (fst (details_loop' n i selected_lines current_date g))).
Proof.
  intro U. induction selected_lines as [|x l IH]; intros i c g;
    cbn [details_loop].
  - constructor.
  - pose proof (U (1 # 2) 3 g ltac:(lra)) as [U1 U2].
    destruct (uniform L (1 # 2) 3 g) as [u g1]. cbn [fst] in U1, U2.
    destruct (randint L 0 2 g1) as [j g2].
    specialize (IH (i + 1)%Z
                  (c + timedelta_days (round1 u)
                   + timedelta_days (inject_Z j))%Z g2).
    destruct (details_loop' n (i + 1)%Z l _ g2) as [[ds last] g3].
    cbn [fst] in *. constructor; [|exact IH].
    cbn [ProductionLineDetail.time_spent_days].
    split; [|split].
    + assert (E : round1 (1 # 2) == 1 # 2) by reflexivity.
      rewrite <- E. apply round1_monotone. exact U1.
    + assert (E : round1 3 == 3) by reflexivity.
      rewrite <- E. apply round1_monotone. exact U2.
    + exists (rint (u * 10)). reflexivity.
Qed.

Lemma configs_loop_total (selected_lines : list String.string) :
  forall (total : Q) (g : generator R),
    snd (fst (configs_loop' selected_lines total g))
    == total
       + sum (map ProductionLineConfiguration.configured_time_days
                (fst (fst (configs_loop' selected_lines total g)))).
Proof.
  induction selected_lines as [|x l IH]; intros total g; cbn [configs_loop].
  - cbn [fst snd map]. unfold sum. cbn [fold_left]. lra.
  - destruct (uniform L 1 4 g) as [u g1].
    destruct (randint L 50 200 g1) as [c g2].
    destruct (randint L 1 5 g2) as [p g3].
    specialize (IH (total + round1 u) g3).
    destruct (configs_loop' l (total + round1 u) g3) as [[cs t] g4].
    cbn [fst snd map ProductionLineConfiguration.configured_time_days] in *.
    rewrite sum_cons, IH. lra.
Qed.

Lemma configs_loop_types (selected_lines : list String.string) :
  forall (total : Q) (g : generator R),
    Forall
      (fun c =>
         ProductionLineConfiguration.line_type c
         = dict_get line_types (ProductionLineConfiguration.line_name c)
             "General"%string)
      (fst (fst (configs_loop' selected_lines total g))).
Proof.
  induction selected_lines as [|x l IH]; intros total g; cbn [configs_loop].
  - constructor.
  - destruct (uniform L 1 4 g) as [u g1].
    destruct (randint L 50 200 g1) as [c g2].
    destruct (randint L 1 5 g2) as [p g3].
    specialize (IH (total + round1 u) g3).
    destruct (configs_loop' l (total + round1 u) g3) as [[cs t] g4].
    cbn [fst] in *. constructor; [reflexivity|exact IH].
Qed.

Lemma configs_loop_lines (selected_lines : list String.string) :
  uniform_in_range R L -> randint_in_range R L ->
  forall (total : Q) (g : generator R),
    Forall
      (fun c =>
         1 <= ProductionLineConfiguration.configured_time_days c /\
         ProductionLineConfiguration.configured_time_days c <= 4 /\
         (exists z : Z,
            ProductionLineConfiguration.configured_time_days c
            == inject_Z z / 10) /\
         (50 <= ProductionLineConfiguration.capacity_per_day c <= 200)%Z /\
         (1 <= ProductionLineConfiguration.priority c <= 5)%Z)
      (fst (fst (configs_loop' selected_lines total g))).
Proof.
  intros U I. induction selected_lines as [|x l IH]; intros total g;
    cbn [configs_loop].
  - constructor.
  - pose proof (U 1 4 g ltac:(lra)) as [U1 U2].
    destruct (uniform L 1 4 g) as [u g1]. cbn [fst] in U1, U2.
    pose proof (I 50 200 g1 ltac:(lia))%Z as I1.
    destruct (randint L 50 200 g1) as [c g2]. cbn [fst] in I1.
    pose proof (I 1 5 g2 ltac:(lia))%Z as I2.
    destruct (randint L 1 5 g2) as [p g3]. cbn [fst] in I2.
    specialize (IH (total + round1 u) g3).
    destruct (configs_loop' l (total + round1 u) g3) as [[cs t] g4].
    cbn [fst] in *. constructor; [|exact IH].
    cbn [ProductionLineConfiguration.configured_time_days
         ProductionLineConfiguration.capacity_per_day
         ProductionLineConfiguration.priority].
    split; [|split; [|split; [|split]]].
    + assert (E : round1 1 == 1) by reflexivity.
      rewrite <- E. apply round1_monotone. exact U1.
    + assert (E : round1 4 == 4) by reflexivity.
      rewrite <- E. apply round1_monotone. exact U2.
    + exists (rint (u * 10)). reflexivity.
    + exact I1.
    + exact I2.
Qed.

Lemma tenth (a : Q) : a / 10 == a * (1 # 10).
Proof. unfold Qdiv. reflexivity. Qed.

(** A sum of tenths between bounds. *)
Lemma sum_tenths (lo hi : Q) (l : list Q) :
  Forall (fun x => lo <= x /\ x <= hi /\ exists z : Z, x == inject_Z z / 10)
    l ->
  lo * inject_Z (Z.of_nat (List.length l)) <= sum l /\
  sum l <= hi * inject_Z (Z.of_nat (List.length l)) /\
  exists z : Z, sum l == inject_Z z / 10.
Proof.
  induction 1 as [|x l (A & B & z & Ez) F (IH1 & IH2 & s & Es)].
  - unfold sum. cbn [fold_left List.length Z.of_nat].
    change (inject_Z 0) with 0.
    split; [lra|]. split; [lra|]. exists 0%Z. reflexivity.
  - rewrite sum_cons. cbn [List.length]. rewrite Nat2Z.inj_succ.
    unfold Z.succ. rewrite inject_Z_plus.
    change (inject_Z 1) with 1.
    set (m := inject_Z (Z.of_nat (List.length l))) in *.
    split; [lra|]. split; [lra|].
    exists (z + s)%Z. rewrite inject_Z_plus.
    rewrite sum_cons, tenth. rewrite tenth in Ez, Es. lra.
Qed.

(** *** The lines selected *)

Lemma sample_selected (population : list String.string) (k : Z)
    (g : generator R) :
  sample_is_selection R L ->
  (0 <= k <= Z.of_nat (List.length population))%Z -> NoDup population ->
  exists l : list String.string,
    fst (sample R L population k g) = inr l /\
    Z.of_nat (List.length l) = k /\ incl l population /\ NoDup l.
Proof.
  intros S K N. unfold sample.
  destruct (Z.leb_spec 0 k); [|lia].
  destruct (Z.leb_spec k (Z.of_nat (List.length population))); [|lia].
  cbn [andb]. destruct (S population k g K) as (A & B & C).
  destruct (sample_draw L population k g) as [l g']. cbn [fst] in *.
  exists l. split; [reflexivity|]. split; [exact A|]. split; [exact B|].
  apply C. exact N.
Qed.

Lemma production_lines_NoDup : NoDup production_lines.
Proof.
  unfold production_lines.
  repeat (constructor;
          [cbn [In]; intro F;
           repeat (destruct F as [F|F]; [discriminate F|]); exact F|]).
  constructor.
Qed.

(** Every line of the catalogue has its type in the dictionary. *)
Lemma line_types_known (x : String.string) :
  In x production_lines ->
  In (x, dict_get line_types x "General"%string) line_types /\
  dict_get line_types x "General"%string <> "General"%string.
Proof.
  unfold production_lines. cbn [In]. intro H.
  repeat (destruct H as [<-|H];
          [split; [cbn; tauto|cbn; discriminate]|]).
  destruct H.
Qed.

(** What [get_workorder_details] answers, against the lines selected
    and the loop over them. *)
Lemma details_shape (clock clock' : Z) (w : String.string)
    (g0 : generator R) :
  randint_in_range R L -> sample_is_selection R L ->
  exists (sel : list String.string) (r : WorkorderResponse.t)
         (d : Z) (g : generator R),
    fst (details clock clock' w g0) = inr r /\
    (3 <= Z.of_nat (List.length sel) <= 5)%Z /\
    incl sel production_lines /\ NoDup sel /\
    WorkorderResponse.workorder_number r = w /\
    WorkorderResponse.production_lines r
    = fst (fst (details_loop' (Z.of_nat (List.length sel)) 0 sel d g)) /\
    WorkorderResponse.total_processing_time_days r
    = round1 (sum (map ProductionLineDetail.time_spent_days
                     (WorkorderResponse.production_lines r))) /\
    WorkorderResponse.current_status r
    = (if existsb
            (fun line =>
               String.eqb (ProductionLineDetail.status line) "In Progress")
            (WorkorderResponse.production_lines r)
       then "In Progress" else "Completed")%string.
Proof.
  intros I S. unfold get_workorder_details.
  pose proof (I 3 5 (seed R (hash w mod 1000)%Z) ltac:(lia))%Z as N.
  destruct (randint L 3 5 (seed R (hash w mod 1000)%Z)) as [n g].
  cbn [fst] in N.
  destruct (sample_selected production_lines n g S) as (sel & E & Ln & In & Nd).
  { cbn [production_lines List.length]. lia. }
  { apply production_lines_NoDup. }
  destruct (sample R L production_lines n g) as [[e|sel'] g1];
    cbn [fst] in E; [discriminate E|].
  inversion E; subst sel'. clear E.
  destruct (randint L 10 30 g1) as [back g2].
  exists sel.
  destruct (details_loop' (Z.of_nat (List.length sel)) 0 sel
              (clock - timedelta_days (inject_Z back))%Z g2)
    as [[ds last] g3] eqn:Dl.
  destruct (randint L 30 60 g3) as [cr g4]. cbn [fst].
  eexists. exists (clock - timedelta_days (inject_Z back))%Z, g2.
  split; [reflexivity|]. split; [lia|]. split; [exact In|].
  split; [exact Nd|].
  cbn [WorkorderResponse.workorder_number
       WorkorderResponse.production_lines
       WorkorderResponse.total_processing_time_days
       WorkorderResponse.current_status].
  rewrite Dl. cbn [fst]. repeat split; reflexivity.
Qed.

Lemma configuration_shape (w : String.string) (g0 : generator R) :
  randint_in_range R L -> sample_is_selection R L ->
  exists (sel : list String.string) (c : WorkorderConfigurationResponse.t)
         (g g' g'' : generator R),
    fst (configuration w g0) = inr c /\
    (3 <= Z.of_nat (List.length sel) <= 5)%Z /\
    incl sel production_lines /\ NoDup sel /\
    WorkorderConfigurationResponse.workorder_number c = w /\
    WorkorderConfigurationResponse.production_line_configs c
    = fst (fst (configs_loop' sel 0 g)) /\
    WorkorderConfigurationResponse.total_configured_time_days c
    = round1 (snd (fst (configs_loop' sel 0 g))) /\
    WorkorderConfigurationResponse.workorder_type c
    = fst (choice L workorder_types g') /\
    WorkorderConfigurationResponse.priority_level c
    = fst (choice L priority_levels g'').
Proof.
  intros I S. unfold get_workorder_configuration.
  pose proof (I 3 5 (seed R (hash w mod 1000)%Z) ltac:(lia))%Z as N.
  destruct (randint L 3 5 (seed R (hash w mod 1000)%Z)) as [n g].
  cbn [fst] in N.
  destruct (sample_selected production_lines n g S) as (sel & E & Ln & In & Nd).
  { cbn [production_lines List.length]. lia. }
  { apply production_lines_NoDup. }
  destruct (sample R L production_lines n g) as [[e|sel'] g1];
    cbn [fst] in E; [discriminate E|].
  inversion E; subst sel'. clear E.
  exists sel.
  destruct (configs_loop' sel 0 g1) as [[cs t] g2] eqn:Cl.
  destruct (choice L workorder_types g2) as [wt g3] eqn:Wt.
  destruct (choice L priority_levels g3) as [pl g4] eqn:Pl.
  cbn [fst]. eexists. exists g1, g2, g3.
  split; [reflexivity|]. split; [lia|]. split; [exact In|].
  split; [exact Nd|].
  cbn [WorkorderConfigurationResponse.workorder_number
       WorkorderConfigurationResponse.production_line_configs
       WorkorderConfigurationResponse.total_configured_time_days
       WorkorderConfigurationResponse.workorder_type
       WorkorderConfigurationResponse.priority_level].
  rewrite Cl, Wt, Pl. cbn [fst snd]. repeat split; reflexivity.
Qed.

Lemma map_length_eq {A B : Type} (f : A -> B) (l : list A) (l' : list B) :
  map f l = l' -> List.length l = List.length l'.
Proof. intros <-. symmetry. apply length_map. Qed.

End Endpoints.
(** *** The counting generator keeps to the documentation *)

Lemma counter_randint :
  Server.randint_in_range Tabulated.tabulated Counter.counter.
Proof.
  intros a b g H. cbn [Counter.counter Server.randint fst].
  pose proof (Z.mod_pos_bound (Counter.pick g) (b - a + 1) ltac:(lia)). lia.
Qed.

Lemma counter_uniform :
  Server.uniform_in_range Tabulated.tabulated Counter.counter.
Proof.
  intros a b g H. cbn [Counter.counter Server.uniform fst].
  assert (E : (a + b) / 2 == (a + b) * (1 # 2)) by (unfold Qdiv; reflexivity).
  rewrite E. split; lra.
Qed.

Lemma counter_sample :
  Server.sample_is_selection Tabulated.tabulated Counter.counter.
Proof.
  intros population k g H. cbn [Counter.counter Server.sample_draw fst].
  split; [|split].
  - rewrite length_firstn. lia.
  - intros x I. rewrite <- (firstn_skipn (Z.to_nat k) population).
    apply in_or_app. left. exact I.
  - intro N. rewrite <- (firstn_skipn (Z.to_nat k) population) in N.
    apply (NoDup_app_remove_r _ _ N).
Qed.

Lemma counter_choice :
  Server.choice_is_member Tabulated.tabulated Counter.counter.
Proof.
  intros l g H. cbn [Counter.counter Server.choice fst].
  apply nth_In.
  assert (P : (0 < Z.of_nat (length l))%Z).
  { destruct l; [congruence|cbn [length]; lia]. }
  pose proof (Z.mod_pos_bound (Counter.pick g) (Z.of_nat (length l)) P). lia.
Qed.

Section Workorders.

Import Stdlib.Strings.String.

(** X1.  For one work-order number, whatever the clock and the global
    generator hold, [get_workorder_configuration] answers with the
    production lines of [get_workorder_details], in the same order; and
    if one of the two fails, both fail alike. *)
Theorem configuration_lists_the_lines_of_details :
  forall (R : Random) (L : Server.Random_lines R)
    (hash : String.string -> Z) (strftime : Z -> String.string)
    (clock clock' : Z) (workorder_number : String.string)
    (g0 g0' : generator R),
  match fst (Server.get_workorder_details R L hash strftime clock clock'
               workorder_number g0),
        fst (Server.get_workorder_configuration R L hash workorder_number
               g0') with
  | inr d, inr c =>
      map Server.ProductionLineDetail.line_name
        (Server.WorkorderResponse.production_lines d)
      = map Server.ProductionLineConfiguration.line_name
          (Server.WorkorderConfigurationResponse.production_line_configs c)
  | inl e, inl e' => e = e'
  | _, _ => False
  end.
Proof.
  intros R L hash strftime clock clock' w g0 g0'.
  unfold Server.get_workorder_details, Server.get_workorder_configuration.
  destruct (Server.randint L 3 5 (seed R (hash w mod 1000)%Z)) as [n g].
  destruct (Server.sample R L Server.production_lines n g) as [[e|sel] g1].
  - reflexivity.
  - destruct (Server.randint L 10 30 g1) as [back g2].
    pose proof (details_loop_names R L strftime
                  (Z.of_nat (List.length sel)) sel 0%Z
                  (clock - Server.timedelta_days (inject_Z back))%Z g2) as Dn.
    destruct (Server.details_loop R L strftime _ 0%Z sel _ g2)
      as [[ds last] g3].
    destruct (Server.randint L 30 60 g3) as [cr g4].
    pose proof (configs_loop_names R L sel 0 g1) as Cn.
    destruct (Server.configs_loop R L sel 0 g1) as [[cs t] g5].
    destruct (Server.choice L Server.workorder_types g5) as [wt g6].
    destruct (Server.choice L Server.priority_levels g6) as [pl g7].
    cbn [fst Server.WorkorderResponse.production_lines
         Server.WorkorderConfigurationResponse.production_line_configs] in *.
    congruence.
Qed.

(** X2.  With [randint] and [sample] as documented,
    [get_workorder_details] never fails: it answers for the work-order
    number it was asked about with three, four or five production
    lines, all different and all from the catalogue of seven. *)
Theorem workorder_details_lines :
  forall (R : Random) (L : Server.Random_lines R)
    (hash : String.string -> Z) (strftime : Z -> String.string)
    (clock clock' : Z) (workorder_number : String.string)
    (g0 : generator R),
  Server.randint_in_range R L -> Server.sample_is_selection R L ->
  exists r : Server.WorkorderResponse.t,
    fst (Server.get_workorder_details R L hash strftime clock clock'
           workorder_number g0) = inr r /\
    Server.WorkorderResponse.workorder_number r = workorder_number /\
    (3 <= List.length (Server.WorkorderResponse.production_lines r) <= 5)%nat /\
    NoDup (map Server.ProductionLineDetail.line_name
             (Server.WorkorderResponse.production_lines r)) /\
    incl (map Server.ProductionLineDetail.line_name
            (Server.WorkorderResponse.production_lines r))
      Server.production_lines.
Proof.
  intros R L hash strftime clock clock' w g0 I S.
  destruct (details_shape R L hash strftime clock clock' w g0 I S)
    as (sel & r & d & g & E & Ln & In & Nd & Ew & El & _).
  exists r. split; [exact E|]. split; [exact Ew|].
  pose proof (details_loop_names R L strftime (Z.of_nat (List.length sel))
                sel 0%Z d g) as Nm.
  rewrite <- El in Nm. rewrite Nm.
  rewrite (map_length_eq _ _ _ Nm).
  split; [lia|]. split; [exact Nd|exact In].
Qed.

Lemma workorder_details_lines_witness :
  exists r : Server.WorkorderResponse.t,
    fst (Server.get_workorder_details Tabulated.tabulated Counter.counter
           Counter.hash Counter.strftime 0 0 "WO-2024-001" (0%Z, O)) = inr r /\
    Server.WorkorderResponse.workorder_number r = "WO-2024-001"%string /\
    (3 <= List.length (Server.WorkorderResponse.production_lines r) <= 5)%nat /\
    NoDup (map Server.ProductionLineDetail.line_name
             (Server.WorkorderResponse.production_lines r)) /\
    incl (map Server.ProductionLineDetail.line_name
            (Server.WorkorderResponse.production_lines r))
      Server.production_lines.
Proof.
  exact (workorder_details_lines Tabulated.tabulated Counter.counter
           Counter.hash Counter.strftime 0 0 "WO-2024-001" (0%Z, O)
           counter_randint counter_sample).
Defined.

(** X3.  With [randint] and [sample] as documented, the answer of
    [get_workorder_details] always has [current_status] "In Progress":
    the line before the last one is "In Progress" and every other line,
    the last one included, is "Completed". *)
Theorem workorder_always_in_progress :
  forall (R : Random) (L : Server.Random_lines R)
    (hash : String.string -> Z) (strftime : Z -> String.string)
    (clock clock' : Z) (workorder_number : String.string)
    (g0 : generator R) (r : Server.WorkorderResponse.t),
  Server.randint_in_range R L -> Server.sample_is_selection R L ->
  fst (Server.get_workorder_details R L hash strftime clock clock'
         workorder_number g0) = inr r ->
  Server.WorkorderResponse.current_status r = "In Progress"%string /\
  forall (k : nat) (d : Server.ProductionLineDetail.t),
    nth_error (Server.WorkorderResponse.production_lines r) k = Some d ->
    Server.ProductionLineDetail.status d
    = if (k =? List.length (Server.WorkorderResponse.production_lines r) - 2)%nat
      then "In Progress"%string else "Completed"%string.
Proof.
  intros R L hash strftime clock clock' w g0 r I S Er.
  destruct (details_shape R L hash strftime clock clock' w g0 I S)
    as (sel & r' & d0 & g & E & Ln & _ & _ & _ & El & _ & Ec).
  rewrite Er in E. inversion E; subst r'. clear E.
  pose proof (details_loop_names R L strftime (Z.of_nat (List.length sel))
                sel 0%Z d0 g) as Nm.
  rewrite <- El in Nm. pose proof (map_length_eq _ _ _ Nm) as Len.
  set (lines := Server.WorkorderResponse.production_lines r) in *.
  assert (St : forall k d, nth_error lines k = Some d ->
            Server.ProductionLineDetail.status d
            = if (k =? List.length lines - 2)%nat
              then "In Progress"%string else "Completed"%string).
  { intros k d Hk.
    assert (Kl : (k < List.length lines)%nat).
    { apply nth_error_Some. rewrite Hk. discriminate. }
    rewrite El in Hk.
    rewrite (details_loop_status R L strftime _ sel 0%Z d0 g k d Hk).
    unfold Server.line_status. rewrite <- Len.
    destruct (Nat.eqb_spec k (List.length lines - 2)) as [K|K].
    - destruct (Z.eqb_spec (0 + Z.of_nat k)
                  (Z.of_nat (List.length lines) - 1)); [lia|].
      destruct (Z.eqb_spec (0 + Z.of_nat k)
                  (Z.of_nat (List.length lines) - 2)); [reflexivity|lia].
    - destruct (Z.eqb_spec (0 + Z.of_nat k)
                  (Z.of_nat (List.length lines) - 1)); [reflexivity|].
      destruct (Z.eqb_spec (0 + Z.of_nat k)
                  (Z.of_nat (List.length lines) - 2)); [lia|reflexivity]. }
  split; [|exact St].
  rewrite Ec. fold lines.
  destruct (nth_error lines (List.length lines - 2)) as [d|] eqn:Hd.
  2:{ apply nth_error_None in Hd. lia. }
  pose proof (St _ d Hd) as Sd. rewrite Nat.eqb_refl in Sd.
  assert (Ex : existsb
                 (fun line =>
                    String.eqb (Server.ProductionLineDetail.status line)
                      "In Progress") lines = true).
  { apply existsb_exists. exists d. split.
    - apply (nth_error_In _ _ Hd).
    - rewrite Sd. reflexivity. }
  rewrite Ex. reflexivity.
Qed.

Lemma workorder_always_in_progress_witness :
  exists r : Server.WorkorderResponse.t,
    fst (Server.get_workorder_details Tabulated.tabulated Counter.counter
           Counter.hash Counter.strftime 0 0 "WO-2024-001" (0%Z, O)) = inr r /\
    map Server.ProductionLineDetail.status
      (Server.WorkorderResponse.production_lines r)
    = ["Completed"; "Completed"; "Completed"; "In Progress"; "Completed"]%string
    /\
    Server.WorkorderResponse.current_status r = "In Progress"%string.
Proof.
  destruct (fst (Server.get_workorder_details Tabulated.tabulated
                   Counter.counter Counter.hash Counter.strftime 0 0
                   "WO-2024-001" (0%Z, O))) as [e|r] eqn:E;
    [vm_compute in E; discriminate E|].
  exists r. split; [reflexivity|]. split.
  - vm_compute in E. inversion E. reflexivity.
  - exact (proj1 (workorder_always_in_progress Tabulated.tabulated
                    Counter.counter Counter.hash Counter.strftime 0 0
                    "WO-2024-001" (0%Z, O) r counter_randint counter_sample
                    E)).
Defined.

End Workorders.
Section Totals.

Import Stdlib.Strings.String.

(** X4.  With [randint], [sample] and [uniform] as documented, every
    line of the answer of [get_workorder_details] spent between 0.5 and
    3.0 days, [total_processing_time_days] is the sum of the times of
    the lines, and it lies between 1.5 and 15 days. *)
Theorem workorder_total_time :
  forall (R : Random) (L : Server.Random_lines R)
    (hash : String.string -> Z) (strftime : Z -> String.string)
    (clock clock' : Z) (workorder_number : String.string)
    (g0 : generator R) (r : Server.WorkorderResponse.t),
  Server.randint_in_range R L -> Server.sample_is_selection R L ->
  Server.uniform_in_range R L ->
  fst (Server.get_workorder_details R L hash strftime clock clock'
         workorder_number g0) = inr r ->
  Forall
    (fun d =>
       (1 # 2) <= Server.ProductionLineDetail.time_spent_days d /\
       Server.ProductionLineDetail.time_spent_days d <= 3)
    (Server.WorkorderResponse.production_lines r) /\
  Server.WorkorderResponse.total_processing_time_days r
  == Server.sum (map Server.ProductionLineDetail.time_spent_days
                   (Server.WorkorderResponse.production_lines r)) /\
  (3 # 2) <= Server.WorkorderResponse.total_processing_time_days r /\
  Server.WorkorderResponse.total_processing_time_days r <= 15.
Proof.
  intros R L hash strftime clock clock' w g0 r I S U Er.
  destruct (details_shape R L hash strftime clock clock' w g0 I S)
    as (sel & r' & d0 & g & E & Ln & _ & _ & _ & El & Et & _).
  rewrite Er in E. inversion E; subst r'. clear E.
  pose proof (details_loop_names R L strftime (Z.of_nat (List.length sel))
                sel 0%Z d0 g) as Nm.
  rewrite <- El in Nm. pose proof (map_length_eq _ _ _ Nm) as Len.
  pose proof (details_loop_times R L strftime (Z.of_nat (List.length sel))
                sel U 0%Z d0 g) as Tm.
  rewrite <- El in Tm.
  set (lines := Server.WorkorderResponse.production_lines r) in *.
  assert (Tq : Forall
                 (fun x => (1 # 2) <= x /\ x <= 3 /\
                           exists z : Z, x == inject_Z z / 10)
                 (map Server.ProductionLineDetail.time_spent_days lines)).
  { apply Forall_map. exact Tm. }
  destruct (sum_tenths (1 # 2) 3 _ Tq) as (Lo & Hi & z & Ez).
  rewrite length_map in Lo, Hi.
  assert (Es : Server.WorkorderResponse.total_processing_time_days r
               == Server.sum
                    (map Server.ProductionLineDetail.time_spent_days lines)).
  { rewrite Et. apply (round1_tenths z). exact Ez. }
  split; [|split; [exact Es|]].
  - eapply Forall_impl; [|exact Tm]. cbn beta. intros d (A & B & _).
    split; assumption.
  - rewrite Es.
    assert (L3 : 3 <= inject_Z (Z.of_nat (List.length lines))).
    { change 3 with (inject_Z 3). rewrite <- Zle_Qle. lia. }
    assert (L5 : inject_Z (Z.of_nat (List.length lines)) <= 5).
    { change 5 with (inject_Z 5). rewrite <- Zle_Qle. lia. }
    split; lra.
Qed.

Lemma workorder_total_time_witness :
  exists r : Server.WorkorderResponse.t,
    fst (Server.get_workorder_details Tabulated.tabulated Counter.counter
           Counter.hash Counter.strftime 0 0 "WO-2024-001" (0%Z, O)) = inr r /\
    Server.WorkorderResponse.total_processing_time_days r
    == Server.sum (map Server.ProductionLineDetail.time_spent_days
                     (Server.WorkorderResponse.production_lines r)) /\
    (3 # 2) <= Server.WorkorderResponse.total_processing_time_days r /\
    Server.WorkorderResponse.total_processing_time_days r <= 15.
Proof.
  destruct (fst (Server.get_workorder_details Tabulated.tabulated
                   Counter.counter Counter.hash Counter.strftime 0 0
                   "WO-2024-001" (0%Z, O))) as [e|r] eqn:E;
    [vm_compute in E; discriminate E|].
  exists r. split; [reflexivity|].
  exact (proj2 (workorder_total_time Tabulated.tabulated Counter.counter
                  Counter.hash Counter.strftime 0 0 "WO-2024-001" (0%Z, O) r
                  counter_randint counter_sample counter_uniform E)).
Defined.

(** X5.  With [randint], [sample] and [choice] as documented,
    [get_workorder_configuration] never fails, and in its answer every
    line carries the type the dictionary [line_types] has for its name:
    the default "General" is never used.  The work-order type and the
    priority level are among the four listed for each. *)
Theorem configuration_line_types :
  forall (R : Random) (L : Server.Random_lines R)
    (hash : String.string -> Z) (workorder_number : String.string)
    (g0 : generator R),
  Server.randint_in_range R L -> Server.sample_is_selection R L ->
  Server.choice_is_member R L ->
  exists c : Server.WorkorderConfigurationResponse.t,
    fst (Server.get_workorder_configuration R L hash workorder_number g0)
    = inr c /\
    Server.WorkorderConfigurationResponse.workorder_number c
    = workorder_number /\
    Forall
      (fun lc =>
         In (Server.ProductionLineConfiguration.line_name lc,
             Server.ProductionLineConfiguration.line_type lc)
           Server.line_types /\
         Server.ProductionLineConfiguration.line_type lc
         <> "General"%string)
      (Server.WorkorderConfigurationResponse.production_line_configs c) /\
    In (Server.WorkorderConfigurationResponse.workorder_type c)
      Server.workorder_types /\
    In (Server.WorkorderConfigurationResponse.priority_level c)
      Server.priority_levels.
Proof.
  intros R L hash w g0 I S Ch.
  destruct (configuration_shape R L hash w g0 I S)
    as (sel & c & g & g' & g'' & E & Ln & In & Nd & Ew & El & _ & Et & Ep).
  exists c. split; [exact E|]. split; [exact Ew|].
  pose proof (configs_loop_names R L sel 0 g) as Nm. rewrite <- El in Nm.
  pose proof (configs_loop_types R L sel 0 g) as Ls. rewrite <- El in Ls.
  split; [|split].
  - rewrite Forall_forall in Ls. apply Forall_forall. intros lc Ilc.
    pose proof (Ls lc Ilc) as Ty.
    assert (Inm : List.In (Server.ProductionLineConfiguration.line_name lc)
                    Server.production_lines).
    { apply In. rewrite <- Nm. apply in_map. exact Ilc. }
    rewrite Ty. apply line_types_known. exact Inm.
  - rewrite Et. apply Ch. discriminate.
  - rewrite Ep. apply Ch. discriminate.
Qed.

Lemma configuration_line_types_witness :
  exists c : Server.WorkorderConfigurationResponse.t,
    fst (Server.get_workorder_configuration Tabulated.tabulated
           Counter.counter Counter.hash "WO-2024-001" (0%Z, O)) = inr c /\
    Server.WorkorderConfigurationResponse.workorder_number c
    = "WO-2024-001"%string /\
    Forall
      (fun lc =>
         In (Server.ProductionLineConfiguration.line_name lc,
             Server.ProductionLineConfiguration.line_type lc)
           Server.line_types /\
         Server.ProductionLineConfiguration.line_type lc
         <> "General"%string)
      (Server.WorkorderConfigurationResponse.production_line_configs c) /\
    In (Server.WorkorderConfigurationResponse.workorder_type c)
      Server.workorder_types /\
    In (Server.WorkorderConfigurationResponse.priority_level c)
      Server.priority_levels.
Proof.
  exact (configuration_line_types Tabulated.tabulated Counter.counter
           Counter.hash "WO-2024-001" (0%Z, O) counter_randint
           counter_sample counter_choice).
Defined.

(** X6.  With [randint], [sample] and [uniform] as documented, every
    line of the answer of [get_workorder_configuration] has a
    configured time between 1.0 and 4.0 days, a capacity between 50 and
    200 a day and a priority between 1 and 5;
    [total_configured_time_days] is the sum of the configured times and
    lies between 3 and 20 days. *)
Theorem configuration_total_time :
  forall (R : Random) (L : Server.Random_lines R)
    (hash : String.string -> Z) (workorder_number : String.string)
    (g0 : generator R) (c : Server.WorkorderConfigurationResponse.t),
  Server.randint_in_range R L -> Server.sample_is_selection R L ->
  Server.uniform_in_range R L ->
  fst (Server.get_workorder_configuration R L hash workorder_number g0)
  = inr c ->
  Forall
    (fun lc =>
       1 <= Server.ProductionLineConfiguration.configured_time_days lc /\
       Server.ProductionLineConfiguration.configured_time_days lc <= 4 /\
       (50 <= Server.ProductionLineConfiguration.capacity_per_day lc <= 200)%Z /\
       (1 <= Server.ProductionLineConfiguration.priority lc <= 5)%Z)
    (Server.WorkorderConfigurationResponse.production_line_configs c) /\
  Server.WorkorderConfigurationResponse.total_configured_time_days c
  == Server.sum
       (map Server.ProductionLineConfiguration.configured_time_days
          (Server.WorkorderConfigurationResponse.production_line_configs c)) /\
  3 <= Server.WorkorderConfigurationResponse.total_configured_time_days c /\
  Server.WorkorderConfigurationResponse.total_configured_time_days c <= 20.
Proof.
  intros R L hash w g0 c I S U Ec.
  destruct (configuration_shape R L hash w g0 I S)
    as (sel & c' & g & g' & g'' & E & Ln & _ & _ & _ & El & Et & _).
  rewrite Ec in E. inversion E; subst c'. clear E.
  pose proof (configs_loop_names R L sel 0 g) as Nm. rewrite <- El in Nm.
  pose proof (map_length_eq _ _ _ Nm) as Len.
  pose proof (configs_loop_lines R L sel U I 0 g) as Ls. rewrite <- El in Ls.
  pose proof (configs_loop_total R L sel 0 g) as Tt. rewrite <- El in Tt.
  set (configs :=
         Server.WorkorderConfigurationResponse.production_line_configs c)
    in *.
  assert (Tq : Forall
                 (fun x => 1 <= x /\ x <= 4 /\
                           exists z : Z, x == inject_Z z / 10)
                 (map Server.ProductionLineConfiguration.configured_time_days
                    configs)).
  { apply Forall_map. eapply Forall_impl; [|exact Ls]. cbn beta.
    intros lc (A & B & Z0 & _). split; [exact A|split; [exact B|exact Z0]]. }
  destruct (sum_tenths 1 4 _ Tq) as (Lo & Hi & z & Ez).
  rewrite length_map in Lo, Hi.
  assert (Es : Server.WorkorderConfigurationResponse.total_configured_time_days
                 c
               == Server.sum
                    (map
                       Server.ProductionLineConfiguration.configured_time_days
                       configs)).
  { rewrite Et. rewrite <- (round1_tenths z (Server.sum _)) by exact Ez.
    unfold Server.round1.
    rewrite (rint_Qeq (snd (fst (Server.configs_loop R L sel 0 g)) * 10)
               (Server.sum
                  (map
                     Server.ProductionLineConfiguration.configured_time_days
                     configs) * 10)); [reflexivity|].
    rewrite Tt. lra. }
  split; [|split; [exact Es|]].
  - eapply Forall_impl; [|exact Ls]. cbn beta.
    intros lc (A & B & _ & Cp & Pr).
    split; [exact A|split; [exact B|split; [exact Cp|exact Pr]]].
  - rewrite Es.
    assert (L3 : 3 <= inject_Z (Z.of_nat (List.length configs))).
    { change 3 with (inject_Z 3). rewrite <- Zle_Qle. lia. }
    assert (L5 : inject_Z (Z.of_nat (List.length configs)) <= 5).
    { change 5 with (inject_Z 5). rewrite <- Zle_Qle. lia. }
    split; lra.
Qed.

Lemma configuration_total_time_witness :
  exists c : Server.WorkorderConfigurationResponse.t,
    fst (Server.get_workorder_configuration Tabulated.tabulated
           Counter.counter Counter.hash "WO-2024-001" (0%Z, O)) = inr c /\
    Server.WorkorderConfigurationResponse.total_configured_time_days c
    == Server.sum
         (map Server.ProductionLineConfiguration.configured_time_days
            (Server.WorkorderConfigurationResponse.production_line_configs c))
    /\
    3 <= Server.WorkorderConfigurationResponse.total_configured_time_days c /\
    Server.WorkorderConfigurationResponse.total_configured_time_days c <= 20.
Proof.
  destruct (fst (Server.get_workorder_configuration Tabulated.tabulated
                   Counter.counter Counter.hash "WO-2024-001" (0%Z, O)))
    as [e|c] eqn:E; [vm_compute in E; discriminate E|].
  exists c. split; [reflexivity|].
  exact (proj2 (configuration_total_time Tabulated.tabulated Counter.counter
                  Counter.hash "WO-2024-001" (0%Z, O) c counter_randint
                  counter_sample counter_uniform E)).
Defined.

End Totals.
